(** * Nero Manager: a shallow embedding of the orchestration core

    The development follows [src/neromanager.cpp] and
    [src/neropreferences.cpp].  Qt values are embedded as follows:
    a [QString] is a [string], a [QStringList] a [list string], a
    [QProcessEnvironment] and a [QSettings] group are finite maps keyed by
    strings, the file system is a finite map from paths to file contents,
    and a handler that indexes a [QList] with [at] returns [None] when the
    index is out of range or the element is a null pointer (the C++ code
    has no defined behaviour there). *)

From Stdlib Require Import ZArith Lia.
From Stdlib Require Import Strings.String Strings.Ascii.
From Stdlib Require Import Sorting.Permutation Sorting.Sorted Structures.OrdersEx.
From stdpp Require Import base decidable option list gmap sets strings pretty.

Open Scope string_scope.

(** ** Qt strings and string lists *)

Module Qt.

(** The double quote and the line feed, which the C++ literals escape. *)
Definition dq : string := String "034"%char EmptyString.
Definition nl : string := String "010"%char EmptyString.

(** [QString::startsWith(prefix)], case sensitive. *)
Definition startsWith (s prefix : string) : bool := String.prefix prefix s.

(** [QString::contains(needle)] and [QByteArray::contains(needle)],
    case sensitive. *)
Fixpoint contains (s needle : string) : bool :=
  String.prefix needle s
  || match s with
     | EmptyString => false
     | String _ s' => contains s' needle
     end.

(** [QStringList::filter(needle)]: the entries that contain [needle]. *)
Definition filter (l : list string) (needle : string) : list string :=
  List.filter (fun s => contains s needle) l.

(** [QStringList::join(separator)]. *)
Definition join (l : list string) (sep : string) : string :=
  String.concat sep l.

(** [QString::number(int)], in base ten. *)
Definition number (n : Z) : string := pretty n.

(** [QStringList::removeDuplicates()]: the first occurrence of every
    entry is kept, in order. *)
Fixpoint removeDuplicates_from (seen l : list string) : list string :=
  match l with
  | [] => []
  | x :: r =>
      if bool_decide (x ∈ seen) then removeDuplicates_from seen r
      else x :: removeDuplicates_from (x :: seen) r
  end.
Definition removeDuplicates (l : list string) : list string :=
  removeDuplicates_from [] l.

(** [QString::replace(before, after)] for a non-empty [before]: every
    occurrence found scanning left to right is replaced, and the text put
    in is not scanned again.  [fuel] bounds the scan by the length of the
    subject. *)
Fixpoint drop_chars (n : nat) (s : string) : string :=
  match n, s with
  | S n', String _ s' => drop_chars n' s'
  | _, _ => s
  end.
Fixpoint replace_fuel (fuel : nat) (s before after : string) : string :=
  match fuel with
  | O => s
  | S fuel' =>
      match s with
      | EmptyString => EmptyString
      | String c s' =>
          if String.prefix before s
          then after +:+ replace_fuel fuel' (drop_chars (String.length before) s) before after
          else String c (replace_fuel fuel' s' before after)
      end
  end.
Definition replace (s before after : string) : string :=
  replace_fuel (String.length s) s before after.

(** [QByteArray::readLine] over a whole file: the lines of [s], each with
    its line feed when it has one. *)
Fixpoint readLines_from (cur s : string) : list string :=
  match s with
  | EmptyString => if String.eqb cur EmptyString then [] else [cur]
  | String c s' =>
      if Ascii.eqb c "010"%char
      then (cur +:+ nl) :: readLines_from EmptyString s'
      else readLines_from (cur +:+ String c EmptyString) s'
  end.
Definition readLines (s : string) : list string := readLines_from EmptyString s.

(** [QByteArray::trimmed]: the blanks at both ends are dropped. *)
Definition isSpace (c : ascii) : bool :=
  let n := nat_of_ascii c in
  (n =? 32)%nat || ((9 <=? n)%nat && (n <=? 13)%nat).
Fixpoint dropSpaces (s : string) : string :=
  match s with
  | EmptyString => EmptyString
  | String c s' => if isSpace c then dropSpaces s' else s
  end.
Fixpoint reverse_onto (acc s : string) : string :=
  match s with
  | EmptyString => acc
  | String c s' => reverse_onto (String c acc) s'
  end.
Definition trimmed (s : string) : string :=
  reverse_onto EmptyString (dropSpaces (reverse_onto EmptyString (dropSpaces s))).

(** A [QVariant] as the settings store holds it. *)
Inductive QVariant : Type :=
| VBool (b : bool)
| VString (s : string)
| VSize (w h : Z).

Definition lower (c : ascii) : ascii :=
  let n := nat_of_ascii c in
  if (65 <=? n)%nat && (n <=? 90)%nat then ascii_of_nat (n + 32) else c.
Fixpoint toLower (s : string) : string :=
  match s with
  | EmptyString => EmptyString
  | String c s' => String (lower c) (toLower s')
  end.

(** [QVariant::toBool]: an invalid variant is false; a string is false
    when its lower-case text is empty, 0 or false. *)
Definition toBool (v : option QVariant) : bool :=
  match v with
  | Some (VBool b) => b
  | Some (VString s) =>
      let t := toLower s in
      negb (String.eqb t EmptyString || String.eqb t "0" || String.eqb t "false")
  | _ => false
  end.

(** [QVariant::toString]. *)
Definition toString (v : option QVariant) : string :=
  match v with
  | Some (VString s) => s
  | Some (VBool true) => "true"
  | Some (VBool false) => "false"
  | _ => EmptyString
  end.

End Qt.

(** ** The NeroFS store

    [nerofs.cpp] is not among the sources verified here; the static state
    the manager reads and writes through [NeroFS::] calls is kept in one
    record.  Only the configuration of the current prefix is held, since
    the handlers below reach the settings through
    [NeroFS::GetCurrentPrefixCfg]. *)

Module NeroFS.

#[projections(primitive)]
Record t : Type := mk {
  prefixesPath : string;            (* GetPrefixesPath().path() *)
  prefixesCanonicalPath : string;   (* GetPrefixesPath().canonicalPath() *)
  protonsPath : string;             (* GetProtonsPath().path() *)
  umu : string;                     (* GetUmU() *)
  currentPrefix : string;           (* GetCurrentPrefix() *)
  prefixes : list (string * string);            (* registered prefixes with their runner *)
  prefixSettings : gmap string Qt.QVariant;     (* group PrefixSettings of the current prefix *)
  shortcuts : list (string * string);           (* group Shortcuts: hash and display name, in persisted order *)
  shortcutSettings : gmap string (gmap string Qt.QVariant);  (* per hash *)
  files : gmap string string                    (* existing files, by path *)
}.

Definition set_prefixes (v : list (string * string)) (s : t) : t :=
  mk (prefixesPath s) (prefixesCanonicalPath s) (protonsPath s) (umu s)
     (currentPrefix s) v (prefixSettings s) (shortcuts s)
     (shortcutSettings s) (files s).

Definition set_shortcuts (v : list (string * string)) (s : t) : t :=
  mk (prefixesPath s) (prefixesCanonicalPath s) (protonsPath s) (umu s)
     (currentPrefix s) (prefixes s) (prefixSettings s) v
     (shortcutSettings s) (files s).

Definition set_shortcutSettings (v : gmap string (gmap string Qt.QVariant)) (s : t) : t :=
  mk (prefixesPath s) (prefixesCanonicalPath s) (protonsPath s) (umu s)
     (currentPrefix s) (prefixes s) (prefixSettings s) (shortcuts s)
     v (files s).

Definition set_files (v : gmap string string) (s : t) : t :=
  mk (prefixesPath s) (prefixesCanonicalPath s) (protonsPath s) (umu s)
     (currentPrefix s) (prefixes s) (prefixSettings s) (shortcuts s)
     (shortcutSettings s) v.

(** [QFile::exists]. *)
Definition exists_ (s : t) (path : string) : bool :=
  bool_decide (is_Some (files s !! path)).

(** Modelled from the spec: [NeroFS::GetPrefixes], defined outside the
    verified sources: the names of the prefixes the registry store holds. *)
Definition GetPrefixes (s : t) : list string := (prefixes s).*1.

(** Modelled from the spec: [NeroFS::AddNewPrefix] is declared in
    [nerofs.h] and defined outside the verified sources.  The specification
    has it commit the new prefix, with its runner, to the registry store;
    the store keeps its prefixes in the order they were added. *)
Definition AddNewPrefix (name runner : string) (s : t) : t :=
  set_prefixes (prefixes s ++ [(name, runner)]) s.

(** [QSettings::setValue] on a group kept as an association list: the
    value of an existing key is overwritten in place, a new key is added
    at the end. *)
Fixpoint setValue (key value : string) (l : list (string * string)) : list (string * string) :=
  match l with
  | [] => [(key, value)]
  | (k, v) :: r =>
      if String.eqb k key then (k, value) :: r else (k, v) :: setValue key value r
  end.

(** [QSettings::childKeys] of the group Shortcuts. *)
Definition childKeys (s : t) : list string := (shortcuts s).*1.

(** Modelled from the spec: [NeroFS::SetCurrentPrefixCfg] for the group
    Shortcuts, defined outside the verified sources.  The per-prefix
    settings group maps a shortcut hash to its display name; setting a key
    overwrites the value stored under it. *)
Definition SetCurrentPrefixCfg_Shortcuts (key value : string) (s : t) : t :=
  set_shortcuts (setValue key value (shortcuts s)) s.

(** Modelled from the spec: [NeroFS::GetCurrentShortcutsMap], defined
    outside the verified sources.  The specification describes the
    per-prefix shortcut map as display name to content hash; it is the
    stored hash-to-name group turned around. *)
Definition GetCurrentShortcutsMap (s : t) : gmap string string :=
  list_to_map (prod_swap <$> shortcuts s).

(** Modelled from the spec: [NeroFS::GetCurrentPrefixShortcuts], defined
    outside the verified sources: the display names of the shortcuts of the
    current prefix, in the order of the persisted map. *)
Definition GetCurrentPrefixShortcuts (s : t) : list string :=
  (shortcuts s).*2.

(** Modelled from the spec: [NeroFS::AddNewShortcut], defined outside the
    verified sources: the shortcut is entered in the settings of the current
    prefix under its hash, with its display name and its path. *)
Definition AddNewShortcut (hash name path : string) (s : t) : t :=
  set_shortcutSettings
    (<[hash := <["Path" := Qt.VString path]> (<["Name" := Qt.VString name]> ∅)]>
       (shortcutSettings s))
    (set_shortcuts (setValue hash name (shortcuts s)) s).

End NeroFS.

(** ** The manager window

    The members of [NeroManagerWindow] that the handlers verified here read
    or write.  Icons are kept by the name they are created from; widgets
    whose only role is layout are left out. *)

(** A [NeroThreadController] with the arguments of its constructor and
    the two dynamic properties the window sets on it. *)
Record NeroThreadController : Type := mkController {
  ctl_slot : Z;                   (* button slot, -1 for a one-time run *)
  ctl_parameters : string;        (* shortcut hash, or path of the executable *)
  ctl_alreadyRunning : bool;      (* third argument, false by default *)
  ctl_oneTimeArgs : list string;  (* fourth argument, empty by default *)
  ctl_thread : nat;               (* property slot: index in umuController *)
  ctl_running : string            (* property running: name of a one-time run *)
}.

(** A play button with the properties set on it. *)
Record PlayButton : Type := mkPlayButton {
  btn_icon : string;
  btn_toolTip : string;
  btn_slot : nat;      (* property slot *)
  btn_hash : string;   (* property hash *)
  btn_thread : nat     (* property thread; toInt() of an unset property is 0 *)
}.

(** The [NeroRunnerDialog] as [SetupWindow] and [SetText] leave it. *)
Record RunnerDialog : Type := mkRunnerDialog {
  rd_starting : bool;
  rd_name : string;
  rd_text : option string
}.

(** What leaves the window: message boxes and the calls on controllers. *)
Inductive Event : Type :=
| Critical (title text : string)        (* QMessageBox::critical *)
| Stop (thread : nat)                   (* umuController.at(thread)->Stop() *)
| Operate (thread : nat).               (* emit umuController.at(thread)->operate() *)

#[projections(primitive)]
Record SysTray : Type := mkSysTray {
  supportsMessages : bool;   (* sysTray->supportsMessages() *)
  trayIcon : string;   (* resource path of the icon shown *)
  toolTip : string;   (* the aggregate status text *)
  messages : list (string * string)   (* showMessage(title, text), oldest first *)
}.

Definition set_trayIcon (v : string) (s : SysTray) : SysTray :=
  mkSysTray (supportsMessages s) v (toolTip s) (messages s).

Definition set_toolTip (v : string) (s : SysTray) : SysTray :=
  mkSysTray (supportsMessages s) (trayIcon s) v (messages s).

Definition set_messages (v : list (string * string)) (s : SysTray) : SysTray :=
  mkSysTray (supportsMessages s) (trayIcon s) (toolTip s) v.

#[projections(primitive)]
Record Ui : Type := mkUi {
  topTitle : string;
  topSubtitle : option string;   (* None when hidden *)
  backButtonEnabled : bool;
  backButtonIcon : string;
  backButtonToolTip : string;
  prefixSettingsBtnEnabled : bool;
  prefixTricksBtnEnabled : bool
}.

Definition set_topTitle (v : string) (s : Ui) : Ui :=
  mkUi v (topSubtitle s) (backButtonEnabled s) (backButtonIcon s)
    (backButtonToolTip s) (prefixSettingsBtnEnabled s)
    (prefixTricksBtnEnabled s).

Definition set_topSubtitle (v : option string) (s : Ui) : Ui :=
  mkUi (topTitle s) v (backButtonEnabled s) (backButtonIcon s)
    (backButtonToolTip s) (prefixSettingsBtnEnabled s)
    (prefixTricksBtnEnabled s).

Definition set_backButtonEnabled (v : bool) (s : Ui) : Ui :=
  mkUi (topTitle s) (topSubtitle s) v (backButtonIcon s) (backButtonToolTip
    s) (prefixSettingsBtnEnabled s) (prefixTricksBtnEnabled s).

Definition set_backButtonIcon (v : string) (s : Ui) : Ui :=
  mkUi (topTitle s) (topSubtitle s) (backButtonEnabled s) v
    (backButtonToolTip s) (prefixSettingsBtnEnabled s)
    (prefixTricksBtnEnabled s).

Definition set_backButtonToolTip (v : string) (s : Ui) : Ui :=
  mkUi (topTitle s) (topSubtitle s) (backButtonEnabled s) (backButtonIcon s)
    v (prefixSettingsBtnEnabled s) (prefixTricksBtnEnabled s).

Definition set_prefixSettingsBtnEnabled (v : bool) (s : Ui) : Ui :=
  mkUi (topTitle s) (topSubtitle s) (backButtonEnabled s) (backButtonIcon s)
    (backButtonToolTip s) v (prefixTricksBtnEnabled s).

Definition set_prefixTricksBtnEnabled (v : bool) (s : Ui) : Ui :=
  mkUi (topTitle s) (topSubtitle s) (backButtonEnabled s) (backButtonIcon s)
    (backButtonToolTip s) (prefixSettingsBtnEnabled s) v.

#[projections(primitive)]
Record Window : Type := mkWindow {
  fs : NeroFS.t;   (* the NeroFS store *)
  managerCfg : gmap string Qt.QVariant;   (* group NeroSettings *)
  sysTray : SysTray;
  ui : Ui;
  prefixIsSelected : bool;
  runnerPrefixIsDefault : bool;
  hidden : bool;   (* isHidden() *)
  currentlyRunning : list Z;   (* button slots of the live runs, -1 for a one-time run *)
  threadsCount : nat;
  umuController : list (option NeroThreadController);   (* None is a null pointer *)
  oneOffsRunning : list string;
  oneTimeLastPath : string;
  prefixMainButton : list string;   (* text of each button *)
  prefixDeleteButton : list string;   (* tool tip of each button *)
  prefixShortcutLabel : list (option string);   (* text of each label *)
  prefixShortcutPlayButton : list (option PlayButton);
  runnerWindow : option RunnerDialog;
  events : list Event   (* calls that leave the window, oldest first *)
}.

Definition set_fs (v : NeroFS.t) (s : Window) : Window :=
  mkWindow v (managerCfg s) (sysTray s) (ui s) (prefixIsSelected s)
    (runnerPrefixIsDefault s) (hidden s) (currentlyRunning s) (threadsCount
    s) (umuController s) (oneOffsRunning s) (oneTimeLastPath s)
    (prefixMainButton s) (prefixDeleteButton s) (prefixShortcutLabel s)
    (prefixShortcutPlayButton s) (runnerWindow s) (events s).

Definition set_managerCfg (v : gmap string Qt.QVariant) (s : Window) : Window :=
  mkWindow (fs s) v (sysTray s) (ui s) (prefixIsSelected s)
    (runnerPrefixIsDefault s) (hidden s) (currentlyRunning s) (threadsCount
    s) (umuController s) (oneOffsRunning s) (oneTimeLastPath s)
    (prefixMainButton s) (prefixDeleteButton s) (prefixShortcutLabel s)
    (prefixShortcutPlayButton s) (runnerWindow s) (events s).

Definition set_sysTray (v : SysTray) (s : Window) : Window :=
  mkWindow (fs s) (managerCfg s) v (ui s) (prefixIsSelected s)
    (runnerPrefixIsDefault s) (hidden s) (currentlyRunning s) (threadsCount
    s) (umuController s) (oneOffsRunning s) (oneTimeLastPath s)
    (prefixMainButton s) (prefixDeleteButton s) (prefixShortcutLabel s)
    (prefixShortcutPlayButton s) (runnerWindow s) (events s).

Definition set_ui (v : Ui) (s : Window) : Window :=
  mkWindow (fs s) (managerCfg s) (sysTray s) v (prefixIsSelected s)
    (runnerPrefixIsDefault s) (hidden s) (currentlyRunning s) (threadsCount
    s) (umuController s) (oneOffsRunning s) (oneTimeLastPath s)
    (prefixMainButton s) (prefixDeleteButton s) (prefixShortcutLabel s)
    (prefixShortcutPlayButton s) (runnerWindow s) (events s).

Definition set_prefixIsSelected (v : bool) (s : Window) : Window :=
  mkWindow (fs s) (managerCfg s) (sysTray s) (ui s) v (runnerPrefixIsDefault
    s) (hidden s) (currentlyRunning s) (threadsCount s) (umuController s)
    (oneOffsRunning s) (oneTimeLastPath s) (prefixMainButton s)
    (prefixDeleteButton s) (prefixShortcutLabel s) (prefixShortcutPlayButton
    s) (runnerWindow s) (events s).

Definition set_runnerPrefixIsDefault (v : bool) (s : Window) : Window :=
  mkWindow (fs s) (managerCfg s) (sysTray s) (ui s) (prefixIsSelected s) v
    (hidden s) (currentlyRunning s) (threadsCount s) (umuController s)
    (oneOffsRunning s) (oneTimeLastPath s) (prefixMainButton s)
    (prefixDeleteButton s) (prefixShortcutLabel s) (prefixShortcutPlayButton
    s) (runnerWindow s) (events s).

Definition set_hidden (v : bool) (s : Window) : Window :=
  mkWindow (fs s) (managerCfg s) (sysTray s) (ui s) (prefixIsSelected s)
    (runnerPrefixIsDefault s) v (currentlyRunning s) (threadsCount s)
    (umuController s) (oneOffsRunning s) (oneTimeLastPath s)
    (prefixMainButton s) (prefixDeleteButton s) (prefixShortcutLabel s)
    (prefixShortcutPlayButton s) (runnerWindow s) (events s).

Definition set_currentlyRunning (v : list Z) (s : Window) : Window :=
  mkWindow (fs s) (managerCfg s) (sysTray s) (ui s) (prefixIsSelected s)
    (runnerPrefixIsDefault s) (hidden s) v (threadsCount s) (umuController s)
    (oneOffsRunning s) (oneTimeLastPath s) (prefixMainButton s)
    (prefixDeleteButton s) (prefixShortcutLabel s) (prefixShortcutPlayButton
    s) (runnerWindow s) (events s).

Definition set_threadsCount (v : nat) (s : Window) : Window :=
  mkWindow (fs s) (managerCfg s) (sysTray s) (ui s) (prefixIsSelected s)
    (runnerPrefixIsDefault s) (hidden s) (currentlyRunning s) v
    (umuController s) (oneOffsRunning s) (oneTimeLastPath s)
    (prefixMainButton s) (prefixDeleteButton s) (prefixShortcutLabel s)
    (prefixShortcutPlayButton s) (runnerWindow s) (events s).

Definition set_umuController (v : list (option NeroThreadController)) (s : Window) : Window :=
  mkWindow (fs s) (managerCfg s) (sysTray s) (ui s) (prefixIsSelected s)
    (runnerPrefixIsDefault s) (hidden s) (currentlyRunning s) (threadsCount
    s) v (oneOffsRunning s) (oneTimeLastPath s) (prefixMainButton s)
    (prefixDeleteButton s) (prefixShortcutLabel s) (prefixShortcutPlayButton
    s) (runnerWindow s) (events s).

Definition set_oneOffsRunning (v : list string) (s : Window) : Window :=
  mkWindow (fs s) (managerCfg s) (sysTray s) (ui s) (prefixIsSelected s)
    (runnerPrefixIsDefault s) (hidden s) (currentlyRunning s) (threadsCount
    s) (umuController s) v (oneTimeLastPath s) (prefixMainButton s)
    (prefixDeleteButton s) (prefixShortcutLabel s) (prefixShortcutPlayButton
    s) (runnerWindow s) (events s).

Definition set_oneTimeLastPath (v : string) (s : Window) : Window :=
  mkWindow (fs s) (managerCfg s) (sysTray s) (ui s) (prefixIsSelected s)
    (runnerPrefixIsDefault s) (hidden s) (currentlyRunning s) (threadsCount
    s) (umuController s) (oneOffsRunning s) v (prefixMainButton s)
    (prefixDeleteButton s) (prefixShortcutLabel s) (prefixShortcutPlayButton
    s) (runnerWindow s) (events s).

Definition set_prefixMainButton (v : list string) (s : Window) : Window :=
  mkWindow (fs s) (managerCfg s) (sysTray s) (ui s) (prefixIsSelected s)
    (runnerPrefixIsDefault s) (hidden s) (currentlyRunning s) (threadsCount
    s) (umuController s) (oneOffsRunning s) (oneTimeLastPath s) v
    (prefixDeleteButton s) (prefixShortcutLabel s) (prefixShortcutPlayButton
    s) (runnerWindow s) (events s).

Definition set_prefixDeleteButton (v : list string) (s : Window) : Window :=
  mkWindow (fs s) (managerCfg s) (sysTray s) (ui s) (prefixIsSelected s)
    (runnerPrefixIsDefault s) (hidden s) (currentlyRunning s) (threadsCount
    s) (umuController s) (oneOffsRunning s) (oneTimeLastPath s)
    (prefixMainButton s) v (prefixShortcutLabel s) (prefixShortcutPlayButton
    s) (runnerWindow s) (events s).

Definition set_prefixShortcutLabel (v : list (option string)) (s : Window) : Window :=
  mkWindow (fs s) (managerCfg s) (sysTray s) (ui s) (prefixIsSelected s)
    (runnerPrefixIsDefault s) (hidden s) (currentlyRunning s) (threadsCount
    s) (umuController s) (oneOffsRunning s) (oneTimeLastPath s)
    (prefixMainButton s) (prefixDeleteButton s) v (prefixShortcutPlayButton
    s) (runnerWindow s) (events s).

Definition set_prefixShortcutPlayButton (v : list (option PlayButton)) (s : Window) : Window :=
  mkWindow (fs s) (managerCfg s) (sysTray s) (ui s) (prefixIsSelected s)
    (runnerPrefixIsDefault s) (hidden s) (currentlyRunning s) (threadsCount
    s) (umuController s) (oneOffsRunning s) (oneTimeLastPath s)
    (prefixMainButton s) (prefixDeleteButton s) (prefixShortcutLabel s) v
    (runnerWindow s) (events s).

Definition set_runnerWindow (v : option RunnerDialog) (s : Window) : Window :=
  mkWindow (fs s) (managerCfg s) (sysTray s) (ui s) (prefixIsSelected s)
    (runnerPrefixIsDefault s) (hidden s) (currentlyRunning s) (threadsCount
    s) (umuController s) (oneOffsRunning s) (oneTimeLastPath s)
    (prefixMainButton s) (prefixDeleteButton s) (prefixShortcutLabel s)
    (prefixShortcutPlayButton s) v (events s).

Definition set_events (v : list Event) (s : Window) : Window :=
  mkWindow (fs s) (managerCfg s) (sysTray s) (ui s) (prefixIsSelected s)
    (runnerPrefixIsDefault s) (hidden s) (currentlyRunning s) (threadsCount
    s) (umuController s) (oneOffsRunning s) (oneTimeLastPath s)
    (prefixMainButton s) (prefixDeleteButton s) (prefixShortcutLabel s)
    (prefixShortcutPlayButton s) (runnerWindow s) v.
(** ** Launching umu: environment and command line *)

(** A [QProcess] as [start] receives it. *)
Record Process : Type := mkProcess {
  program : string;
  arguments : list string;
  environment : gmap string string
}.

(** What a finished child process leaves behind: the exit code, the files
    on disk and whether [system.reg] can be opened for reading and
    writing.  The lines the polling loop reads only change the text of a
    wait box local to the handler. *)
Record ProcessRun : Type := mkProcessRun {
  exitCode : Z;
  filesAfter : gmap string string;
  regFileOpens : bool
}.

(** The four [env.insert] calls of [CreatePrefix] and of
    [tricksWindow_result], over [QProcessEnvironment::systemEnvironment()]. *)
Definition umuEnvironment (systemEnvironment : gmap string string)
    (s : NeroFS.t) (prefix runner : string) : gmap string string :=
  <["PROTON_USE_XALIA" := "0"]>
    (<["PROTONPATH" := NeroFS.protonsPath s +:+ "/" +:+ runner]>
       (<["GAMEID" := "0"]>
          (<["WINEPREFIX" := NeroFS.prefixesPath s +:+ "/" +:+ prefix]>
             systemEnvironment))).

(** The shell line that deletes the two registry keys before winetricks
    runs, as both call sites spell it. *)
Definition dotnetCleanupThenInstall (umu : string) (verbs : list string) : string :=
  umu +:+ " reg delete " +:+ Qt.dq
      +:+ "HKLM\Software\Wow6432Node\Microsoft\.NETFramework" +:+ Qt.dq +:+ " /f && "
  +:+ umu +:+ " reg delete " +:+ Qt.dq
      +:+ "HKLM\Software\Wow6432Node\Microsoft\NET Framework Setup" +:+ Qt.dq +:+ " /f && "
  +:+ umu +:+ " " +:+ Qt.join verbs " ".

(** The plain install line. *)
Definition installOnly (umu : string) (verbs : list string) : string :=
  umu +:+ " " +:+ Qt.join verbs " ".

(** The process [CreatePrefix] starts (lines 304 to 325). *)
Definition CreatePrefix_process (systemEnvironment : gmap string string)
    (s : NeroFS.t) (newPrefix runner : string) (tricksToInstall : list string) : Process :=
  let env := umuEnvironment systemEnvironment s newPrefix runner in
  match tricksToInstall with
  | [] => mkProcess (NeroFS.umu s) ["reg"; "/?"] env
  | _ :: _ =>
      let tricksToInstall := "winetricks" :: tricksToInstall in
      let argsList :=
        if negb (bool_decide (Qt.filter tricksToInstall "dotnet" = []))
        then [dotnetCleanupThenInstall (NeroFS.umu s) tricksToInstall]
        else [installOnly (NeroFS.umu s) tricksToInstall] in
      mkProcess "/bin/sh" ("-c" :: argsList) env
  end.

(** [sysTray->showMessage] behind its [supportsMessages] guard. *)
Definition showMessage (title text : string) (t : SysTray) : SysTray :=
  if supportsMessages t then set_messages (messages t ++ [(title, text)]) t else t.

(** The notification of [CreatePrefix] (lines 352 to 362). *)
Definition CreatePrefix_notify (newPrefix : string) (code : Z) (t : SysTray) : SysTray :=
  if bool_decide (code = 0%Z)
  then showMessage
         ("Finished Making Prefix " +:+ Qt.dq +:+ newPrefix +:+ Qt.dq)
         ("New Proton prefix " +:+ Qt.dq +:+ newPrefix +:+ Qt.dq
          +:+ " has been created successfully.") t
  else showMessage
         ("Error Making Prefix " +:+ Qt.dq +:+ newPrefix +:+ Qt.dq)
         ("Prefix creation process for " +:+ Qt.dq +:+ newPrefix +:+ Qt.dq
          +:+ " has exited with error code " +:+ Qt.number code
          +:+ ". This usually means that a winetricks verb has failed installation. "
          +:+ "Confirm that the desired verbs have installed in the prefix's "
          +:+ Qt.dq +:+ "Install Winetricks Components" +:+ Qt.dq +:+ " window.") t.

(** The serial port entries added below the section header of Wine's
    ports (lines 379 to 384). *)
Definition comPorts : string :=
  Qt.dq +:+ "COM1" +:+ Qt.dq +:+ "=" +:+ Qt.dq +:+ "/dev/ttyACM0" +:+ Qt.dq +:+ Qt.nl +:+
  Qt.dq +:+ "COM2" +:+ Qt.dq +:+ "=" +:+ Qt.dq +:+ "/dev/ttyACM1" +:+ Qt.dq +:+ Qt.nl +:+
  Qt.dq +:+ "COM3" +:+ Qt.dq +:+ "=" +:+ Qt.dq +:+ "/dev/ttyACM2" +:+ Qt.dq +:+ Qt.nl +:+
  Qt.dq +:+ "COM4" +:+ Qt.dq +:+ "=" +:+ Qt.dq +:+ "/dev/ttyACM3" +:+ Qt.dq +:+ Qt.nl +:+
  Qt.dq +:+ "COM5" +:+ Qt.dq +:+ "=" +:+ Qt.dq +:+ "/dev/ttyS0" +:+ Qt.dq +:+ Qt.nl.

(** The rewrite of [system.reg], line by line (lines 372 to 385). *)
Fixpoint fixSystemReg (lines : list string) : string :=
  match lines with
  | [] => EmptyString
  | line :: rest =>
      line
      +:+ (if Qt.startsWith line "[Software\\Wine\\Ports]" then comPorts else EmptyString)
      +:+ fixSystemReg rest
  end.

(** The marker file of a prefix: [prefixPath.exists("system.reg")] with
    [prefixPath] the directory of the prefix (lines 364 to 367). *)
Definition systemReg (s : NeroFS.t) (newPrefix : string) : string :=
  (NeroFS.prefixesPath s +:+ "/" +:+ newPrefix) +:+ "/system.reg".

(** [NeroManagerWindow::CreatePrefix] once the child process has stopped
    (lines 352 to 423): the notification, the fix of [system.reg], the
    registration of the prefix and its two buttons.  The wait box, the
    cursor and the blinking of the add button are not kept. *)
Definition CreatePrefix (run : ProcessRun) (newPrefix runner : string)
    (tricksToInstall : list string) (w : Window) : Window :=
  let w := set_sysTray (CreatePrefix_notify newPrefix (exitCode run) (sysTray w)) w in
  let w := set_fs (NeroFS.set_files (filesAfter run) (fs w)) w in
  let w :=
    match NeroFS.files (fs w) !! systemReg (fs w) newPrefix with
    | Some reg =>
        let w :=
          if regFileOpens run
          then set_fs (NeroFS.set_files
                         (<[systemReg (fs w) newPrefix := fixSystemReg (Qt.readLines reg)]>
                            (NeroFS.files (fs w))) (fs w)) w
          else w in
        let w := set_fs (NeroFS.AddNewPrefix newPrefix runner (fs w)) w in
        let w := set_prefixMainButton (prefixMainButton w ++ [newPrefix]) w in
        set_prefixDeleteButton (prefixDeleteButton w ++ ["Delete " +:+ newPrefix]) w
    | None => w
    end in
  set_sysTray (set_trayIcon ":/ico/systrayPhi" (sysTray w)) w.

(** The [NeroTricksWindow] dialog as the manager reads it. *)
(** [QDialog::result()]: the two codes of Qt and the -1 the settings
    dialog closes with to ask for the deletion of its shortcut. *)
Inductive DialogCode : Type := Rejected | Accepted | DeleteSignal.

Record NeroTricksWindow : Type := mkTricksWindow {
  verbIsSelected : list (string * bool);   (* a QMap, in key order *)
  installedVerbs : list string;
  tricks_result : DialogCode
}.

(** The components winetricks has logged for a prefix, as
    [on_prefixTricksBtn_clicked] reads them to tell the dialog what is
    installed (lines 810 to 820): the lines of [winetricks.log], trimmed
    and without duplicates; none when the prefix has no such file, and
    none when the file is there and cannot be opened.  [logOpens] is the
    result of [winetricksLog.open] (line 815). *)
Definition winetricksLogVerbs (logOpens : bool) (s : NeroFS.t) (prefix : string)
    : list string :=
  match NeroFS.files s !! (NeroFS.prefixesPath s +:+ "/" +:+ prefix +:+ "/winetricks.log") with
  | Some log =>
      if logOpens then Qt.removeDuplicates (Qt.trimmed <$> Qt.readLines log) else []
  | None => []
  end.

(** [tricks->verbIsSelected.keys(true)] followed by [removeDuplicates]
    (lines 831 and 832). *)
Definition verbsToInstall (tricks : NeroTricksWindow) : list string :=
  Qt.removeDuplicates ((List.filter (fun p => p.2) (verbIsSelected tricks)).*1).

(** The process [tricksWindow_result] starts (lines 850 to 877). *)
Definition tricksWindow_process (systemEnvironment : gmap string string)
    (s : NeroFS.t) (tricks : NeroTricksWindow) : Process :=
  let prefix := NeroFS.currentPrefix s in
  let runner := Qt.toString (NeroFS.prefixSettings s !! "CurrentRunner") in
  let env := umuEnvironment systemEnvironment s prefix runner in
  let verbsToInstall := "winetricks" :: verbsToInstall tricks in
  let argsList :=
    if bool_decide (Qt.filter (installedVerbs tricks) "dotnet" = [])
       && negb (bool_decide (Qt.filter verbsToInstall "dotnet" = []))
    then [dotnetCleanupThenInstall (NeroFS.umu s) verbsToInstall]
    else [installOnly (NeroFS.umu s) verbsToInstall] in
  mkProcess "/bin/sh" ("-c" :: argsList) env.

(** [NeroManagerWindow::tricksWindow_result] (lines 829 to 927):
    [confirmed] is the answer to the confirmation box, [run] what the child
    process leaves.  The result is the process started, if any, and the
    window afterwards. *)
Definition tricksWindow_result (systemEnvironment : gmap string string)
    (run : ProcessRun) (confirmed : bool) (tricks : NeroTricksWindow)
    (w : Window) : option Process * Window :=
  match tricks_result tricks with
  | Accepted =>
      if confirmed then
        let prefix := NeroFS.currentPrefix (fs w) in
        let p := tricksWindow_process systemEnvironment (fs w) tricks in
        let w := set_fs (NeroFS.set_files (filesAfter run) (fs w)) w in
        let t :=
          if negb (bool_decide (exitCode run = 0%Z))
          then showMessage
                 "Winetricks Installation Returned An Error"
                 ("Winetricks process in prefix " +:+ Qt.dq +:+ prefix +:+ Qt.dq
                  +:+ " has exited with error code " +:+ Qt.number (exitCode run) +:+ ". "
                  +:+ "Not all queued verbs may have finished installing. "
                  +:+ "Confirm which verbs have been successfully installed by checking for grayed-out entries in the "
                  +:+ Qt.dq +:+ "Install Winetricks Components" +:+ Qt.dq
                  +:+ " window for this prefix.") (sysTray w)
          else showMessage
                 "Finished Installing Winetricks"
                 ("Queued Winetricks verbs has finished installing to prefix "
                  +:+ Qt.dq +:+ NeroFS.currentPrefix (fs w) +:+ Qt.dq +:+ ".") (sysTray w) in
        (Some p, set_sysTray (set_trayIcon ":/ico/systrayPhi" t) w)
      else (None, w)
  | _ => (None, w)
  end.

(** ** Running applications *)

(** [QList::removeOne]: the first occurrence is removed. *)
Fixpoint removeOne {A : Type} `{EqDecision A} (x : A) (l : list A) : list A :=
  match l with
  | [] => []
  | y :: r => if decide (y = x) then r else y :: removeOne x r
  end.

(** [QList::at] on a list of pointers, followed by a dereference: there is
    no result out of range or on a null pointer. *)
Definition at_ {A : Type} (l : list (option A)) (i : nat) : option A :=
  l !! i ≫= id.

(** The same with an [int] index, which may be negative. *)
Definition atZ {A : Type} (l : list (option A)) (i : Z) : option A :=
  if bool_decide (0 <= i)%Z then at_ l (Z.to_nat i) else None.

(** [oneTimeApp.mid(oneTimeApp.lastIndexOf('/') + 1)]: what follows the
    last slash, the whole text when there is none. *)
Fixpoint afterLastSlash (s : string) : string :=
  match s with
  | EmptyString => EmptyString
  | String c s' =>
      if Qt.contains s' "/" then afterLastSlash s'
      else if Ascii.eqb c "/"%char then s' else s
  end.

(** [NeroManagerWindow::SetHeader] (lines 136 to 181), on the widgets
    kept; both arguments have defaults, the empty text and zero. *)
Definition SetHeader (prefix : string) (shortcutsCount : nat) (w : Window) : Window :=
  if String.eqb prefix EmptyString then
    let w := set_prefixIsSelected false w in
    set_ui (set_backButtonIcon "user-bookmarks"
             (set_backButtonToolTip EmptyString
               (set_backButtonEnabled false
                 (set_topSubtitle None
                   (set_topTitle "Select a Prefix" (ui w)))))) w
  else
    let w := set_prefixIsSelected true w in
    let subtitle :=
      if bool_decide (shortcutsCount = 0%nat)
      then "No apps registered. Click the + button to add one."
      else pretty shortcutsCount +:+ " Apps" in
    set_ui (set_topSubtitle (Some subtitle)
             (set_backButtonToolTip "Go back to prefixes list."
               (set_backButtonIcon "go-previous"
                 (set_backButtonEnabled true
                   (set_topTitle prefix (ui w)))))) w.

(** The text of the tray tool tip while something runs, as the three
    handlers below build it. *)
Definition runningToolTip (s : NeroFS.t) (what : string) : string :=
  "Nero Manager (" +:+ NeroFS.currentPrefix s +:+ " is running " +:+ what +:+ ")".

Definition runningCountToolTip (s : NeroFS.t) (count : nat) : string :=
  "Nero Manager (" +:+ NeroFS.currentPrefix s +:+ " is running "
  +:+ Qt.number (Z.of_nat count) +:+ " apps)".

(** Modelled from the spec: [NeroFS::GetShortcutSettings], defined outside
    the verified sources: the settings stored for a shortcut hash, among
    them its Path. *)
Definition GetShortcutSettings (s : NeroFS.t) (hash : string) : gmap string Qt.QVariant :=
  default ∅ (NeroFS.shortcutSettings s !! hash).

(** The path [prefixShortcutPlayButtons_clicked] tests for existence
    (lines 649 and 650). *)
Definition launchTarget (s : NeroFS.t) (hash : string) : string :=
  Qt.replace (Qt.toString (GetShortcutSettings s hash !! "Path")) "C:/"
    (NeroFS.prefixesCanonicalPath s +:+ "/" +:+ NeroFS.currentPrefix s +:+ "/drive_c/").

(** The message box of lines 684 to 687. *)
Definition notFoundBox : Event :=
  Critical "Executable could not be found!"
    ("The executable that this shortcut links to currently doesn't exist."
     +:+ Qt.nl
     +:+ "Check that the application path is correct, or change it in this shortcut's settings.").

(** [if(runnerWindow == nullptr) { runnerWindow = new NeroRunnerDialog;
    runnerWindow->SetupWindow(starting, name); }], the guard the handlers
    open the runner dialog with: a dialog that is open stays as it is. *)
Definition openRunnerWindow (starting : bool) (name : string) (w : Window) : Window :=
  set_runnerWindow
    (match runnerWindow w with
     | None => Some (mkRunnerDialog starting name None)
     | Some dialog => Some dialog
     end) w.

(** The branch of [prefixShortcutPlayButtons_clicked] for a slot that runs
    (lines 637 to 643). *)
Definition stopShortcut (slot : nat) (w : Window) : option Window :=
  w ← match runnerWindow w with
      | None =>
          label ← at_ (prefixShortcutLabel w) slot;
          Some (set_runnerWindow (Some (mkRunnerDialog false label None)) w)
      | Some _ => Some w
      end;
  button ← at_ (prefixShortcutPlayButton w) slot;
  _ ← at_ (umuController w) (btn_thread button);
  Some (set_events (events w ++ [Stop (btn_thread button)]) w).

(** The branch that launches (lines 651 to 682), given the label and the
    button of the slot.  The icon and the tool tip of the play button,
    which the C++ code sets first, are written together with its thread
    property; [hide()] is kept as the value of [hidden]. *)
Definition launched (sender button : PlayButton) (label : string) (w : Window) : Window :=
  let slot := btn_slot sender in
  let w := set_ui (set_prefixTricksBtnEnabled false
                    (set_prefixSettingsBtnEnabled false (ui w))) w in
  let w := set_ui (set_backButtonToolTip "Shut down all running programs in this prefix."
                    (set_backButtonIcon "media-playback-stop" (ui w))) w in
  let w := set_sysTray (set_trayIcon ":/ico/systrayPhiPlaying" (sysTray w)) w in
  let w := set_threadsCount (threadsCount w + 1) w in
  let w := set_currentlyRunning (currentlyRunning w ++ [Z.of_nat slot]) w in
  let w :=
    set_sysTray
      (set_toolTip
         (if bool_decide (1 < length (currentlyRunning w))%nat
          then runningCountToolTip (fs w) (length (currentlyRunning w))
          else runningToolTip (fs w) label)
         (sysTray w)) w in
  let w := set_hidden (if Qt.toBool (managerCfg w !! "ShortcutHidesManager")
                       then true else hidden w) w in
  let w := openRunnerWindow true label w in
  let controller :=
    mkController (Z.of_nat slot) (btn_hash sender)
      (bool_decide (1 < length (currentlyRunning w))%nat) []
      (threadsCount w - 1) EmptyString in
  let w := set_umuController (umuController w ++ [Some controller]) w in
  let w := set_prefixShortcutPlayButton
             (<[slot := Some (mkPlayButton "media-playback-stop" ("Stop " +:+ label)
                                (btn_slot button) (btn_hash button) (threadsCount w - 1))]>
                (prefixShortcutPlayButton w)) w in
  set_events (events w ++ [Operate (threadsCount w - 1)]) w.

(** The same with the two [at(slot)] of the branch. *)
Definition launchShortcut (sender : PlayButton) (w : Window) : option Window :=
  button ← at_ (prefixShortcutPlayButton w) (btn_slot sender);
  label ← at_ (prefixShortcutLabel w) (btn_slot sender);
  Some (launched sender button label w).

(** [NeroManagerWindow::prefixShortcutPlayButtons_clicked] (lines 631 to
    690); [sender] is the button clicked. *)
Definition prefixShortcutPlayButtons_clicked (sender : PlayButton) (w : Window)
    : option Window :=
  if bool_decide (Z.of_nat (btn_slot sender) ∈ currentlyRunning w)
  then stopShortcut (btn_slot sender) w
  else if NeroFS.exists_ (fs w) (launchTarget (fs w) (btn_hash sender))
  then launchShortcut sender w
  else Some (set_events (events w ++ [notFoundBox]) w).

(** The hand-written split of the one-time arguments (lines 748 to 766).
    The list under construction is kept as the entries before the last
    one and the last one. *)
Fixpoint splitArgs_loop (buf : string) (done : list string) (last : string)
    (quotation : bool) : list string * string :=
  match buf with
  | EmptyString => (done, last)
  | String chara buf' =>
      if negb quotation then
        if negb (Ascii.eqb chara " "%char) && negb (Ascii.eqb chara "034"%char)
        then splitArgs_loop buf' done (last +:+ String chara EmptyString) false
        else
          (* case of the quote falls through into the case of the blank *)
          let quotation' := Ascii.eqb chara "034"%char in
          if negb (String.eqb last EmptyString)
          then splitArgs_loop buf' (done ++ [last]) EmptyString quotation'
          else splitArgs_loop buf' done last quotation'
      else if negb (Ascii.eqb chara "034"%char)
      then splitArgs_loop buf' done (last +:+ String chara EmptyString) true
      else splitArgs_loop buf' (done ++ [last]) EmptyString false
  end.

Definition splitArgs (buf : string) : list string :=
  let '(done, last) := splitArgs_loop buf [] EmptyString false in
  if String.eqb last EmptyString then done else done ++ [last].

(** The body of [on_oneTimeRunBtn_clicked] once a file was chosen (lines
    715 to 778). *)
Definition oneTimeStarted (oneTimeApp oneTimeRunArgs : string) (w : Window) : Window :=
  let name := afterLastSlash oneTimeApp in
  let w := set_oneTimeLastPath oneTimeApp w in
  let w := set_ui (set_prefixTricksBtnEnabled false
                    (set_prefixSettingsBtnEnabled false (ui w))) w in
  let w := set_ui (set_backButtonToolTip "Shut down all running programs in this prefix."
                    (set_backButtonIcon "media-playback-stop"
                      (set_backButtonEnabled true (ui w)))) w in
  let w := set_sysTray (set_trayIcon ":/ico/systrayPhiPlaying" (sysTray w)) w in
  let w := set_threadsCount (threadsCount w + 1) w in
  let w := set_currentlyRunning (currentlyRunning w ++ [(-1)%Z]) w in
  let w :=
    set_sysTray
      (set_toolTip
         (if bool_decide (1 < length (currentlyRunning w))%nat
          then runningCountToolTip (fs w) (length (currentlyRunning w))
          else runningToolTip (fs w) name)
         (sysTray w)) w in
  let w := openRunnerWindow true name w in
  let args :=
    if String.eqb oneTimeRunArgs EmptyString then [] else splitArgs oneTimeRunArgs in
  let controller :=
    mkController (-1)%Z oneTimeApp
      (bool_decide (1 < length (currentlyRunning w))%nat) args
      (threadsCount w - 1) name in
  let w := set_umuController (umuController w ++ [Some controller]) w in
  let w := set_oneOffsRunning (oneOffsRunning w ++ [name]) w in
  set_events (events w ++ [Operate (threadsCount w - 1)]) w.

(** [NeroManagerWindow::on_oneTimeRunBtn_clicked] (lines 705 to 780):
    [oneTimeApp] is the file chosen in the dialog, empty when the dialog
    was cancelled, [oneTimeRunArgs] the text of the arguments field. *)
Definition on_oneTimeRunBtn_clicked (oneTimeApp oneTimeRunArgs : string) (w : Window)
    : Window :=
  if String.eqb oneTimeApp EmptyString then w
  else oneTimeStarted oneTimeApp oneTimeRunArgs w.

(** First part of [handleUmuResults] (lines 1102 to 1108): the play
    button of a shortcut is reset, or the name of a one-time run is struck
    from [oneOffsRunning]. *)
Definition releaseRun (sender : NeroThreadController) (buttonSlot : Z) (w : Window)
    : option Window :=
  if bool_decide (0 <= buttonSlot)%Z then
    button ← at_ (prefixShortcutPlayButton w) (Z.to_nat buttonSlot);
    label ← at_ (prefixShortcutLabel w) (Z.to_nat buttonSlot);
    let w := set_prefixShortcutPlayButton
               (<[Z.to_nat buttonSlot :=
                    Some (mkPlayButton "media-playback-start" ("Start " +:+ label)
                            (btn_slot button) (btn_hash button) (btn_thread button))]>
                  (prefixShortcutPlayButton w)) w in
    Some (set_hidden (if Qt.toBool (managerCfg w !! "ShortcutHidesManager")
                      then false else hidden w) w)
  else Some (set_oneOffsRunning (removeOne (ctl_running sender) (oneOffsRunning w)) w).

(** Second part (lines 1110 to 1113): the controller is deleted and its
    slot struck from [currentlyRunning]. *)
Definition retireController (threadSlot : nat) (buttonSlot : Z) (w : Window)
    : option Window :=
  _ ← umuController w !! threadSlot;
  let w := set_umuController (<[threadSlot := None]> (umuController w)) w in
  Some (set_currentlyRunning (removeOne buttonSlot (currentlyRunning w)) w).

(** The reset when nothing runs any more (lines 1115 to 1126). *)
Definition resetRuns (w : Window) : Window :=
  let w := set_currentlyRunning [] w in
  let w := set_threadsCount 0 w in
  let w := set_umuController [] w in
  let w := set_runnerPrefixIsDefault false w in
  let w :=
    if prefixIsSelected w
    then set_ui (set_backButtonToolTip "Go back to prefixes list."
                  (set_backButtonIcon "go-previous" (ui w))) w
    else SetHeader EmptyString 0 w in
  let w := set_sysTray (set_toolTip "Nero Manager"
                         (set_trayIcon ":/ico/systrayPhi" (sysTray w))) w in
  set_ui (set_prefixTricksBtnEnabled true
           (set_prefixSettingsBtnEnabled true (ui w))) w.

(** Third part (lines 1114 to 1131): the aggregate state after the exit. *)
Definition refreshStatus (w : Window) : option Window :=
  match currentlyRunning w with
  | [] => Some (resetRuns w)
  | [first] =>
      if negb (bool_decide (first = (-1)%Z)) then
        label ← atZ (prefixShortcutLabel w) first;
        Some (set_sysTray (set_toolTip (runningToolTip (fs w) label) (sysTray w)) w)
      else
        name ← head (oneOffsRunning w);
        Some (set_sysTray (set_toolTip (runningToolTip (fs w) name) (sysTray w)) w)
  | _ =>
      Some (set_sysTray
              (set_toolTip (runningCountToolTip (fs w) (length (currentlyRunning w)))
                 (sysTray w)) w)
  end.

(** [NeroManagerWindow::handleUmuResults] (lines 1098 to 1137); [sender]
    is the controller that passes the results on. *)
Definition handleUmuResults (sender : NeroThreadController) (buttonSlot result : Z)
    (w : Window) : option Window :=
  w ← releaseRun sender buttonSlot w;
  w ← retireController (ctl_thread sender) buttonSlot w;
  w ← refreshStatus w;
  Some (set_runnerWindow None w).

(** The scan of [on_backButton_clicked] (lines 545 to 551), from index
    [i - 1] down: the index of the controller stopped, if one is found. *)
Fixpoint stopScan (i : nat) (controllers : list (option NeroThreadController))
    : option (option nat) :=
  match i with
  | O => Some None
  | S j =>
      match controllers !! j with
      | None => None
      | Some (Some _) => Some (Some j)
      | Some None => stopScan j controllers
      end
  end.

(** The branch of [on_backButton_clicked] that stops the runs (lines 540
    to 552). *)
Definition stopAll (w : Window) : option Window :=
  let w := openRunnerWindow false "all running apps in current prefix" w in
  found ← stopScan (threadsCount w) (umuController w);
  Some (match found with
        | Some thread => set_events (events w ++ [Stop thread]) w
        | None => w
        end).

(** The end of [on_backButton_clicked] (lines 562 to 568). *)
Definition togglePage (w : Window) : Window :=
  let w := SetHeader EmptyString 0 w in
  if bool_decide (0 < length (currentlyRunning w))%nat
  then set_ui (set_backButtonToolTip "Shut down all running programs in this prefix."
                (set_backButtonIcon "media-playback-stop"
                  (set_backButtonEnabled true (ui w)))) w
  else w.

(** [NeroManagerWindow::on_backButton_clicked] (lines 534 to 569). *)
Definition on_backButton_clicked (w : Window) : option Window :=
  if bool_decide (0 < length (currentlyRunning w))%nat then
    if negb (prefixIsSelected w && runnerPrefixIsDefault w)
    then stopAll w
    else Some (togglePage w)
  else if negb (prefixIsSelected w) then Some w
  else Some (togglePage w).

(** ** Shortcuts: settings, creation and rendering *)

(** [QFile::rename]: nothing happens when the file is missing or when a
    file of the new name is already there. *)
Definition QFile_rename (old new : string) (f : gmap string string) : gmap string string :=
  match f !! old, f !! new with
  | Some content, None => <[new := content]> (delete old f)
  | _, _ => f
  end.

(** [QFile::copy]: nothing happens when the source is missing or when a
    file of the new name is already there. *)
Definition QFile_copy (from to : string) (f : gmap string string) : gmap string string :=
  match f !! from, f !! to with
  | Some content, None => <[to := content]> f
  | _, _ => f
  end.

(** The cached icon of a shortcut of the current prefix. *)
Definition icoCache (s : NeroFS.t) (name hash : string) : string :=
  NeroFS.prefixesPath s +:+ "/" +:+ NeroFS.currentPrefix s +:+ "/.icoCache/"
  +:+ name +:+ "-" +:+ hash +:+ ".png".

(** Modelled from the spec: [NeroFS::DeleteShortcut], defined outside the
    verified sources.  The specification has the deletion of a shortcut
    remove its registry entry and its icon cache file when there is one. *)
Definition DeleteShortcut (hash : string) (s : NeroFS.t) : NeroFS.t :=
  let s' :=
    match list_find (fun p => p.1 = hash) (NeroFS.shortcuts s) with
    | Some (_, (_, name)) => NeroFS.set_files (delete (icoCache s name hash) (NeroFS.files s)) s
    | None => s
    end in
  NeroFS.set_shortcutSettings (delete hash (NeroFS.shortcutSettings s'))
    (NeroFS.set_shortcuts (List.filter (fun p => negb (String.eqb p.1 hash)) (NeroFS.shortcuts s')) s').

(** The [NeroPrefixSettingsWindow] as [prefixSettings_result] reads it. *)
Record NeroPrefixSettingsWindow : Type := mkPrefixSettings {
  ps_slot : Z;              (* property slot, -1 for the prefix itself *)
  ps_result : DialogCode;   (* result() *)
  ps_appName : string;
  ps_newAppIcon : string
}.

(** The branch of [prefixSettings_result] that renames (lines 962 to
    978); [label] is the text of the label of the slot. *)
Definition renameShortcut (slot : Z) (label appName : string) (w : Window)
    : option Window :=
  let settings := NeroFS.GetCurrentShortcutsMap (fs w) in
  let hash := default EmptyString (settings !! label) in
  let ico := icoCache (fs w) label hash in
  let w := set_fs (NeroFS.SetCurrentPrefixCfg_Shortcuts hash appName (fs w)) w in
  let w :=
    if NeroFS.exists_ (fs w) ico
    then set_fs (NeroFS.set_files
                   (QFile_rename ico (icoCache (fs w) appName hash)
                      (NeroFS.files (fs w))) (fs w)) w
    else w in
  let w := set_prefixShortcutLabel
             (<[Z.to_nat slot := Some appName]> (prefixShortcutLabel w)) w in
  button ← atZ (prefixShortcutPlayButton w) slot;
  Some (set_prefixShortcutPlayButton
          (<[Z.to_nat slot :=
               Some (mkPlayButton (btn_icon button) ("Start " +:+ appName)
                       (btn_slot button) (btn_hash button) (btn_thread button))]>
             (prefixShortcutPlayButton w)) w).

(** The branch that deletes (lines 980 to 995). *)
Definition deleteShortcutRow (slot : Z) (label : string) (w : Window) : option Window :=
  let settings := NeroFS.GetCurrentShortcutsMap (fs w) in
  let w := set_fs (DeleteShortcut (default EmptyString (settings !! label)) (fs w)) w in
  _ ← prefixShortcutPlayButton w !! Z.to_nat slot;
  let w := set_prefixShortcutLabel (<[Z.to_nat slot := None]> (prefixShortcutLabel w)) w in
  let w := set_prefixShortcutPlayButton
             (<[Z.to_nat slot := None]> (prefixShortcutPlayButton w)) w in
  Some (SetHeader (NeroFS.currentPrefix (fs w))
          (length (NeroFS.GetCurrentPrefixShortcuts (fs w))) w).

(** [NeroManagerWindow::prefixSettings_result] (lines 947 to 999).  The
    list of icons is not kept, so the change of icon leaves no trace. *)
Definition prefixSettings_result (prefixSettings : NeroPrefixSettingsWindow) (w : Window)
    : option Window :=
  let slot := ps_slot prefixSettings in
  if bool_decide (0 <= slot)%Z then
    match ps_result prefixSettings with
    | Accepted =>
        label ← atZ (prefixShortcutLabel w) slot;
        if negb (String.eqb (ps_appName prefixSettings) label)
        then renameShortcut slot label (ps_appName prefixSettings) w
        else Some w
    | DeleteSignal =>
        label ← atZ (prefixShortcutLabel w) slot;
        deleteShortcutRow slot label w
    | Rejected => Some w
    end
  else Some w.

(** The hash loop of [on_addButton_clicked] (lines 459 to 469).
    [candidate k] is what the [k]-th call of [QCryptographicHash::hash]
    yields: the first hashes [LOLRANDOM], the later ones
    [LOLRANDOM + rand()].  The C++ loop has no bound; [fuel] is the number
    of candidates the embedding is willing to try, and [None] stands for a
    loop still running after that. *)
Fixpoint generateHash (fuel : nat) (childKeys : list string) (candidate : nat -> string)
    (k : nat) : option string :=
  match fuel with
  | O => None
  | S fuel' =>
      if bool_decide (candidate k ∈ childKeys)
      then generateHash fuel' childKeys candidate (S k)
      else Some (candidate k)
  end.

(** The [NeroShortcutWizard] after [exec]. *)
Record NeroShortcutWizard : Type := mkShortcutWizard {
  appPath : string;
  shortcutName : string;
  appIcon : string
}.

(** [NeroManagerWindow::on_addButton_clicked] with a prefix selected
    (lines 445 to 525): [newApp] is the file chosen, [shortcutAdd] the
    wizard once closed.  Without a prefix selected the handler opens the
    prefix wizard and changes nothing kept here. *)
Definition on_addButton_clicked (fuel : nat) (candidate : nat -> string)
    (newApp : string) (shortcutAdd : NeroShortcutWizard) (w : Window) : option Window :=
  if prefixIsSelected w then
    if negb (String.eqb newApp EmptyString) && negb (String.eqb (appPath shortcutAdd) EmptyString)
    then
      hashName ← generateHash fuel (NeroFS.childKeys (fs w)) candidate 0;
      let w := set_fs (NeroFS.AddNewShortcut hashName (shortcutName shortcutAdd)
                         (appPath shortcutAdd) (fs w)) w in
      let pos := length (prefixShortcutLabel w) in
      let w :=
        if String.eqb (appIcon shortcutAdd) EmptyString then w
        else set_fs (NeroFS.set_files
                       (QFile_copy (appIcon shortcutAdd)
                          (icoCache (fs w) (shortcutName shortcutAdd) hashName)
                          (NeroFS.files (fs w))) (fs w)) w in
      let w := set_prefixShortcutLabel
                 (prefixShortcutLabel w ++ [Some (shortcutName shortcutAdd)]) w in
      let w := set_prefixShortcutPlayButton
                 (prefixShortcutPlayButton w ++
                  [Some (mkPlayButton "media-playback-start"
                           ("Start " +:+ shortcutName shortcutAdd) pos hashName 0)]) w in
      Some (SetHeader (NeroFS.currentPrefix (fs w))
              (length (NeroFS.GetCurrentPrefixShortcuts (fs w))) w)
    else Some w
  else Some w.

(** [QString::compare(other, Qt::CaseInsensitive) < 0]: the two texts are
    compared character by character after case folding, which on the
    characters kept here maps the capital letters to the small ones. *)
Definition ci_lt (a b : string) : bool :=
  match String_as_OT.compare (Qt.toLower a) (Qt.toLower b) with
  | Lt => true
  | _ => false
  end.

(** [QStringList::sort(Qt::CaseInsensitive)] runs [std::sort] with the
    comparison above.  [std::sort] leaves the order of entries that
    compare equivalent open; the embedding takes the insertion sort that
    libstdc++ runs on ranges of at most sixteen entries, which moves an
    entry to the left past the entries it is smaller than and no further.
    On a longer range names that differ by the case of letters alone may
    come out in another order than this one.  The properties proved of a
    rendering therefore use of the sort only that its result is a
    permutation of the names that is sorted by the comparison; where an
    order among such names is shown, it is on two names. *)
Fixpoint insert_ci (x : string) (sorted : list string) : list string :=
  match sorted with
  | [] => [x]
  | y :: rest => if ci_lt x y then x :: y :: rest else y :: insert_ci x rest
  end.

Definition sort_ci (l : list string) : list string :=
  foldl (fun sorted x => insert_ci x sorted) [] l.

(** The play buttons [RenderPrefixList] creates, one per sorted name,
    numbered from [i]. *)
Fixpoint renderButtons (hashMap : gmap string string) (i : nat) (names : list string)
    : list (option PlayButton) :=
  match names with
  | [] => []
  | name :: rest =>
      Some (mkPlayButton "media-playback-start" ("Start " +:+ name) i
              (default EmptyString (hashMap !! name)) 0)
      :: renderButtons hashMap (S i) rest
  end.

(** [NeroManagerWindow::RenderPrefixList] (lines 222 to 281).  The caller
    clears the lists of widgets before ([CleanupShortcuts]). *)
Definition RenderPrefixList (w : Window) : Window :=
  if bool_decide (NeroFS.childKeys (fs w) = []) then w else
  let sortedShortcuts := sort_ci (NeroFS.GetCurrentPrefixShortcuts (fs w)) in
  let hashMap := NeroFS.GetCurrentShortcutsMap (fs w) in
  let w := set_prefixShortcutLabel
             (prefixShortcutLabel w ++ (Some <$> sortedShortcuts)) w in
  set_prefixShortcutPlayButton
    (prefixShortcutPlayButton w ++ renderButtons hashMap 0 sortedShortcuts) w.

(** ** The preferences dialog ([src/neropreferences.cpp]) *)

Module NeroManagerPreferences.

(** The members and the three widgets the dialog reads and writes.
    [accepted] is the member the destructor tests; its declaration is in
    [neropreferences.h]. *)
Record t : Type := mk {
  accepted : bool;
  shortcutHide : bool;            (* ui->shortcutHide->isChecked() *)
  defaultPrefixStart : bool;      (* ui->defaultPrefixStart->isChecked() *)
  defaultPrefixItems : list string;   (* entries of ui->defaultPrefix *)
  defaultPrefix : string;         (* ui->defaultPrefix->currentText() *)
  defaultPrefixEnabled : bool     (* ui->defaultPrefix->isEnabled() *)
}.

(** The constructor (lines 28 to 42): the combo box holds the prefixes and
    shows the first one. *)
Definition new (s : NeroFS.t) : t :=
  mk false false false (NeroFS.GetPrefixes s)
     (default EmptyString (head (NeroFS.GetPrefixes s))) true.

(** [NeroManagerPreferences::BindSettings] (lines 54 to 61).
    [setCurrentText] on a combo box that is not editable selects the entry
    of that text and does nothing when there is none. *)
Definition BindSettings (cfg : gmap string Qt.QVariant) (d : t) : t :=
  let hide := Qt.toBool (cfg !! "ShortcutHidesManager") in
  let start := Qt.toBool (cfg !! "RunWithDefaultPrefix") in
  let text := Qt.toString (cfg !! "DefaultPrefix") in
  mk (accepted d) hide start (defaultPrefixItems d)
     (if bool_decide (text ∈ defaultPrefixItems d) then text else defaultPrefix d)
     start.

(** [NeroManagerPreferences::on_defaultPrefixStart_clicked] (lines 63 to
    66). *)
Definition on_defaultPrefixStart_clicked (d : t) : t :=
  mk (accepted d) (shortcutHide d) (defaultPrefixStart d) (defaultPrefixItems d)
     (defaultPrefix d) (defaultPrefixStart d).

(** The destructor (lines 43 to 52): what it leaves in the settings. *)
Definition destructor (d : t) (managerCfg : gmap string Qt.QVariant)
    : gmap string Qt.QVariant :=
  if accepted d then
    <["DefaultPrefix" := Qt.VString (defaultPrefix d)]>
      (<["RunWithDefaultPrefix" := Qt.VBool (defaultPrefixStart d)]>
         (<["ShortcutHidesManager" := Qt.VBool (shortcutHide d)]> managerCfg))
  else managerCfg.

End NeroManagerPreferences.

(** ** Notions the statements below are phrased with *)

(** The controllers that are alive, by increasing index. *)
Definition live (w : Window) : list NeroThreadController :=
  omap id (umuController w).

(** The display name of the run a controller stands for: the label of its
    button slot, or the file name of a one-time run. *)
Definition runName (w : Window) (c : NeroThreadController) : string :=
  if bool_decide (0 <= ctl_slot c)%Z
  then default EmptyString (atZ (prefixShortcutLabel w) (ctl_slot c))
  else ctl_running c.

Definition runningNames (w : Window) : list string := runName w <$> live w.

(** The aggregate status text in the words of the specification: neutral
    when nothing runs, the name of the application when one runs, the
    number of applications when more run. *)
Definition aggregateStatus (prefix : string) (names : list string) : string :=
  match names with
  | [] => "Nero Manager"
  | [name] => "Nero Manager (" +:+ prefix +:+ " is running " +:+ name +:+ ")"
  | _ =>
      "Nero Manager (" +:+ prefix +:+ " is running "
      +:+ Qt.number (Z.of_nat (length names)) +:+ " apps)"
  end.

(** The bookkeeping the handlers keep between them: every live controller
    sits at the index it carries, the slots of the live controllers are the
    entries of [currentlyRunning], the names of the live one-time runs are
    the entries of [oneOffsRunning], and a shortcut that runs has its label
    and its play button. *)
Record Inv (w : Window) : Prop := mkInv {
  inv_count : threadsCount w = length (umuController w);
  inv_thread : forall i c, umuController w !! i = Some (Some c) -> ctl_thread c = i;
  inv_running : Permutation (ctl_slot <$> live w) (currentlyRunning w);
  inv_oneOffs :
    Permutation
      (ctl_running <$> filter (fun c => ctl_slot c = (-1)%Z) (live w))
      (oneOffsRunning w);
  inv_slots :
    forall z, z ∈ currentlyRunning w ->
      z = (-1)%Z \/
      ((0 <= z)%Z /\ is_Some (at_ (prefixShortcutLabel w) (Z.to_nat z))
       /\ is_Some (at_ (prefixShortcutPlayButton w) (Z.to_nat z)))
}.

(** The results of a list of runs that end, handed to [handleUmuResults]
    one after the other: each controller passes on the slot of its worker
    and an exit code. *)
Fixpoint deliverResults (exits : list (NeroThreadController * Z)) (w : Window)
    : option Window :=
  match exits with
  | [] => Some w
  | (c, code) :: rest =>
      w' ← handleUmuResults c (ctl_slot c) code w;
      deliverResults rest w'
  end.

(** Modelled from the spec: [NeroThreadController::Stop] and the worker
    behind it are defined in [nerorunner.cpp], outside the verified sources.
    By sections 4.5 and 4.6 of the specification one [Stop] issues the kill
    command of the whole prefix: the process of every run of the prefix
    ends, and every worker then reports its slot and exit code through its
    controller.  [stopExits code order w] holds when [order] lists those
    reports: one per live controller, in any order. *)
Definition stopExits (code : NeroThreadController -> Z)
    (order : list (NeroThreadController * Z)) (w : Window) : Prop :=
  Permutation order ((fun c => (c, code c)) <$> live w).

(** The two conditions of the cleanup of the registry, in the words of the
    specification. *)
Definition requestsDotnet (verbs : list string) : Prop :=
  exists verb, verb ∈ verbs /\ Qt.contains verb "dotnet" = true.

Definition regDeleteStep (umu key : string) : string :=
  umu +:+ " reg delete " +:+ Qt.dq +:+ key +:+ Qt.dq +:+ " /f && ".

Definition winetricksCommand (umu : string) (verbs : list string) : string :=
  umu +:+ " " +:+ Qt.join ("winetricks" :: verbs) " ".

Definition cleanupSteps (umu : string) : string :=
  regDeleteStep umu "HKLM\Software\Wow6432Node\Microsoft\.NETFramework"
  +:+ regDeleteStep umu "HKLM\Software\Wow6432Node\Microsoft\NET Framework Setup".


(** ** A small installation to evaluate the handlers on *)

Module Example.

Definition store : NeroFS.t :=
  NeroFS.mk "/home/nero/prefixes" "/home/nero/prefixes" "/home/nero/protons"
    "/usr/bin/umu-run" "Games"
    [("Games", "GE-Proton-9")]
    {[ "CurrentRunner" := Qt.VString "GE-Proton-9" ]}
    [("0a1b", "Notepad"); ("7c2d", "Solitaire")]
    {[ "0a1b" := {[ "Path" := Qt.VString "C:/windows/notepad.exe" ]};
       "7c2d" := {[ "Path" := Qt.VString "C:/games/sol.exe" ]} ]}
    {[ "/home/nero/prefixes/Games/drive_c/windows/notepad.exe" := "MZ";
       "/home/nero/prefixes/Games/.icoCache/Notepad-0a1b.png" := "PNG" ]}.

Definition tray : SysTray := mkSysTray true ":/ico/systrayPhi" "Nero Manager" [].

Definition widgets : Ui :=
  mkUi "Games" (Some "2 Apps") true "go-previous" "Go back to prefixes list." true true.

Definition notepadButton : PlayButton :=
  mkPlayButton "media-playback-start" "Start Notepad" 0 "0a1b" 0.

Definition solitaireButton : PlayButton :=
  mkPlayButton "media-playback-start" "Start Solitaire" 1 "7c2d" 0.

(** The window with the prefix Games selected and nothing running. *)
Definition window : Window :=
  mkWindow store ∅ tray widgets true false false [] 0 [] [] EmptyString
    ["Games"] ["Delete Games"]
    [Some "Notepad"; Some "Solitaire"] [Some notepadButton; Some solitaireButton]
    None [].

(** A creation that fails on a component after Wine has set the prefix up. *)
Definition failedVerbRun : ProcessRun :=
  mkProcessRun 1
    (<[ "/home/nero/prefixes/Test/system.reg" := "WINE REGISTRY Version 2" +:+ Qt.nl ]>
       (NeroFS.files store))
    true.

Definition dotnetTricks : NeroTricksWindow :=
  mkTricksWindow [("dotnet48", true); ("vcrun2019", true); ("xact", false)] [] Accepted.

End Example.

Module ExampleHashes.

(** Two streams of candidate hashes: the first runs into the two hashes of
    the example store before it offers a new one. *)
Definition first : nat -> string :=
  fun k => nth k ["0a1b"; "7c2d"; "f00d"] ("r" +:+ pretty k).

Definition second : nat -> string :=
  fun k => nth k ["f00d"; "0a1b"; "beef"] ("r" +:+ pretty k).

Definition wizard (name : string) : NeroShortcutWizard :=
  mkShortcutWizard ("C:/apps/" +:+ name +:+ ".exe") name EmptyString.

End ExampleHashes.

(** The order [sort_ci] sorts by: [a] is not after [b]. *)
Definition ci_le (a b : string) : Prop := ci_lt b a = false.

Module ExampleNames.

(** Two stores that hold the same two shortcuts, entered in the two
    possible orders; the display names differ by the case of a letter. *)
Definition store (shortcuts : list (string * string)) : NeroFS.t :=
  NeroFS.set_shortcuts shortcuts Example.store.

Definition cleared (s : NeroFS.t) : Window :=
  set_prefixShortcutPlayButton [] (set_prefixShortcutLabel [] (set_fs s Example.window)).

Definition upperFirst : Window := cleared (store [("0a1b", "App"); ("7c2d", "app")]).
Definition lowerFirst : Window := cleared (store [("7c2d", "app"); ("0a1b", "App")]).

End ExampleNames.

(** The mapping of a shortcut path that touches a leading drive letter
    only: the reading against which [launchTarget] is compared below. *)
Definition mapLeadingDrive (s : NeroFS.t) (path : string) : string :=
  if String.prefix "C:/" path
  then (NeroFS.prefixesCanonicalPath s +:+ "/" +:+ NeroFS.currentPrefix s +:+ "/drive_c/")
       +:+ Qt.drop_chars 3 path
  else path.

Module ExampleDrive.

(** The shortcut of Notepad points into a directory named after a drive
    letter, below a mount point; the only file there is lies where the
    replacement of the drive letter inside the path leads. *)
Definition store : NeroFS.t :=
  NeroFS.set_files
    {[ "/mnt//home/nero/prefixes/Games/drive_c/notepad.exe" := "MZ" ]}
    (NeroFS.set_shortcutSettings
       {[ "0a1b" := {[ "Path" := Qt.VString "/mnt/C:/notepad.exe" ]} ]}
       Example.store).

Definition window : Window := set_fs store Example.window.

End ExampleDrive.

Module ExampleRename.


Definition dialog : NeroPrefixSettingsWindow :=
  mkPrefixSettings 0 Accepted "Editor" EmptyString.



End ExampleRename.

Module ExampleRuns.

(** Notepad is started from its shortcut, then a setup program is run
    once. *)
Definition oneRunning : Window :=
  launched Example.notepadButton Example.notepadButton "Notepad" Example.window.

Definition twoRunning : Window :=
  on_oneTimeRunBtn_clicked "/tmp/setup.exe" EmptyString oneRunning.

Definition notepad : NeroThreadController :=
  mkController 0 "0a1b" false [] 0 EmptyString.

Definition setup : NeroThreadController :=
  mkController (-1) "/tmp/setup.exe" true [] 1 "setup.exe".

End ExampleRuns.

Module ExampleDotnet.

(** A directory named Test lies in the prefixes path, left by an earlier
    installation that winetricks has logged; no prefix of that name is
    registered. *)
Definition store : NeroFS.t :=
  NeroFS.set_files
    (<[ "/home/nero/prefixes/Test/winetricks.log" :=
          "dotnet48" +:+ Qt.nl +:+ "vcrun2019" +:+ Qt.nl ]>
       (NeroFS.files Example.store))
    Example.store.

End ExampleDotnet.

(** ** Notions for the argument splitter *)

(** No character of [s] is a double quote. *)
Fixpoint noQuote (s : string) : bool :=
  match s with
  | EmptyString => true
  | String c s' => negb (Ascii.eqb c "034"%char) && noQuote s'
  end.

(** No character of [s] is a blank or a double quote. *)
Fixpoint noBlankNoQuote (s : string) : bool :=
  match s with
  | EmptyString => true
  | String c s' =>
      negb (Ascii.eqb c " "%char) && negb (Ascii.eqb c "034"%char) && noBlankNoQuote s'
  end.

(** A word as a user types it without quoting: not empty, no blank and no
    double quote. *)
Definition isWord (s : string) : bool :=
  negb (String.eqb s EmptyString) && noBlankNoQuote s.

(** [s] between double quotes. *)
Definition quoted (s : string) : string := Qt.dq +:+ s +:+ Qt.dq.

(** ** Notions for the fix of [system.reg] *)

(** The header of the section of Wine's serial ports, as the registry file
    spells it (line 379). *)
Definition portsSection : string := "[Software\\Wine\\Ports]".

(** [s] is not empty and its last character is a line feed. *)
Fixpoint endsWithNewline (s : string) : bool :=
  match s with
  | EmptyString => false
  | String c s' =>
      match s' with
      | EmptyString => Ascii.eqb c "010"%char
      | String _ _ => endsWithNewline s'
      end
  end.

(** No character of [s] is a line feed. *)
Fixpoint noNewline (s : string) : bool :=
  match s with
  | EmptyString => true
  | String c s' => negb (Ascii.eqb c "010"%char) && noNewline s'
  end.

(** ** The list of prefixes *)

(** The loop of [RenderPrefixes] (lines 200 to 218) from index [i] on: a
    main button and a delete button are appended for every prefix, and the
    tool tip goes to the delete button found at index [i]. *)
Fixpoint renderPrefixButtons (names : list string) (i : nat) (w : Window) : Window :=
  match names with
  | [] => w
  | name :: rest =>
      let w := set_prefixMainButton (prefixMainButton w ++ [name]) w in
      let w := set_prefixDeleteButton (prefixDeleteButton w ++ [EmptyString]) w in
      let w := set_prefixDeleteButton
                 (<[i := "Delete " +:+ name]> (prefixDeleteButton w)) w in
      renderPrefixButtons rest (S i) w
  end.

(** [NeroManagerWindow::RenderPrefixes] (lines 183 to 220).  With no prefix
    registered only the blinking starts, and the buttons are left alone;
    otherwise both lists are cleared when there is a main button, and the
    buttons are made anew.  The blinking of the add button is not kept
    here. *)
Definition RenderPrefixes (w : Window) : Window :=
  if bool_decide (NeroFS.GetPrefixes (fs w) = []) then w
  else
    let w :=
      if negb (bool_decide (prefixMainButton w = []))
      then set_prefixDeleteButton [] (set_prefixMainButton [] w)
      else w in
    renderPrefixButtons (NeroFS.GetPrefixes (fs w)) 0 w.

(** [NeroManagerWindow::CleanupShortcuts] (lines 782 to 797): the widgets
    of every row are deleted and the lists cleared.  The loop runs over the
    labels and indexes the other lists with [operator[]], which has no
    defined result on a list that is shorter. *)
Definition CleanupShortcuts (w : Window) : option Window :=
  if bool_decide (length (prefixShortcutLabel w) <= length (prefixShortcutPlayButton w))%nat
  then Some (set_prefixShortcutPlayButton [] (set_prefixShortcutLabel [] w))
  else None.

(** [NeroManagerWindow::prefixDeleteButtons_clicked] (lines 609 to 629).
    [slot] is the property of the button clicked, [answerYes] the answer to
    the question box.  [NeroFS::DeletePrefix] is defined outside the
    verified sources: it is a parameter here, which returns whether the
    prefix was deleted and the store it leaves. *)
Definition prefixDeleteButtons_clicked
    (DeletePrefix : string -> NeroFS.t -> bool * NeroFS.t)
    (answerYes : bool) (slot : nat) (w : Window) : option Window :=
  text ← prefixMainButton w !! slot;
  if answerYes then
    let deleted := DeletePrefix text (fs w) in
    let w := set_fs deleted.2 w in
    if deleted.1 then
      w ← (if String.eqb (NeroFS.currentPrefix (fs w)) text
           then CleanupShortcuts w else Some w);
      Some (RenderPrefixes (SetHeader EmptyString 0 w))
    else Some w
  else Some w.

(** The [NeroPrefixWizard] as [prefixWizard_result] reads it. *)
Record NeroPrefixWizard : Type := mkPrefixWizard {
  wz_result : DialogCode;           (* result() *)
  wz_prefixName : string;
  wz_protonRunner : nat;            (* index into GetAvailableProtons() *)
  wz_verbsToInstall : list string;
  wz_userSymlinks : bool;
  wz_defaultPrefix : bool
}.

(** [NeroManagerWindow::prefixWizard_result] (lines 929 to 945).
    [NeroFS::GetAvailableProtons] and [NeroFS::CreateUserLinks] are defined
    outside the verified sources and are parameters here: the list of
    runners, and a function on the store.  [run] is what the child process
    of [CreatePrefix] leaves.  The blinking of the add button is not kept
    here. *)
Definition prefixWizard_result (availableProtons : list string)
    (CreateUserLinks : string -> NeroFS.t -> NeroFS.t)
    (run : ProcessRun) (wizard : NeroPrefixWizard) (w : Window) : option Window :=
  w ← match wz_result wizard with
      | Accepted =>
          let w := set_sysTray (set_trayIcon ":/ico/systrayPhiBusy" (sysTray w)) w in
          runner ← availableProtons !! wz_protonRunner wizard;
          let w := CreatePrefix run (wz_prefixName wizard) runner
                     (wz_verbsToInstall wizard) w in
          let w := if wz_userSymlinks wizard
                   then set_fs (CreateUserLinks (wz_prefixName wizard) (fs w)) w
                   else w in
          Some (if wz_defaultPrefix wizard
                then set_managerCfg
                       (<["DefaultPrefix" := Qt.VString (wz_prefixName wizard)]>
                          (managerCfg w)) w
                else w)
      | _ => Some w
      end;
  Some (RenderPrefixes (SetHeader EmptyString 0 w)).

(** ** The blinking of the add button *)

(** The state of the blinking and the look of the add button. *)
Record Blink : Type := mkBlink {
  blinkingState : Z;
  addButtonFlat : bool;
  addButtonStyleSheet : string
}.

(** [NeroManagerWindow::blinkTimer_timeout] (lines 1050 to 1067). *)
Definition blinkTimer_timeout (b : Blink) : Blink :=
  match blinkingState b with
  | 0%Z => mkBlink (blinkingState b + 1) true EmptyString
  | 1%Z => mkBlink (blinkingState b + 1) (addButtonFlat b) (addButtonStyleSheet b)
  | 2%Z => mkBlink 0 false "background-color: #777777"
  | _ => b
  end.

(** ** Status of the runner and the tray icon *)

(** The phases [NeroRunner] reports with [StatusUpdate]; the enumeration
    is declared in [nerorunner.h].  [RunnerOther] is any other value of the
    [int] the signal carries. *)
Inductive RunnerStatus : Type :=
| RunnerStarting
| RunnerUpdated
| RunnerProtonStarted
| RunnerProtonStopping
| RunnerProtonStopped
| RunnerOther (signalType : Z).

(** [NeroRunnerDialog::SetText]. *)
Definition SetText (text : string) (dialog : RunnerDialog) : RunnerDialog :=
  mkRunnerDialog (rd_starting dialog) (rd_name dialog) (Some text).

(** [NeroManagerWindow::handleUmuSignal] (lines 1139 to 1162). *)
Definition handleUmuSignal (signalType : RunnerStatus) (w : Window) : Window :=
  match runnerWindow w with
  | None => w
  | Some dialog =>
      match signalType with
      | RunnerStarting =>
          set_runnerWindow (Some (SetText "umu launching..." dialog)) w
      | RunnerUpdated =>
          set_runnerWindow
            (Some (SetText "umu runtime updated, starting Proton..." dialog)) w
      | RunnerProtonStarted => set_runnerWindow None w
      | RunnerProtonStopping =>
          set_runnerWindow (Some (SetText "Stopping Proton process..." dialog)) w
      | RunnerProtonStopped => set_runnerWindow None w
      | RunnerOther _ => w
      end
  end.

Module QSystemTrayIcon.

(** [QSystemTrayIcon::ActivationReason]. *)
Inductive ActivationReason : Type :=
| Unknown
| Context
| DoubleClick
| Trigger
| MiddleClick.

End QSystemTrayIcon.

(** [NeroManagerWindow::sysTray_activated] (lines 1009 to 1022). *)
Definition sysTray_activated (reason : QSystemTrayIcon.ActivationReason) (w : Window)
    : Window :=
  match reason with
  | QSystemTrayIcon.Trigger => set_hidden (negb (hidden w)) w
  | _ => w
  end.

(** [NeroManagerWindow::sysTray_messageClicked] (lines 1024 to 1029). *)
Definition sysTray_messageClicked (w : Window) : Window :=
  set_hidden (if hidden w then false else hidden w) w.

(** What a worker asks of [NeroRunner]. *)
Inductive RunnerCall : Type :=
| StartShortcut (hash : string) (alreadyRunning : bool)
| StartOnetime (path : string) (alreadyRunning : bool) (oneTimeArgs : list string).

(** [NeroThreadWorker::umuRunnerProcess] (lines 1084 to 1096), on the
    values the worker got from the constructor of its controller: the call
    it makes; the slot it reports with the result is [ctl_slot]. *)
Definition umuRunnerProcess (c : NeroThreadController) : RunnerCall :=
  if bool_decide (0 <= ctl_slot c)%Z
  then StartShortcut (ctl_parameters c) (ctl_alreadyRunning c)
  else StartOnetime (ctl_parameters c) (ctl_alreadyRunning c) (ctl_oneTimeArgs c).

(** [NeroManagerWindow::on_managerSettings_clicked] (lines 1001 to 1007):
    the dialog the handler shows. *)
Definition on_managerSettings_clicked (w : Window) : NeroManagerPreferences.t :=
  NeroManagerPreferences.BindSettings (managerCfg w) (NeroManagerPreferences.new (fs w)).

Module ExampleWizard.

(** A wizard accepted for a prefix Test that is to be the default prefix,
    and a child process that fails before Wine has set the prefix up. *)
Definition wizard : NeroPrefixWizard :=
  mkPrefixWizard Accepted "Test" 0 ["dotnet48"] false true.

Definition noMarkerRun : ProcessRun :=
  mkProcessRun 1 (NeroFS.files Example.store) true.

(** A deletion that succeeds and leaves no prefix. *)
Definition deleteAll (name : string) (s : NeroFS.t) : bool * NeroFS.t :=
  (true, NeroFS.set_prefixes [] s).

End ExampleWizard.

(** ** The rows of the shortcut list and the runs bound to them *)

(** The rows are well formed: a label and a play button per row, both
    there or both deleted, and every play button carries the index of its
    row in its property slot. *)
Record Rows (w : Window) : Prop := mkRows {
  rows_length : length (prefixShortcutLabel w) = length (prefixShortcutPlayButton w);
  rows_slot :
    forall i button,
      prefixShortcutPlayButton w !! i = Some (Some button) -> btn_slot button = i;
  rows_both :
    forall i,
      is_Some (at_ (prefixShortcutLabel w) i)
      <-> is_Some (at_ (prefixShortcutPlayButton w) i)
}.

(** A shortcut that runs knows its controller: no slot of a shortcut is
    twice in [currentlyRunning], and the property thread of the play button
    of a running slot is the index of a live controller made for that
    slot. *)
Record Linked (w : Window) : Prop := mkLinked {
  linked_once : NoDup (filter (fun z => (0 <= z)%Z) (currentlyRunning w));
  linked_thread :
    forall slot button,
      Z.of_nat slot ∈ currentlyRunning w ->
      at_ (prefixShortcutPlayButton w) slot = Some button ->
      exists c,
        umuController w !! btn_thread button = Some (Some c)
        /\ ctl_slot c = Z.of_nat slot
}.

(** What can happen to the window while the shortcuts of a prefix are
    shown. *)
Inductive Action : Type :=
| ActPlay (slot : nat)
| ActOneTime (oneTimeApp oneTimeRunArgs : string)
| ActExit (thread : nat) (result : Z)
| ActBack
| ActAdd (fuel : nat) (candidate : nat -> string) (newApp : string)
    (shortcutAdd : NeroShortcutWizard)
| ActSettings (prefixSettings : NeroPrefixSettingsWindow)
| ActSignal (signalType : RunnerStatus)
| ActTray (reason : QSystemTrayIcon.ActivationReason)
| ActMessageClicked.

(** The handler an action runs.  The sender of a click on a play button
    is the button of that row; the sender of a result is a controller of
    the list, and the slot it passes on is the one its worker was made with
    ([umuRunnerProcess], line 1095). *)
Definition perform (a : Action) (w : Window) : option Window :=
  match a with
  | ActPlay slot =>
      sender ← at_ (prefixShortcutPlayButton w) slot;
      prefixShortcutPlayButtons_clicked sender w
  | ActOneTime oneTimeApp oneTimeRunArgs =>
      Some (on_oneTimeRunBtn_clicked oneTimeApp oneTimeRunArgs w)
  | ActExit thread result =>
      sender ← at_ (umuController w) thread;
      handleUmuResults sender (ctl_slot sender) result w
  | ActBack => on_backButton_clicked w
  | ActAdd fuel candidate newApp shortcutAdd =>
      on_addButton_clicked fuel candidate newApp shortcutAdd w
  | ActSettings prefixSettings => prefixSettings_result prefixSettings w
  | ActSignal signalType => Some (handleUmuSignal signalType w)
  | ActTray reason => Some (sysTray_activated reason w)
  | ActMessageClicked => Some (sysTray_messageClicked w)
  end.

(** When an action can happen: a play button can be clicked when its row
    has one, a result comes from a controller that is alive, the hash loop
    of an addition comes to an end, and the settings dialog closes for the
    prefix (slot -1) or for a row that still exists.  The dialog is taken
    to ask for the deletion of its shortcut only while nothing runs: the
    handler that opens it disables the delete button when something runs
    (lines 699 to 701). *)
Definition offered (a : Action) (w : Window) : Prop :=
  match a with
  | ActPlay slot => is_Some (at_ (prefixShortcutPlayButton w) slot)
  | ActExit thread _ => is_Some (at_ (umuController w) thread)
  | ActAdd fuel candidate _ _ =>
      is_Some (generateHash fuel (NeroFS.childKeys (fs w)) candidate 0)
  | ActSettings prefixSettings =>
      (ps_slot prefixSettings < 0)%Z
      \/ (is_Some (atZ (prefixShortcutLabel w) (ps_slot prefixSettings))
          /\ (ps_result prefixSettings = DeleteSignal -> currentlyRunning w = []))
  | _ => True
  end.

(** A window in which nothing runs. *)
Definition Idle (w : Window) : Prop :=
  threadsCount w = 0%nat /\ umuController w = [] /\ currentlyRunning w = []
  /\ oneOffsRunning w = [].

(** The windows reached from one in which nothing runs and the rows are
    well formed, by actions that can happen. *)
Inductive Reachable : Window -> Prop :=
| reach_idle (w : Window) : Idle w -> Rows w -> Reachable w
| reach_step (w w' : Window) (a : Action) :
    Reachable w -> offered a w -> perform a w = Some w' -> Reachable w'.

(** The three together. *)
Definition Consistent (w : Window) : Prop := Inv w /\ Rows w /\ Linked w.

(** ** Choosing a prefix *)

(** The text and the style sheet of the button for the components of a
    prefix, which [CheckWinetricks] sets besides enabling the button. *)
Record TricksButton : Type := mkTricksButton {
  tb_text : string;
  tb_styleSheet : string
}.

(** [NeroManagerWindow::CheckWinetricks] (lines 426 to 437).
    [NeroFS::GetWinetricks] is defined outside the verified sources; its
    result is a parameter here. *)
Definition CheckWinetricks (winetricks : string) (w : Window) : Window * TricksButton :=
  if String.eqb winetricks EmptyString
  then (set_ui (set_prefixTricksBtnEnabled false (ui w)) w,
        mkTricksButton "Winetricks Not Found" "color: red")
  else (set_ui (set_prefixTricksBtnEnabled true (ui w)) w,
        mkTricksButton "Install Winetricks Components" EmptyString).

(** What [prefixMainButtons_clicked] leaves besides the window: the look
    of the button for the components, and whether the warning about a
    runner that was not found was shown. *)
Record PrefixChosen : Type := mkPrefixChosen {
  pc_window : Window;
  pc_tricksButton : TricksButton;
  pc_warned : bool
}.

(** The first part of [prefixMainButtons_clicked] (lines 575 to 592): when
    the prefix chosen is not the current one, the rows are cleaned up, the
    prefix is made the current one and its shortcuts are rendered; a
    runner that is not available is replaced by the first one that is.
    The result tells whether the warning about that was shown. *)
Definition renderChosenPrefix
    (SetCurrentPrefix : string -> NeroFS.t -> NeroFS.t)
    (SetCurrentPrefixCfg : string -> string -> string -> NeroFS.t -> NeroFS.t)
    (GetCurrentRunner : NeroFS.t -> string)
    (availableProtons : list string)
    (text : string) (w : Window) : option (Window * bool) :=
  if negb (String.eqb (NeroFS.currentPrefix (fs w)) text) then
    w ← (if negb (bool_decide (length (prefixShortcutLabel w) = 0%nat))
         then CleanupShortcuts w else Some w);
    let w := set_fs (SetCurrentPrefix text (fs w)) w in
    let w := RenderPrefixList w in
    if negb (bool_decide (GetCurrentRunner (fs w) ∈ availableProtons)) then
      first ← head availableProtons;
      let w := set_fs (SetCurrentPrefixCfg "PrefixSettings" "CurrentRunner" first
                         (fs w)) w in
      let w := set_fs (SetCurrentPrefix text (fs w)) w in
      Some (w, true)
    else Some (w, false)
  else Some (w, false).

(** [NeroManagerWindow::prefixMainButtons_clicked] (lines 571 to 607);
    [text] is the text of the button clicked.  Five functions of [NeroFS]
    that the handler calls are defined outside the verified sources and
    are parameters here: [SetCurrentPrefix] and [SetCurrentPrefixCfg] as
    functions on the store, [GetCurrentRunner] as a function of the store,
    and the results of [GetAvailableProtons] and [GetWinetricks]. *)
Definition prefixMainButtons_clicked
    (SetCurrentPrefix : string -> NeroFS.t -> NeroFS.t)
    (SetCurrentPrefixCfg : string -> string -> string -> NeroFS.t -> NeroFS.t)
    (GetCurrentRunner : NeroFS.t -> string)
    (availableProtons : list string) (winetricks : string)
    (text : string) (w : Window) : option PrefixChosen :=
  rendered ← renderChosenPrefix SetCurrentPrefix SetCurrentPrefixCfg GetCurrentRunner
               availableProtons text w;
  let w := SetHeader (NeroFS.currentPrefix (fs rendered.1))
             (length (NeroFS.GetCurrentPrefixShortcuts (fs rendered.1))) rendered.1 in
  let checked := CheckWinetricks winetricks w in
  let w := checked.1 in
  let enabled :=
    negb (bool_decide (0 < length (currentlyRunning w))%nat
          && String.eqb (NeroFS.currentPrefix (fs w))
               (Qt.toString (managerCfg w !! "DefaultPrefix"))) in
  Some (mkPrefixChosen
          (set_ui (set_prefixSettingsBtnEnabled enabled
                     (set_prefixTricksBtnEnabled enabled (ui w))) w)
          checked.2 rendered.2).

Module ExampleChoose.

(** The shortcuts of the prefix Office, in the order the store holds them. *)
Definition officeShortcuts : list (string * string) :=
  [("11aa", "Writer"); ("22bb", "calc")].

(** A store function that makes a prefix the current one and loads its
    shortcuts: two for Office, none for another prefix. *)
Definition SetCurrentPrefix (name : string) (s : NeroFS.t) : NeroFS.t :=
  NeroFS.mk (NeroFS.prefixesPath s) (NeroFS.prefixesCanonicalPath s)
    (NeroFS.protonsPath s) (NeroFS.umu s) name (NeroFS.prefixes s)
    (NeroFS.prefixSettings s)
    (if String.eqb name "Office" then officeShortcuts else []) ∅ (NeroFS.files s).

Definition SetCurrentPrefixCfg (group key value : string) (s : NeroFS.t) : NeroFS.t := s.

Definition GetCurrentRunner (s : NeroFS.t) : string :=
  Qt.toString (NeroFS.prefixSettings s !! "CurrentRunner").

End ExampleChoose.

(** * Properties *)

(** ** Strings *)

Lemma append_assoc (a b c : string) : (a +:+ b) +:+ c = a +:+ b +:+ c.
Proof.
  induction a as [|x a IH]; [reflexivity|].
  change (String x ((a +:+ b) +:+ c) = String x (a +:+ b +:+ c)).
  now rewrite IH.
Qed.

Lemma filter_nil_iff (l : list string) (needle : string) :
  Qt.filter l needle = [] <-> forall s, s ∈ l -> Qt.contains s needle = false.
Proof.
  unfold Qt.filter. induction l as [|x l IH]; simpl.
  - split; [intros _ s Hs; inversion Hs | reflexivity].
  - destruct (Qt.contains x needle) eqn:Hx.
    + split; [discriminate |].
      intros H. specialize (H x (list_elem_of_here _ _)). congruence.
    + rewrite IH. split.
      * intros H s Hs. apply elem_of_cons in Hs as [-> | Hs]; auto.
      * intros H s Hs. apply H. now apply list_elem_of_further.
Qed.

Lemma filter_dotnet_nil (verbs : list string) :
  Qt.filter verbs "dotnet" = [] <-> ~ requestsDotnet verbs.
Proof.
  rewrite filter_nil_iff. unfold requestsDotnet. split.
  - intros H (verb & Hin & Hc). rewrite (H verb Hin) in Hc. discriminate.
  - intros H s Hs. destruct (Qt.contains s "dotnet") eqn:Hc; [|reflexivity].
    exfalso. apply H. now exists s.
Qed.

(** The installer name put in front of the list is no .NET component. *)
Lemma filter_dotnet_winetricks (verbs : list string) :
  Qt.filter ("winetricks" :: verbs) "dotnet" = Qt.filter verbs "dotnet".
Proof. reflexivity. Qed.

Lemma dotnetCleanupThenInstall_spec (umu : string) (verbs : list string) :
  dotnetCleanupThenInstall umu ("winetricks" :: verbs)
  = cleanupSteps umu +:+ winetricksCommand umu verbs.
Proof.
  unfold dotnetCleanupThenInstall, cleanupSteps, regDeleteStep, winetricksCommand.
  now rewrite !append_assoc.
Qed.

(** ** Prefix creation and component installation *)

(** With components requested, [CreatePrefix] runs a shell; the test for
    dotnet sees the requested components only. *)
Lemma CreatePrefix_process_shell (systemEnvironment : gmap string string)
    (s : NeroFS.t) (newPrefix runner : string) (tricksToInstall : list string) :
  tricksToInstall <> [] ->
  CreatePrefix_process systemEnvironment s newPrefix runner tricksToInstall
  = mkProcess "/bin/sh"
      ("-c" ::
       (if negb (bool_decide (Qt.filter tricksToInstall "dotnet" = []))
        then [dotnetCleanupThenInstall (NeroFS.umu s) ("winetricks" :: tricksToInstall)]
        else [installOnly (NeroFS.umu s) ("winetricks" :: tricksToInstall)]))
      (umuEnvironment systemEnvironment s newPrefix runner).
Proof. destruct tricksToInstall; [congruence | reflexivity]. Qed.

Lemma tricksWindow_process_shell (systemEnvironment : gmap string string)
    (s : NeroFS.t) (tricks : NeroTricksWindow) :
  tricksWindow_process systemEnvironment s tricks
  = mkProcess "/bin/sh"
      ("-c" ::
       (if bool_decide (Qt.filter (installedVerbs tricks) "dotnet" = [])
           && negb (bool_decide (Qt.filter (verbsToInstall tricks) "dotnet" = []))
        then [dotnetCleanupThenInstall (NeroFS.umu s) ("winetricks" :: verbsToInstall tricks)]
        else [installOnly (NeroFS.umu s) ("winetricks" :: verbsToInstall tricks)]))
      (umuEnvironment systemEnvironment s (NeroFS.currentPrefix s)
         (Qt.toString (NeroFS.prefixSettings s !! "CurrentRunner"))).
Proof. reflexivity. Qed.

(** C8. For every prefix creation and every installation of components,
    the environment handed to the child process holds WINEPREFIX set to
    the prefixes path followed by the prefix name, GAMEID set to 0,
    PROTONPATH set to the protons path followed by the runner, and
    PROTON_USE_XALIA set to 0, whatever the system environment held. *)
Theorem C8_launcher_environment
    (systemEnvironment : gmap string string) (w : Window)
    (newPrefix runner : string) (tricksToInstall : list string)
    (run : ProcessRun) (confirmed : bool) (tricks : NeroTricksWindow) (p : Process) :
  (tricksWindow_result systemEnvironment run confirmed tricks w).1 = Some p ->
  let created :=
    environment (CreatePrefix_process systemEnvironment (fs w) newPrefix runner tricksToInstall) in
  let currentRunner := Qt.toString (NeroFS.prefixSettings (fs w) !! "CurrentRunner") in
  (created !! "WINEPREFIX" = Some (NeroFS.prefixesPath (fs w) +:+ "/" +:+ newPrefix)
   /\ created !! "GAMEID" = Some "0"
   /\ created !! "PROTONPATH" = Some (NeroFS.protonsPath (fs w) +:+ "/" +:+ runner)
   /\ created !! "PROTON_USE_XALIA" = Some "0")
  /\
  (environment p !! "WINEPREFIX"
     = Some (NeroFS.prefixesPath (fs w) +:+ "/" +:+ NeroFS.currentPrefix (fs w))
   /\ environment p !! "GAMEID" = Some "0"
   /\ environment p !! "PROTONPATH"
        = Some (NeroFS.protonsPath (fs w) +:+ "/" +:+ currentRunner)
   /\ environment p !! "PROTON_USE_XALIA" = Some "0").
Proof.
  intros Hp. split.
  - unfold CreatePrefix_process. destruct tricksToInstall; simpl;
      unfold umuEnvironment; repeat split; by simplify_map_eq.
  - unfold tricksWindow_result in Hp.
    destruct (tricks_result tricks); try discriminate.
    destruct confirmed; try discriminate.
    simpl in Hp. injection Hp as <-.
    unfold tricksWindow_process; simpl; unfold umuEnvironment.
    repeat split; by simplify_map_eq.
Qed.

Lemma C8_launcher_environment_witness :
  exists p,
    (tricksWindow_result ∅ Example.failedVerbRun true Example.dotnetTricks Example.window).1
      = Some p
    /\ environment p !! "WINEPREFIX" = Some "/home/nero/prefixes/Games"
    /\ environment p !! "PROTONPATH" = Some "/home/nero/protons/GE-Proton-9"
    /\ environment
         (CreatePrefix_process ∅ (fs Example.window) "Test" "GE-Proton-9" [])
         !! "WINEPREFIX" = Some "/home/nero/prefixes/Test".
Proof.
  eexists. split; [reflexivity|].
  pose proof (C8_launcher_environment ∅ Example.window "Test" "GE-Proton-9" []
                Example.failedVerbRun true Example.dotnetTricks _ eq_refl) as H.
  simpl in H. destruct H as ((H1 & _) & (H2 & _ & H3 & _)).
  split; [exact H2 | split; [exact H3 | exact H1]].
Defined.

(** C4, as the code has it. With a list of requested components that is
    not empty, prefix creation and component installation both run
    /bin/sh -c on one command line, in which the list of components
    follows the installer name winetricks.  For an installation into the
    current prefix that line is the two registry deletions followed by the
    winetricks command exactly when a requested component has dotnet in
    its name and no installed component has; for a prefix creation it is
    so exactly when a requested component has dotnet in its name, and what
    is installed is not looked at.  Otherwise the line is the winetricks
    command alone.  The installation builds its line the same way when
    nothing is selected. *)
Theorem C4_dotnet_cleanup_command
    (systemEnvironment : gmap string string) (s : NeroFS.t)
    (newPrefix runner : string) (tricksToInstall : list string)
    (tricks : NeroTricksWindow) :
  tricksToInstall <> [] ->
  let umu := NeroFS.umu s in
  let created := CreatePrefix_process systemEnvironment s newPrefix runner tricksToInstall in
  let installed := tricksWindow_process systemEnvironment s tricks in
  let cleanupOnCreate := requestsDotnet tricksToInstall in
  let cleanupOnInstall :=
    requestsDotnet (verbsToInstall tricks) /\ ~ requestsDotnet (installedVerbs tricks) in
  program created = "/bin/sh"
  /\ program installed = "/bin/sh"
  /\ (cleanupOnCreate ->
      arguments created
        = ["-c"; cleanupSteps umu +:+ winetricksCommand umu tricksToInstall])
  /\ (~ cleanupOnCreate ->
      arguments created = ["-c"; winetricksCommand umu tricksToInstall])
  /\ (cleanupOnInstall ->
      arguments installed
        = ["-c"; cleanupSteps umu +:+ winetricksCommand umu (verbsToInstall tricks)])
  /\ (~ cleanupOnInstall ->
      arguments installed = ["-c"; winetricksCommand umu (verbsToInstall tricks)]).
Proof.
  intros Hne umu created installed cleanupOnCreate cleanupOnInstall.
  subst created installed cleanupOnCreate cleanupOnInstall umu.
  rewrite (CreatePrefix_process_shell _ _ _ _ _ Hne), tricksWindow_process_shell.
  cbn [program arguments].
  split; [reflexivity|]. split; [reflexivity|].
  split; [|split; [|split]].
  - intros Hreq. rewrite bool_decide_eq_false_2 by (rewrite filter_dotnet_nil; tauto).
    cbn [negb]. now rewrite dotnetCleanupThenInstall_spec.
  - intros Hreq. rewrite bool_decide_eq_true_2 by now rewrite filter_dotnet_nil.
    reflexivity.
  - intros [Hreq Hinst].
    rewrite (bool_decide_eq_true_2 (Qt.filter (installedVerbs tricks) "dotnet" = []))
      by now rewrite filter_dotnet_nil.
    rewrite bool_decide_eq_false_2 by (rewrite filter_dotnet_nil; tauto).
    cbn [negb andb]. now rewrite dotnetCleanupThenInstall_spec.
  - intros Hno.
    destruct (decide (Qt.filter (installedVerbs tricks) "dotnet" = [])) as [Hi|Hi].
    + rewrite (bool_decide_eq_true_2 _ Hi).
      rewrite bool_decide_eq_true_2; [reflexivity|].
      rewrite filter_dotnet_nil. intros Hreq. apply Hno. split; [exact Hreq|].
      now rewrite <- filter_dotnet_nil.
    + now rewrite (bool_decide_eq_false_2 _ Hi).
Qed.

Lemma C4_dotnet_cleanup_command_witness :
  arguments (CreatePrefix_process ∅ Example.store "Test" "GE-Proton-9"
               ["dotnet48"; "vcrun2019"])
  = ["-c"; cleanupSteps "/usr/bin/umu-run"
           +:+ winetricksCommand "/usr/bin/umu-run" ["dotnet48"; "vcrun2019"]]
  /\ arguments (CreatePrefix_process ∅ Example.store "Test" "GE-Proton-9" ["vcrun2019"])
     = ["-c"; winetricksCommand "/usr/bin/umu-run" ["vcrun2019"]]
  /\ arguments (tricksWindow_process ∅ Example.store Example.dotnetTricks)
     = ["-c"; cleanupSteps "/usr/bin/umu-run"
              +:+ winetricksCommand "/usr/bin/umu-run" ["dotnet48"; "vcrun2019"]].
Proof.
  assert (Hdot : requestsDotnet ["dotnet48"; "vcrun2019"]).
  { exists "dotnet48". split; [apply list_elem_of_here | reflexivity]. }
  assert (Hplain : ~ requestsDotnet ["vcrun2019"]).
  { apply filter_dotnet_nil. reflexivity. }
  assert (Hnone : ~ requestsDotnet []).
  { apply filter_dotnet_nil. reflexivity. }
  destruct (C4_dotnet_cleanup_command ∅ Example.store "Test" "GE-Proton-9"
              ["dotnet48"; "vcrun2019"] Example.dotnetTricks ltac:(discriminate))
    as (_ & _ & Hcreate & _ & Hinstall & _).
  destruct (C4_dotnet_cleanup_command ∅ Example.store "Test" "GE-Proton-9"
              ["vcrun2019"] Example.dotnetTricks ltac:(discriminate))
    as (_ & _ & _ & Hcreate' & _ & _).
  split; [exact (Hcreate Hdot) | split; [exact (Hcreate' Hplain) |]].
  exact (Hinstall (conj Hdot Hnone)).
Defined.

(** Against C4 as first stated (for a prefix creation too, the registry
    deletions are left out when a dotnet component is already installed):
    a prefix created over a directory whose winetricks.log lists dotnet48
    gets the two registry deletions all the same. *)
Lemma C4_counterexample :
  let s := ExampleDotnet.store in
  let created := CreatePrefix_process ∅ s "Test" "GE-Proton-9" ["dotnet48"] in
  winetricksLogVerbs true s "Test" = ["dotnet48"; "vcrun2019"]
  /\ requestsDotnet (winetricksLogVerbs true s "Test")
  /\ arguments created
     = ["-c"; cleanupSteps (NeroFS.umu s) +:+ winetricksCommand (NeroFS.umu s) ["dotnet48"]]
  /\ arguments created <> ["-c"; winetricksCommand (NeroFS.umu s) ["dotnet48"]].
Proof.
  cbv zeta. split; [vm_compute; reflexivity|]. split; [|split].
  - exists "dotnet48". split; [vm_compute; apply list_elem_of_here | reflexivity].
  - vm_compute. reflexivity.
  - vm_compute. discriminate.
Qed.

(** What [CreatePrefix] leaves in the registry store depends on the marker
    file alone. *)
Lemma CreatePrefix_prefixes (run : ProcessRun) (newPrefix runner : string)
    (tricksToInstall : list string) (w : Window) :
  NeroFS.prefixes (fs (CreatePrefix run newPrefix runner tricksToInstall w))
  = if bool_decide (is_Some (filesAfter run !! systemReg (fs w) newPrefix))
    then (NeroFS.prefixes (fs w) ++ [(newPrefix, runner)])%list
    else NeroFS.prefixes (fs w).
Proof.
  unfold CreatePrefix. cbn.
  change (systemReg _ newPrefix) with (systemReg (fs w) newPrefix).
  destruct (filesAfter run !! systemReg (fs w) newPrefix) as [reg|] eqn:Hreg.
  - rewrite bool_decide_eq_true_2 by eauto.
    destruct (regFileOpens run); reflexivity.
  - rewrite bool_decide_eq_false_2 by (intros [? ?]; discriminate). reflexivity.
Qed.

(** C1, as the code has it. For every run of CreatePrefix the new prefix
    is committed to the registry store (AddNewPrefix) if and only if the
    marker file system.reg of the prefix exists once the child process has
    stopped, whatever its exit code; without the marker file the store is
    left as it was.  The exit code only chooses between the two
    notifications. *)
Theorem C1_commit_iff_marker (run : ProcessRun) (newPrefix runner : string)
    (tricksToInstall : list string) (w : Window) :
  let after := CreatePrefix run newPrefix runner tricksToInstall w in
  let marker := is_Some (filesAfter run !! systemReg (fs w) newPrefix) in
  (marker ->
   fs after = NeroFS.AddNewPrefix newPrefix runner
                (NeroFS.set_files (NeroFS.files (fs after)) (fs w)))
  /\ (~ marker -> NeroFS.prefixes (fs after) = NeroFS.prefixes (fs w))
  /\ (NeroFS.prefixes (fs after)
      = (NeroFS.prefixes (fs w) ++ [(newPrefix, runner)])%list
      <-> marker)
  /\ messages (sysTray after)
     = messages (CreatePrefix_notify newPrefix (exitCode run) (sysTray w)).
Proof.
  intros after marker. subst after marker.
  pose proof (CreatePrefix_prefixes run newPrefix runner tricksToInstall w) as Hp.
  split; [|split; [|split]].
  - intros Hm. unfold CreatePrefix. cbn.
    change (systemReg _ newPrefix) with (systemReg (fs w) newPrefix).
    destruct Hm as [reg Hreg]. rewrite Hreg.
    destruct (regFileOpens run); reflexivity.
  - intros Hm. now rewrite Hp, bool_decide_eq_false_2.
  - rewrite Hp. case_bool_decide as Hm; split; try tauto.
    intros Heq. exfalso.
    apply (f_equal length) in Heq. rewrite length_app in Heq. simpl in Heq. lia.
  - unfold CreatePrefix. cbn.
    change (systemReg _ newPrefix) with (systemReg (fs w) newPrefix).
    destruct (filesAfter run !! systemReg (fs w) newPrefix);
      [destruct (regFileOpens run)|]; reflexivity.
Qed.

Lemma C1_commit_iff_marker_witness :
  NeroFS.prefixes
    (fs (CreatePrefix Example.failedVerbRun "Test" "GE-Proton-9" ["vcrun2019"]
           Example.window))
  = [("Games", "GE-Proton-9"); ("Test", "GE-Proton-9")].
Proof.
  apply (C1_commit_iff_marker Example.failedVerbRun "Test" "GE-Proton-9" ["vcrun2019"]
           Example.window).
  vm_compute. eauto.
Defined.

(** Against C1 as first stated (a commit if and only if the exit code is 0
    and the marker file exists, and none on an exit code other than 0): a
    creation whose child process exits with code 1 after Wine has written
    system.reg commits the prefix. *)
Lemma C1_counterexample :
  let run := Example.failedVerbRun in
  let after := CreatePrefix run "Test" "GE-Proton-9" ["vcrun2019"] Example.window in
  exitCode run = 1%Z
  /\ (("Test", "GE-Proton-9") ∉ NeroFS.prefixes (fs Example.window))
  /\ NeroFS.prefixes (fs after)
     = (NeroFS.prefixes (fs Example.window) ++ [("Test", "GE-Proton-9")])%list
  /\ ~ (NeroFS.prefixes (fs after)
        = (NeroFS.prefixes (fs Example.window) ++ [("Test", "GE-Proton-9")])%list
        <-> exitCode run = 0%Z
            /\ is_Some (filesAfter run !! systemReg (fs Example.window) "Test")).
Proof.
  cbv zeta. split; [reflexivity|]. split; [|split].
  - vm_compute. intros H. apply list_elem_of_In in H. simpl in H.
    destruct H as [H|[]]. discriminate.
  - vm_compute. reflexivity.
  - intros [H _].
    assert (Hc : exitCode Example.failedVerbRun = 0%Z) by (apply H; vm_compute; reflexivity).
    discriminate Hc.
Qed.

(** ** The preferences dialog *)

(** C10. Closing the preferences dialog without accepting it leaves the
    settings store as it was; when the dialog was accepted the destructor
    writes the keys ShortcutHidesManager, RunWithDefaultPrefix and
    DefaultPrefix from the widgets and no other key.  So a key of the store
    changes only when the dialog was accepted and the key is one of the
    three.  Binding the settings and clicking the check box leave the
    accepted flag as it is. *)
Theorem C10_preferences_written_when_accepted
    (d : NeroManagerPreferences.t) (managerCfg : gmap string Qt.QVariant) :
  let after := NeroManagerPreferences.destructor d managerCfg in
  (NeroManagerPreferences.accepted d = false -> after = managerCfg)
  /\ (NeroManagerPreferences.accepted d = true ->
      after !! "ShortcutHidesManager"
        = Some (Qt.VBool (NeroManagerPreferences.shortcutHide d))
      /\ after !! "RunWithDefaultPrefix"
         = Some (Qt.VBool (NeroManagerPreferences.defaultPrefixStart d))
      /\ after !! "DefaultPrefix"
         = Some (Qt.VString (NeroManagerPreferences.defaultPrefix d)))
  /\ (forall key, after !! key <> managerCfg !! key ->
      NeroManagerPreferences.accepted d = true
      /\ key ∈ ["ShortcutHidesManager"; "RunWithDefaultPrefix"; "DefaultPrefix"])
  /\ (forall cfg,
      NeroManagerPreferences.accepted (NeroManagerPreferences.BindSettings cfg d)
      = NeroManagerPreferences.accepted d)
  /\ NeroManagerPreferences.accepted
       (NeroManagerPreferences.on_defaultPrefixStart_clicked d)
     = NeroManagerPreferences.accepted d.
Proof.
  intros after. subst after. unfold NeroManagerPreferences.destructor.
  split; [|split; [|split; [|split; [reflexivity | reflexivity]]]].
  - intros ->. reflexivity.
  - intros ->. repeat split; by simplify_map_eq.
  - intros key Hkey. destruct (NeroManagerPreferences.accepted d); [|congruence].
    split; [reflexivity|].
    destruct (decide (key = "DefaultPrefix")) as [->|H1]; [set_solver|].
    destruct (decide (key = "RunWithDefaultPrefix")) as [->|H2]; [set_solver|].
    destruct (decide (key = "ShortcutHidesManager")) as [->|H3]; [set_solver|].
    exfalso. apply Hkey. by simplify_map_eq.
Qed.

Lemma C10_preferences_written_when_accepted_witness :
  let cfg : gmap string Qt.QVariant :=
    {[ "DefaultPrefix" := Qt.VString "Games"; "ShortcutHidesManager" := Qt.VBool true ]} in
  let opened := NeroManagerPreferences.BindSettings cfg
                  (NeroManagerPreferences.new Example.store) in
  let edited :=
    NeroManagerPreferences.mk false false true ["Games"] "Games" true in
  NeroManagerPreferences.accepted opened = false
  /\ NeroManagerPreferences.destructor edited cfg = cfg.
Proof.
  cbv zeta. split; [reflexivity|].
  apply (C10_preferences_written_when_accepted
           (NeroManagerPreferences.mk false false true ["Games"] "Games" true)).
  reflexivity.
Defined.

(** ** Shortcut hashes *)













(** ** The order of the rendered shortcuts *)

Lemma ci_le_refl (a : string) : ci_le a a.
Proof.
  unfold ci_le, ci_lt.
  destruct (String_as_OT.compare_spec (Qt.toLower a) (Qt.toLower a)) as [_|H|H];
    try reflexivity.
  exfalso. exact (StrictOrder_Irreflexive _ H).
Qed.

Lemma ci_lt_true (a b : string) :
  ci_lt a b = true <-> String_as_OT.lt (Qt.toLower a) (Qt.toLower b).
Proof.
  unfold ci_lt, String_as_OT.lt.
  destruct (String_as_OT.compare (Qt.toLower a) (Qt.toLower b)); split;
    congruence.
Qed.

Lemma ci_le_total (a b : string) : ci_lt a b = false -> ci_le a b -> Qt.toLower a = Qt.toLower b.
Proof.
  unfold ci_le. intros Hab Hba.
  destruct (String_as_OT.compare_spec (Qt.toLower a) (Qt.toLower b)) as [Heq|Hlt|Hgt].
  - exact Heq.
  - apply ci_lt_true in Hlt. congruence.
  - apply ci_lt_true in Hgt. congruence.
Qed.

Lemma ci_lt_le (a b : string) : ci_lt a b = true -> ci_le a b.
Proof.
  intros Hab. unfold ci_le. destruct (ci_lt b a) eqn:Hba; [|reflexivity].
  apply ci_lt_true in Hab, Hba. exfalso.
  exact (StrictOrder_Irreflexive _ (StrictOrder_Transitive _ _ _ Hab Hba)).
Qed.

Lemma ci_le_trans (a b c : string) : ci_le a b -> ci_le b c -> ci_le a c.
Proof.
  unfold ci_le. intros Hab Hbc. destruct (ci_lt c a) eqn:Hca; [|reflexivity].
  exfalso. apply ci_lt_true in Hca.
  destruct (String_as_OT.compare_spec (Qt.toLower a) (Qt.toLower b)) as [Heq|Hlt|Hgt].
  - rewrite Heq in Hca. apply ci_lt_true in Hca. congruence.
  - pose proof (StrictOrder_Transitive _ _ _ Hca Hlt) as Hcb.
    apply ci_lt_true in Hcb. congruence.
  - apply ci_lt_true in Hgt. congruence.
Qed.

Lemma insert_ci_perm (x : string) (l : list string) : Permutation (insert_ci x l) (x :: l).
Proof.
  induction l as [|y l IH]; simpl; [reflexivity|].
  destruct (ci_lt x y); [reflexivity|].
  rewrite IH. apply perm_swap.
Qed.

Lemma foldl_insert_ci_perm (l acc : list string) :
  Permutation (foldl (fun sorted x => insert_ci x sorted) acc l) (acc ++ l).
Proof.
  revert acc. induction l as [|x l IH]; intros acc; simpl.
  - now rewrite app_nil_r.
  - rewrite IH, insert_ci_perm. simpl. apply Permutation_middle.
Qed.

Lemma sort_ci_perm (l : list string) : Permutation (sort_ci l) l.
Proof. unfold sort_ci. now rewrite foldl_insert_ci_perm. Qed.

Lemma insert_ci_sorted (x : string) (l : list string) :
  StronglySorted ci_le l -> StronglySorted ci_le (insert_ci x l).
Proof.
  induction 1 as [|y l Hl IH Hy]; simpl.
  - repeat constructor.
  - destruct (ci_lt x y) eqn:Hxy.
    + constructor; [now constructor|].
      constructor; [now apply ci_lt_le|].
      eapply Forall_impl; [exact Hy|]. intros z Hz.
      eapply ci_le_trans; [apply ci_lt_le; exact Hxy | exact Hz].
    + constructor; [exact IH|].
      rewrite (Forall_forall (ci_le y)). intros z Hz.
      rewrite (insert_ci_perm x l) in Hz.
      apply elem_of_cons in Hz as [->|Hz]; [exact Hxy|].
      rewrite Forall_forall in Hy. now apply Hy.
Qed.

Lemma sort_ci_sorted (l : list string) : StronglySorted ci_le (sort_ci l).
Proof.
  unfold sort_ci.
  assert (H : forall acc, StronglySorted ci_le acc ->
                StronglySorted ci_le (foldl (fun sorted x => insert_ci x sorted) acc l)).
  { induction l as [|x l IH]; intros acc Hacc; simpl; [exact Hacc|].
    apply IH. now apply insert_ci_sorted. }
  apply H. constructor.
Qed.

Lemma NoDup_fmap_eq {A B : Type} (f : A -> B) (l : list A) (x y : A) :
  NoDup (f <$> l) -> x ∈ l -> y ∈ l -> f x = f y -> x = y.
Proof.
  induction l as [|a l IH]; intros Hnd Hx Hy Hf; [inversion Hx|].
  rewrite fmap_cons in Hnd. apply NoDup_cons in Hnd as [Ha Hnd].
  apply elem_of_cons in Hx as [->|Hx]; apply elem_of_cons in Hy as [->|Hy].
  - reflexivity.
  - exfalso. apply Ha. rewrite Hf. now apply list_elem_of_fmap_2.
  - exfalso. apply Ha. rewrite <- Hf. now apply list_elem_of_fmap_2.
  - now apply IH.
Qed.

(** Two sorted arrangements of the same names agree when no two names
    fold to the same text. *)
Lemma sorted_ci_unique (l1 l2 : list string) :
  StronglySorted ci_le l1 -> StronglySorted ci_le l2 ->
  Permutation l1 l2 -> NoDup (Qt.toLower <$> l1) -> l1 = l2.
Proof.
  intros H1. revert l2. induction H1 as [|a r1 Hr1 IH Ha]; intros l2 H2 Hperm Hnd.
  - now apply Permutation_nil in Hperm.
  - destruct H2 as [|b r2 Hr2 Hb].
    + symmetry in Hperm. now apply Permutation_nil in Hperm.
    + assert (Hab : a = b).
      { assert (Hbin : b ∈ a :: r1) by (rewrite Hperm; apply list_elem_of_here).
        assert (Hain : a ∈ b :: r2) by (rewrite <- Hperm; apply list_elem_of_here).
        apply elem_of_cons in Hbin as [->|Hbin]; [reflexivity|].
        apply elem_of_cons in Hain as [->|Hain]; [reflexivity|].
        rewrite Forall_forall in Ha, Hb.
        assert (Hle1 : ci_le a b) by now apply Ha.
        assert (Hle2 : ci_le b a) by now apply Hb.
        apply (NoDup_fmap_eq Qt.toLower (a :: r1)); auto using list_elem_of_here.
        - now apply list_elem_of_further.
        - apply ci_le_total; assumption. }
      subst b. f_equal. apply IH; [exact Hr2 | | ].
      * now apply Permutation_cons_inv in Hperm.
      * rewrite fmap_cons in Hnd. now apply NoDup_cons in Hnd as [_ Hnd].
Qed.

Lemma RenderPrefixList_labels (w : Window) :
  prefixShortcutLabel (RenderPrefixList w)
  = (prefixShortcutLabel w
     ++ (Some <$> sort_ci (NeroFS.GetCurrentPrefixShortcuts (fs w))))%list.
Proof.
  unfold RenderPrefixList, NeroFS.childKeys, NeroFS.GetCurrentPrefixShortcuts.
  case_bool_decide as Hkeys; [|reflexivity].
  apply fmap_nil_inv in Hkeys. rewrite Hkeys. simpl. now rewrite app_nil_r.
Qed.

(** C9, as the code has it. Whenever the shortcut list of the current
    prefix is rendered, the labels added to the list are the display names
    of the persisted map, sorted at render time by the comparison that
    ignores the case of letters.  The rendered order is the same for every
    order in which the same shortcuts were entered, provided no two
    display names differ by the case of letters alone. *)
Theorem C9_rendered_order_sorted (w : Window) :
  let names := NeroFS.GetCurrentPrefixShortcuts (fs w) in
  exists shown,
    prefixShortcutLabel (RenderPrefixList w)
    = (prefixShortcutLabel w ++ (Some <$> shown))%list
    /\ Permutation shown names
    /\ StronglySorted ci_le shown
    /\ (NoDup (Qt.toLower <$> names) ->
        forall w',
          Permutation (NeroFS.shortcuts (fs w')) (NeroFS.shortcuts (fs w)) ->
          prefixShortcutLabel (RenderPrefixList w')
          = (prefixShortcutLabel w' ++ (Some <$> shown))%list).
Proof.
  intros names. exists (sort_ci names).
  split; [|split; [|split]].
  - apply RenderPrefixList_labels.
  - apply sort_ci_perm.
  - apply sort_ci_sorted.
  - intros Hnd w' Hperm.
    rewrite RenderPrefixList_labels. do 2 f_equal.
    assert (Hnames : Permutation (NeroFS.GetCurrentPrefixShortcuts (fs w')) names).
    { unfold names, NeroFS.GetCurrentPrefixShortcuts. now rewrite Hperm. }
    apply sorted_ci_unique.
    + apply sort_ci_sorted.
    + apply sort_ci_sorted.
    + now rewrite !sort_ci_perm.
    + rewrite sort_ci_perm, Hnames. exact Hnd.
Qed.

Lemma C9_rendered_order_sorted_witness :
  prefixShortcutLabel (RenderPrefixList (ExampleNames.cleared Example.store))
  = [Some "Notepad"; Some "Solitaire"]
  /\ prefixShortcutLabel
       (RenderPrefixList
          (ExampleNames.cleared
             (ExampleNames.store [("7c2d", "Solitaire"); ("0a1b", "Notepad")])))
     = [Some "Notepad"; Some "Solitaire"].
Proof.
  destruct (C9_rendered_order_sorted (ExampleNames.cleared Example.store))
    as (shown & Hshown & _ & _ & Hsame).
  assert (Heq : shown = ["Notepad"; "Solitaire"]).
  { apply (inj (fmap Some)).
    change (Some <$> shown)
      with (prefixShortcutLabel (ExampleNames.cleared Example.store)
            ++ (Some <$> shown))%list.
    rewrite <- Hshown. reflexivity. }
  subst shown. split; [exact Hshown|].
  apply (Hsame ltac:(apply (bool_decide_unpack _); vm_compute; exact I)
           (ExampleNames.cleared
              (ExampleNames.store [("7c2d", "Solitaire"); ("0a1b", "Notepad")]))).
  apply perm_swap.
Defined.

(** Against C9 as first stated (the rendered order is the same for every
    insertion order of the same display names): the shortcuts App and app
    are shown in the order they were entered in, which is not the order of
    the plain comparison of texts in one of the two cases. *)
Lemma C9_counterexample :
  Permutation (NeroFS.shortcuts (fs ExampleNames.upperFirst))
              (NeroFS.shortcuts (fs ExampleNames.lowerFirst))
  /\ prefixShortcutLabel (RenderPrefixList ExampleNames.upperFirst)
     = [Some "App"; Some "app"]
  /\ prefixShortcutLabel (RenderPrefixList ExampleNames.lowerFirst)
     = [Some "app"; Some "App"]
  /\ prefixShortcutLabel (RenderPrefixList ExampleNames.upperFirst)
     <> prefixShortcutLabel (RenderPrefixList ExampleNames.lowerFirst)
  /\ String.ltb "App" "app" = true.
Proof.
  split; [apply perm_swap|]. split; [reflexivity|]. split; [reflexivity|].
  split; [|reflexivity]. vm_compute. discriminate.
Qed.

(** ** Starting a shortcut whose executable is missing *)

(** C6, as the code has it. When a shortcut that is not running is
    started and no file exists at its path, read with every occurrence of
    C:/ replaced by the drive_c directory of the current prefix, the
    message box that reports the missing executable is shown and nothing
    is launched: no controller is created, and currentlyRunning,
    threadsCount, the settings and the store are as before. *)
Theorem C6_missing_target_no_launch (sender : PlayButton) (w : Window) :
  Z.of_nat (btn_slot sender) ∉ currentlyRunning w ->
  NeroFS.exists_ (fs w) (launchTarget (fs w) (btn_hash sender)) = false ->
  exists w',
    prefixShortcutPlayButtons_clicked sender w = Some w'
    /\ w' = set_events (events w ++ [notFoundBox]) w
    /\ umuController w' = umuController w
    /\ currentlyRunning w' = currentlyRunning w
    /\ threadsCount w' = threadsCount w
    /\ fs w' = fs w
    /\ managerCfg w' = managerCfg w.
Proof.
  intros Hidle Hmissing. eexists. split; [|split; [reflexivity|]].
  - unfold prefixShortcutPlayButtons_clicked.
    rewrite bool_decide_eq_false_2 by exact Hidle. rewrite Hmissing. reflexivity.
  - repeat split.
Qed.

Lemma C6_missing_target_no_launch_witness :
  exists w',
    prefixShortcutPlayButtons_clicked Example.solitaireButton Example.window = Some w'
    /\ events w' = [notFoundBox]
    /\ umuController w' = [] /\ currentlyRunning w' = [] /\ threadsCount w' = 0%nat.
Proof.
  destruct (C6_missing_target_no_launch Example.solitaireButton Example.window)
    as (w' & Hclick & -> & Hc & Hr & Ht & _).
  - vm_compute. intros H. inversion H.
  - vm_compute. reflexivity.
  - eexists. split; [exact Hclick|]. repeat split.
Defined.

(** Against C6 as first stated (the path is read with a leading C:/
    mapped to the drive_c directory): the path /mnt/C:/notepad.exe has no
    leading drive letter and no file is there, yet the handler replaces
    the C:/ inside it, finds a file and launches. *)
Lemma C6_counterexample :
  let w := ExampleDrive.window in
  let sender := Example.notepadButton in
  let path := Qt.toString (GetShortcutSettings (fs w) (btn_hash sender) !! "Path") in
  (Z.of_nat (btn_slot sender) ∉ currentlyRunning w)
  /\ path = "/mnt/C:/notepad.exe"
  /\ NeroFS.exists_ (fs w) (mapLeadingDrive (fs w) path) = false
  /\ exists w',
       prefixShortcutPlayButtons_clicked sender w = Some w'
       /\ events w' = [Operate 0]
       /\ currentlyRunning w' = [0%Z]
       /\ threadsCount w' = 1%nat
       /\ length (umuController w') = 1%nat.
Proof.
  cbv zeta. split; [|split; [|split]].
  - vm_compute. intros H. inversion H.
  - reflexivity.
  - vm_compute. reflexivity.
  - eexists. split; [vm_compute; reflexivity|]. repeat split.
Qed.

(** ** Renaming a shortcut *)

Lemma GetCurrentShortcutsMap_lookup (s : NeroFS.t) (hash name : string) :
  NoDup (NeroFS.shortcuts s).*2 ->
  (hash, name) ∈ NeroFS.shortcuts s ->
  NeroFS.GetCurrentShortcutsMap s !! name = Some hash.
Proof.
  intros Hnd Hin. unfold NeroFS.GetCurrentShortcutsMap.
  apply elem_of_list_to_map_1.
  - rewrite <- list_fmap_compose.
    replace (fst ∘ prod_swap) with (@snd string string); [exact Hnd|].
    reflexivity.
  - apply list_elem_of_fmap. exists (hash, name). split; [reflexivity | exact Hin].
Qed.


Lemma at_Some {A : Type} (l : list (option A)) (i : nat) (x : A) :
  l !! i = Some (Some x) -> at_ l i = Some x.
Proof. unfold at_. now intros ->. Qed.

Lemma atZ_Some {A : Type} (l : list (option A)) (i : nat) (x : A) :
  l !! i = Some (Some x) -> atZ l (Z.of_nat i) = Some x.
Proof.
  intros H. unfold atZ. rewrite bool_decide_eq_true_2 by lia.
  rewrite Nat2Z.id. now apply at_Some.
Qed.





(** ** Bookkeeping of the runs *)

(** What a launch changes. *)
Lemma launched_fields (sender button : PlayButton) (label : string) (w : Window) :
  let w' := launched sender button label w in
  let slot := Z.of_nat (btn_slot sender) in
  let group := bool_decide (1 < length (currentlyRunning w ++ [slot]))%nat in
  threadsCount w' = (threadsCount w + 1)%nat
  /\ umuController w'
     = (umuController w
        ++ [Some (mkController slot (btn_hash sender) group []
                    (threadsCount w + 1 - 1) EmptyString)])%list
  /\ currentlyRunning w' = (currentlyRunning w ++ [slot])%list
  /\ oneOffsRunning w' = oneOffsRunning w
  /\ prefixShortcutLabel w' = prefixShortcutLabel w
  /\ prefixShortcutPlayButton w'
     = <[btn_slot sender :=
           Some (mkPlayButton "media-playback-stop" ("Stop " +:+ label)
                   (btn_slot button) (btn_hash button) (threadsCount w + 1 - 1))]>
         (prefixShortcutPlayButton w)
  /\ fs w' = fs w
  /\ managerCfg w' = managerCfg w
  /\ events w' = (events w ++ [Operate (threadsCount w + 1 - 1)])%list
  /\ toolTip (sysTray w')
     = (if group
        then runningCountToolTip (fs w) (length (currentlyRunning w ++ [slot]))
        else runningToolTip (fs w) label).
Proof.
  cbv zeta. repeat (match goal with |- _ /\ _ => split end); reflexivity.
Qed.

Lemma oneTime_fields (oneTimeApp oneTimeRunArgs : string) (w : Window) :
  oneTimeApp <> EmptyString ->
  let w' := on_oneTimeRunBtn_clicked oneTimeApp oneTimeRunArgs w in
  let group := bool_decide (1 < length (currentlyRunning w ++ [(-1)%Z]))%nat in
  let name := afterLastSlash oneTimeApp in
  exists args,
    threadsCount w' = (threadsCount w + 1)%nat
    /\ umuController w'
       = (umuController w
          ++ [Some (mkController (-1) oneTimeApp group args
                      (threadsCount w + 1 - 1) name)])%list
    /\ currentlyRunning w' = (currentlyRunning w ++ [(-1)%Z])%list
    /\ oneOffsRunning w' = (oneOffsRunning w ++ [name])%list
    /\ prefixShortcutLabel w' = prefixShortcutLabel w
    /\ prefixShortcutPlayButton w' = prefixShortcutPlayButton w
    /\ fs w' = fs w
    /\ events w' = (events w ++ [Operate (threadsCount w + 1 - 1)])%list
    /\ toolTip (sysTray w')
       = (if group
          then runningCountToolTip (fs w) (length (currentlyRunning w ++ [(-1)%Z]))
          else runningToolTip (fs w) name).
Proof.
  intros Happ. cbv zeta. apply String.eqb_neq in Happ.
  exists (if String.eqb oneTimeRunArgs EmptyString then [] else splitArgs oneTimeRunArgs).
  unfold on_oneTimeRunBtn_clicked. rewrite Happ.
  repeat (match goal with |- _ /\ _ => split end); reflexivity.
Qed.

Arguments live : simpl never.
Arguments runningNames : simpl never.
Arguments runName : simpl never.
Arguments aggregateStatus : simpl never.
Arguments runningToolTip : simpl never.
Arguments runningCountToolTip : simpl never.

Lemma at_Some_inv {A : Type} (l : list (option A)) (i : nat) (x : A) :
  at_ l i = Some x -> l !! i = Some (Some x).
Proof. unfold at_. destruct (l !! i) as [[y|]|]; simpl; congruence. Qed.

Lemma at_insert_is_Some {A : Type} (l : list (option A)) (i j : nat) (x : A) :
  is_Some (at_ l j) -> is_Some (at_ (<[i := Some x]> l) j).
Proof.
  intros [y Hy]. apply at_Some_inv in Hy.
  destruct (decide (i = j)) as [->|Hne].
  - exists x. apply at_Some. apply list_lookup_insert_eq.
    apply lookup_lt_is_Some. eauto.
  - exists y. apply at_Some. now rewrite list_lookup_insert_ne.
Qed.

Lemma removeOne_perm {A : Type} `{EqDecision A} (x : A) (l : list A) :
  x ∈ l -> Permutation (x :: removeOne x l) l.
Proof.
  induction l as [|y l IH]; intros Hin; [inversion Hin|].
  simpl. destruct (decide (y = x)) as [->|Hne]; [reflexivity|].
  apply elem_of_cons in Hin as [->|Hin]; [congruence|].
  rewrite perm_swap. now rewrite IH.
Qed.

Lemma removeOne_perm_cons {A : Type} `{EqDecision A} (x : A) (l l' : list A) :
  Permutation (x :: l) l' -> Permutation l (removeOne x l').
Proof.
  intros Hperm. apply (Permutation_cons_inv (a := x)).
  rewrite removeOne_perm; [exact Hperm|].
  rewrite <- Hperm. apply list_elem_of_here.
Qed.

Lemma removeOne_elem_of {A : Type} `{EqDecision A} (x y : A) (l : list A) :
  y ∈ removeOne x l -> y ∈ l.
Proof.
  induction l as [|z l IH]; simpl; [auto|].
  destruct (decide (z = x)); intros H.
  - now apply list_elem_of_further.
  - apply elem_of_cons in H as [->|H]; [apply list_elem_of_here|].
    apply list_elem_of_further. now apply IH.
Qed.

Lemma omap_id_insert_None {A : Type} (l : list (option A)) (i : nat) (c : A) :
  l !! i = Some (Some c) ->
  Permutation (c :: omap id (<[i := None]> l)) (omap id l).
Proof.
  revert i. induction l as [|x l IH]; intros i Hi; [inversion Hi|].
  destruct i as [|i]; simpl in *.
  - injection Hi as ->. reflexivity.
  - destruct x as [x|]; simpl.
    + rewrite perm_swap. now rewrite (IH i Hi).
    + now apply IH.
Qed.

Lemma live_lookup (w : Window) (c : NeroThreadController) :
  c ∈ live w <-> exists i, umuController w !! i = Some (Some c).
Proof.
  unfold live. rewrite list_elem_of_omap. split.
  - intros (x & Hx & Hc). destruct x as [x|]; simpl in Hc; [|discriminate].
    injection Hc as ->. now apply list_elem_of_lookup in Hx.
  - intros (i & Hi). exists (Some c). split; [|reflexivity].
    now apply list_elem_of_lookup_2 in Hi.
Qed.

Lemma Inv_live_thread (w : Window) (c : NeroThreadController) :
  Inv w -> c ∈ live w -> umuController w !! ctl_thread c = Some (Some c).
Proof.
  intros HI Hc. apply live_lookup in Hc as (i & Hi).
  now rewrite (inv_thread w HI i c Hi).
Qed.

Lemma Inv_live_running (w : Window) (c : NeroThreadController) :
  Inv w -> c ∈ live w -> ctl_slot c ∈ currentlyRunning w.
Proof.
  intros HI Hc. rewrite <- (inv_running w HI). now apply list_elem_of_fmap_2.
Qed.

(** The first part of [handleUmuResults] succeeds for a live controller
    and touches the play button or the list of one-time names only. *)
Lemma releaseRun_spec (c : NeroThreadController) (w : Window) :
  Inv w -> c ∈ live w ->
  exists w1,
    releaseRun c (ctl_slot c) w = Some w1
    /\ umuController w1 = umuController w
    /\ currentlyRunning w1 = currentlyRunning w
    /\ threadsCount w1 = threadsCount w
    /\ prefixShortcutLabel w1 = prefixShortcutLabel w
    /\ fs w1 = fs w
    /\ events w1 = events w
    /\ prefixIsSelected w1 = prefixIsSelected w
    /\ oneOffsRunning w1
       = (if bool_decide (ctl_slot c = (-1)%Z)
          then removeOne (ctl_running c) (oneOffsRunning w)
          else oneOffsRunning w)
    /\ (forall j, is_Some (at_ (prefixShortcutPlayButton w) j) ->
                  is_Some (at_ (prefixShortcutPlayButton w1) j)).
Proof.
  intros HI Hc. pose proof (Inv_live_running w c HI Hc) as Hrun.
  destruct (inv_slots w HI _ Hrun) as [Hone|(Hpos & [label Hlabel] & [button Hbutton])].
  - unfold releaseRun. rewrite Hone.
    rewrite bool_decide_eq_false_2 by lia. eexists. split; [reflexivity|].
    cbn. repeat split; auto.
  - unfold releaseRun. rewrite bool_decide_eq_true_2 by exact Hpos.
    rewrite Hbutton, Hlabel. cbn [mbind option_bind].
    rewrite (bool_decide_eq_false_2 (ctl_slot c = (-1)%Z)) by lia.
    eexists; split; [reflexivity|].
    cbn [umuController currentlyRunning threadsCount prefixShortcutLabel fs events
         prefixIsSelected oneOffsRunning prefixShortcutPlayButton
         set_hidden set_prefixShortcutPlayButton].
    repeat (match goal with |- _ /\ _ => split end);
      auto using at_insert_is_Some.
Qed.

Lemma aggregateStatus_one (s : NeroFS.t) (name : string) :
  aggregateStatus (NeroFS.currentPrefix s) [name] = runningToolTip s name.
Proof. reflexivity. Qed.

Lemma aggregateStatus_count (s : NeroFS.t) (names : list string) :
  (2 <= length names)%nat ->
  aggregateStatus (NeroFS.currentPrefix s) names = runningCountToolTip s (length names).
Proof.
  destruct names as [|a [|b names]]; simpl; try lia. reflexivity.
Qed.

Lemma Inv_retire (c : NeroThreadController) (w w1 : Window) :
  Inv w -> c ∈ live w ->
  umuController w1 = umuController w ->
  currentlyRunning w1 = currentlyRunning w ->
  threadsCount w1 = threadsCount w ->
  prefixShortcutLabel w1 = prefixShortcutLabel w ->
  oneOffsRunning w1
  = (if bool_decide (ctl_slot c = (-1)%Z)
     then removeOne (ctl_running c) (oneOffsRunning w)
     else oneOffsRunning w) ->
  (forall j, is_Some (at_ (prefixShortcutPlayButton w) j) ->
             is_Some (at_ (prefixShortcutPlayButton w1) j)) ->
  let w2 := set_currentlyRunning (removeOne (ctl_slot c) (currentlyRunning w1))
              (set_umuController (<[ctl_thread c := None]> (umuController w1)) w1) in
  Inv w2 /\ Permutation (c :: live w2) (live w).
Proof.
  intros HI Hc Hctl Hrun Hcount Hlabels Hone Hbuttons w2.
  pose proof (Inv_live_thread w c HI Hc) as Hlook.
  assert (Hperm : Permutation (c :: live w2) (live w)).
  { unfold live, w2. cbn. rewrite Hctl. now apply omap_id_insert_None. }
  split; [|exact Hperm]. constructor.
  - unfold w2. cbn. rewrite length_insert, Hcount, Hctl. apply (inv_count w HI).
  - intros i c'. unfold w2. cbn. rewrite Hctl. intros Hi.
    destruct (decide (i = ctl_thread c)) as [->|Hne].
    + rewrite list_lookup_insert_eq in Hi by (apply lookup_lt_is_Some; eauto).
      discriminate.
    + rewrite list_lookup_insert_ne in Hi by congruence.
      now apply (inv_thread w HI).
  - change (currentlyRunning w2) with (removeOne (ctl_slot c) (currentlyRunning w1)).
    rewrite Hrun. apply removeOne_perm_cons.
    rewrite <- (inv_running w HI), <- Hperm. reflexivity.
  - change (oneOffsRunning w2) with (oneOffsRunning w1). rewrite Hone.
    pose proof (inv_oneOffs w HI) as Ho. rewrite <- Hperm in Ho.
    rewrite filter_cons in Ho.
    case_bool_decide as Hslot.
    + rewrite decide_True in Ho by exact Hslot.
      apply removeOne_perm_cons. exact Ho.
    + rewrite decide_False in Ho by exact Hslot. exact Ho.
  - intros z Hz.
    change (currentlyRunning w2) with (removeOne (ctl_slot c) (currentlyRunning w1)) in Hz.
    rewrite Hrun in Hz. apply removeOne_elem_of in Hz.
    destruct (inv_slots w HI z Hz) as [->|(Hpos & Hl & Hb)]; [now left|].
    right. split; [exact Hpos|]. unfold w2. cbn. rewrite Hlabels. split; auto.
Qed.

Lemma Inv_nothing_live (w : Window) : Inv w -> currentlyRunning w = [] -> live w = [].
Proof.
  intros HI Hrun. pose proof (inv_running w HI) as Hp. rewrite Hrun in Hp.
  apply Permutation_nil_r in Hp. now apply fmap_nil_inv in Hp.
Qed.

Lemma Inv_one_live (w : Window) (first : Z) :
  Inv w -> currentlyRunning w = [first] ->
  exists c, live w = [c] /\ ctl_slot c = first.
Proof.
  intros HI Hrun. pose proof (inv_running w HI) as Hp. rewrite Hrun in Hp.
  apply Permutation_singleton_r in Hp.
  destruct (live w) as [|c [|c' l]]; try discriminate.
  injection Hp as Hc. now exists c.
Qed.

Lemma runningNames_length (w : Window) :
  Inv w -> length (runningNames w) = length (currentlyRunning w).
Proof.
  intros HI. unfold runningNames. rewrite length_fmap.
  rewrite <- (Permutation_length (inv_running w HI)). now rewrite length_fmap.
Qed.

Lemma Inv_idle (w : Window) :
  threadsCount w = 0%nat -> umuController w = [] -> currentlyRunning w = [] ->
  oneOffsRunning w = [] -> Inv w.
Proof.
  intros Hcount Hctl Hrun Hone. constructor.
  - now rewrite Hcount, Hctl.
  - intros i c Hi. rewrite Hctl, lookup_nil in Hi. discriminate.
  - unfold live. now rewrite Hctl, Hrun.
  - unfold live. now rewrite Hctl, Hone.
  - intros z Hz. rewrite Hrun in Hz. inversion Hz.
Qed.

Lemma Inv_ext (w w' : Window) :
  Inv w ->
  threadsCount w' = threadsCount w -> umuController w' = umuController w ->
  currentlyRunning w' = currentlyRunning w -> oneOffsRunning w' = oneOffsRunning w ->
  prefixShortcutLabel w' = prefixShortcutLabel w ->
  prefixShortcutPlayButton w' = prefixShortcutPlayButton w ->
  Inv w'.
Proof.
  intros [H1 H2 H3 H4 H5] Hcount Hctl Hrun Hone Hlabel Hbutton.
  constructor; unfold live in *; rewrite ?Hcount, ?Hctl, ?Hrun, ?Hone, ?Hlabel, ?Hbutton;
    assumption.
Qed.

(** The third part of [handleUmuResults] leaves the tool tip that the
    specification describes. *)
Lemma refreshStatus_spec (w : Window) :
  Inv w ->
  exists w',
    refreshStatus w = Some w'
    /\ Inv w'
    /\ live w' = live w
    /\ events w' = events w
    /\ fs w' = fs w
    /\ prefixShortcutLabel w' = prefixShortcutLabel w
    /\ currentlyRunning w' = currentlyRunning w
    /\ toolTip (sysTray w')
       = aggregateStatus (NeroFS.currentPrefix (fs w')) (runningNames w')
    /\ (currentlyRunning w' = [] -> umuController w' = [] /\ threadsCount w' = 0%nat).
Proof.
  intros HI. unfold refreshStatus.
  destruct (currentlyRunning w) as [|first [|second rest]] eqn:Hrun.
  - pose proof (Inv_nothing_live w HI Hrun) as Hlive.
    assert (Hone : oneOffsRunning w = []).
    { pose proof (inv_oneOffs w HI) as Ho. rewrite Hlive in Ho.
      now apply Permutation_nil in Ho. }
    eexists. split; [reflexivity|].
    unfold resetRuns. cbn.
    destruct (prefixIsSelected w); cbn;
      (split; [apply Inv_idle; cbn; auto | repeat split; auto]).

  - destruct (Inv_one_live w first HI Hrun) as (c & Hlive & Hslot).
    assert (Hin : first ∈ currentlyRunning w) by (rewrite Hrun; apply list_elem_of_here).
    case_bool_decide as Hfirst; cbn [negb].
    + rewrite Hfirst in *.
      pose proof (inv_oneOffs w HI) as Ho. rewrite Hlive in Ho.
      rewrite filter_cons, decide_True in Ho by exact Hslot.
      rewrite filter_nil in Ho. cbn in Ho. symmetry in Ho.
      apply Permutation_singleton_r in Ho. rewrite Ho. cbn [head mbind option_bind].
      eexists. split; [reflexivity|]. cbn.
      split; [apply (Inv_ext w); auto|].
      split; [reflexivity|]. repeat split; try assumption; try congruence.
      unfold runningNames. change (live _) with (live w). rewrite Hlive.
      cbn [fmap list_fmap]. rewrite aggregateStatus_one. f_equal.
      unfold runName. rewrite Hslot. rewrite bool_decide_eq_false_2 by lia.
      reflexivity.
    + destruct (inv_slots w HI first Hin) as [?|(Hpos & [label Hlabel] & _)];
        [contradiction|].
      unfold atZ. rewrite bool_decide_eq_true_2 by exact Hpos.
      rewrite Hlabel. cbn [mbind option_bind].
      eexists. split; [reflexivity|]. cbn.
      split; [apply (Inv_ext w); auto|].
      split; [reflexivity|]. repeat split; try assumption; try congruence.
      unfold runningNames. change (live _) with (live w). rewrite Hlive.
      cbn [fmap list_fmap]. rewrite aggregateStatus_one. f_equal.
      unfold runName, atZ. cbn [prefixShortcutLabel set_sysTray]. rewrite Hslot.
      rewrite !bool_decide_eq_true_2 by exact Hpos. rewrite Hlabel. reflexivity.
  - eexists. split; [reflexivity|]. cbn.
    split; [apply (Inv_ext w); auto|].
    split; [reflexivity|]. repeat split; try assumption; try congruence.
    rewrite aggregateStatus_count.
    + f_equal. unfold runningNames. rewrite length_fmap. change (live _) with (live w).
      rewrite <- (length_fmap ctl_slot), (Permutation_length (inv_running w HI)), Hrun.
      reflexivity.
    + unfold runningNames. rewrite length_fmap. change (live _) with (live w).
      rewrite <- (length_fmap ctl_slot), (Permutation_length (inv_running w HI)), Hrun.
      simpl. lia.
Qed.

(** One result handed to [handleUmuResults] for a live controller. *)
Lemma handleUmuResults_step (c : NeroThreadController) (result : Z) (w : Window) :
  Inv w -> c ∈ live w ->
  exists w',
    handleUmuResults c (ctl_slot c) result w = Some w'
    /\ Inv w'
    /\ Permutation (c :: live w') (live w)
    /\ events w' = events w
    /\ fs w' = fs w
    /\ prefixShortcutLabel w' = prefixShortcutLabel w
    /\ currentlyRunning w' = removeOne (ctl_slot c) (currentlyRunning w)
    /\ toolTip (sysTray w')
       = aggregateStatus (NeroFS.currentPrefix (fs w')) (runningNames w')
    /\ (currentlyRunning w' = [] -> umuController w' = [] /\ threadsCount w' = 0%nat).
Proof.
  intros HI Hc.
  destruct (releaseRun_spec c w HI Hc)
    as (w1 & H1 & Hctl & Hrun & Hcount & Hlabels & Hfs & Hev & _ & Hone & Hbuttons).
  destruct (Inv_retire c w w1 HI Hc Hctl Hrun Hcount Hlabels Hone Hbuttons)
    as (HI2 & Hperm).
  set (w2 := set_currentlyRunning (removeOne (ctl_slot c) (currentlyRunning w1))
               (set_umuController (<[ctl_thread c := None]> (umuController w1)) w1))
    in HI2, Hperm.
  destruct (refreshStatus_spec w2 HI2)
    as (w3 & H3 & HI3 & Hlive3 & Hev3 & Hfs3 & Hlabels3 & Hrun3 & Htip3 & Hidle3).
  exists (set_runnerWindow None w3). split.
  - unfold handleUmuResults. rewrite H1. cbn [mbind option_bind].
    unfold retireController. rewrite Hctl, (Inv_live_thread w c HI Hc).
    cbn [mbind option_bind]. rewrite <- Hctl.
    change (refreshStatus w2 ≫= (fun w0 => Some (set_runnerWindow None w0))
            = Some (set_runnerWindow None w3)).
    rewrite H3. reflexivity.
  - split; [apply (Inv_ext w3); auto|].
    split; [change (live (set_runnerWindow None w3)) with (live w3); now rewrite Hlive3|].
    cbn [events fs prefixShortcutLabel currentlyRunning sysTray umuController
         threadsCount set_runnerWindow].
    split; [now rewrite Hev3|]. split; [now rewrite Hfs3|].
    split; [now rewrite Hlabels3|].
    split; [rewrite Hrun3; unfold w2; cbn; now rewrite Hrun|].
    split; [exact Htip3 | exact Hidle3].
Qed.

Lemma live_snoc (l : list (option NeroThreadController)) (c : NeroThreadController) :
  omap id (l ++ [Some c])%list = (omap id l ++ [c])%list.
Proof. now rewrite omap_app. Qed.

Lemma Inv_started (w w' : Window) (c : NeroThreadController) :
  Inv w ->
  threadsCount w' = (threadsCount w + 1)%nat ->
  umuController w' = (umuController w ++ [Some c])%list ->
  ctl_thread c = (threadsCount w + 1 - 1)%nat ->
  currentlyRunning w' = (currentlyRunning w ++ [ctl_slot c])%list ->
  oneOffsRunning w'
  = (if bool_decide (ctl_slot c = (-1)%Z)
     then oneOffsRunning w ++ [ctl_running c] else oneOffsRunning w)%list ->
  prefixShortcutLabel w' = prefixShortcutLabel w ->
  (forall j, is_Some (at_ (prefixShortcutPlayButton w) j) ->
             is_Some (at_ (prefixShortcutPlayButton w') j)) ->
  (ctl_slot c = (-1)%Z
   \/ (0 <= ctl_slot c)%Z
      /\ is_Some (at_ (prefixShortcutLabel w) (Z.to_nat (ctl_slot c)))
      /\ is_Some (at_ (prefixShortcutPlayButton w') (Z.to_nat (ctl_slot c)))) ->
  Inv w' /\ live w' = (live w ++ [c])%list.
Proof.
  intros HI Hcount Hctl Hthread Hrun Hone Hlabels Hbuttons Hslot.
  assert (Hlive : live w' = (live w ++ [c])%list).
  { unfold live. rewrite Hctl. apply live_snoc. }
  split; [|exact Hlive]. constructor.
  - rewrite Hcount, Hctl, length_app, (inv_count w HI). reflexivity.
  - intros i c'. rewrite Hctl. intros Hi.
    apply lookup_app_Some in Hi as [Hi|[Hlen Hi]].
    + now apply (inv_thread w HI).
    + destruct (i - length (umuController w))%nat as [|n] eqn:Hn; [|discriminate].
      injection Hi as <-. rewrite Hthread, (inv_count w HI). lia.
  - rewrite Hlive, Hrun, fmap_app. cbn. now rewrite (inv_running w HI).
  - rewrite Hlive, Hone, filter_app, fmap_app, filter_cons, filter_nil.
    case_bool_decide as Hc.
    + rewrite decide_True by exact Hc. cbn. now rewrite (inv_oneOffs w HI).
    + rewrite decide_False by exact Hc. cbn. rewrite app_nil_r.
      apply (inv_oneOffs w HI).
  - intros z Hz. rewrite Hrun in Hz. apply elem_of_app in Hz as [Hz|Hz].
    + destruct (inv_slots w HI z Hz) as [->|(Hpos & Hl & Hb)]; [now left|].
      right. rewrite Hlabels. auto.
    + apply list_elem_of_singleton in Hz as ->.
      destruct Hslot as [->|(Hpos & Hl & Hb)]; [now left|].
      right. rewrite Hlabels. auto.
Qed.

Lemma started_status (w w' : Window) (c : NeroThreadController) (name : string) :
  Inv w -> Inv w' ->
  live w' = (live w ++ [c])%list ->
  currentlyRunning w' = (currentlyRunning w ++ [ctl_slot c])%list ->
  fs w' = fs w ->
  runName w' c = name ->
  toolTip (sysTray w')
  = (if bool_decide (1 < length (currentlyRunning w ++ [ctl_slot c]))%nat
     then runningCountToolTip (fs w) (length (currentlyRunning w ++ [ctl_slot c]))
     else runningToolTip (fs w) name) ->
  toolTip (sysTray w') = aggregateStatus (NeroFS.currentPrefix (fs w')) (runningNames w').
Proof.
  intros HI HI' Hlive Hrun Hfs Hname ->.
  pose proof (runningNames_length w' HI') as Hlen. rewrite Hrun in Hlen.
  case_bool_decide as Hgroup.
  - rewrite aggregateStatus_count by lia. now rewrite Hlen, Hfs.
  - rewrite length_app in Hgroup. cbn in Hgroup.
    assert (Hidle : currentlyRunning w = []).
    { destruct (currentlyRunning w); [reflexivity | simpl in Hgroup; lia]. }
    unfold runningNames. rewrite Hlive, (Inv_nothing_live w HI Hidle).
    cbn [app fmap list_fmap]. rewrite Hname, aggregateStatus_one. now rewrite Hfs.
Qed.

(** A launch of a shortcut keeps the bookkeeping and sets the tool tip the
    specification describes. *)
Lemma launchShortcut_spec (sender button : PlayButton) (label : string) (w : Window) :
  Inv w ->
  prefixShortcutPlayButton w !! btn_slot sender = Some (Some button) ->
  prefixShortcutLabel w !! btn_slot sender = Some (Some label) ->
  exists w',
    launchShortcut sender w = Some w'
    /\ Inv w'
    /\ (exists c, live w' = (live w ++ [c])%list
                  /\ ctl_slot c = Z.of_nat (btn_slot sender)
                  /\ ctl_parameters c = btn_hash sender
                  /\ runName w' c = label)
    /\ fs w' = fs w
    /\ prefixShortcutLabel w' = prefixShortcutLabel w
    /\ events w' = (events w ++ [Operate (threadsCount w)])%list
    /\ toolTip (sysTray w')
       = aggregateStatus (NeroFS.currentPrefix (fs w')) (runningNames w').
Proof.
  intros HI Hbutton Hlabel.
  unfold launchShortcut. rewrite (at_Some _ _ _ Hbutton), (at_Some _ _ _ Hlabel).
  cbn [mbind option_bind]. eexists. split; [reflexivity|].
  destruct (launched_fields sender button label w)
    as (Hcount & Hctl & Hrun & Hone & Hlabels & Hbuttons & Hfs & _ & Hev & Htip).
  set (w' := launched sender button label w) in *.
  set (c := mkController (Z.of_nat (btn_slot sender)) (btn_hash sender)
              (bool_decide (1 < length (currentlyRunning w ++ [Z.of_nat (btn_slot sender)]))%nat)
              [] (threadsCount w + 1 - 1) EmptyString) in *.
  assert (Hname : runName w' c = label).
  { unfold runName, c. cbn [ctl_slot]. rewrite bool_decide_eq_true_2 by lia.
    now rewrite Hlabels, (atZ_Some _ _ _ Hlabel). }
  destruct (Inv_started w w' c HI Hcount Hctl eq_refl Hrun) as (HI' & Hlive).
  - cbn [ctl_slot c]. rewrite bool_decide_eq_false_2 by lia. exact Hone.
  - exact Hlabels.
  - intros j Hj. rewrite Hbuttons. now apply at_insert_is_Some.
  - right. cbn [ctl_slot c]. rewrite Nat2Z.id. split; [lia|].
    split; [rewrite (at_Some _ _ _ Hlabel); eauto|].
    rewrite Hbuttons. apply at_insert_is_Some. rewrite (at_Some _ _ _ Hbutton). eauto.
  - split; [exact HI'|]. split; [exists c; repeat split; auto|].
    split; [exact Hfs|]. split; [exact Hlabels|].
    split; [rewrite Hev; do 3 f_equal; lia|].
    now apply (started_status w w' c label).
Qed.

Lemma oneTime_spec (oneTimeApp oneTimeRunArgs : string) (w : Window) :
  Inv w -> oneTimeApp <> EmptyString ->
  let w' := on_oneTimeRunBtn_clicked oneTimeApp oneTimeRunArgs w in
  Inv w'
  /\ (exists c, live w' = (live w ++ [c])%list
                /\ ctl_slot c = (-1)%Z
                /\ ctl_parameters c = oneTimeApp
                /\ runName w' c = afterLastSlash oneTimeApp)
  /\ fs w' = fs w
  /\ prefixShortcutLabel w' = prefixShortcutLabel w
  /\ events w' = (events w ++ [Operate (threadsCount w)])%list
  /\ toolTip (sysTray w')
     = aggregateStatus (NeroFS.currentPrefix (fs w')) (runningNames w').
Proof.
  intros HI Happ w'.
  destruct (oneTime_fields oneTimeApp oneTimeRunArgs w Happ)
    as (args & Hcount & Hctl & Hrun & Hone & Hlabels & Hbuttons & Hfs & Hev & Htip).
  fold w' in Hcount, Hctl, Hrun, Hone, Hlabels, Hbuttons, Hfs, Hev, Htip.
  set (c := mkController (-1) oneTimeApp
              (bool_decide (1 < length (currentlyRunning w ++ [(-1)%Z]))%nat) args
              (threadsCount w + 1 - 1) (afterLastSlash oneTimeApp)) in *.
  destruct (Inv_started w w' c HI Hcount Hctl eq_refl Hrun) as (HI' & Hlive).
  - exact Hone.
  - exact Hlabels.
  - intros j Hj. now rewrite Hbuttons.
  - now left.
  - split; [exact HI'|]. split; [exists c; repeat split; auto|].
    split; [exact Hfs|]. split; [exact Hlabels|].
    split; [rewrite Hev; do 3 f_equal; lia|].
    now apply (started_status w w' c (afterLastSlash oneTimeApp)).
Qed.

Lemma runName_ext (w w' : Window) (c : NeroThreadController) :
  prefixShortcutLabel w' = prefixShortcutLabel w -> runName w' c = runName w c.
Proof. intros H. unfold runName. now rewrite H. Qed.

Lemma runningNames_snoc (w w' : Window) (c : NeroThreadController) :
  prefixShortcutLabel w' = prefixShortcutLabel w ->
  live w' = (live w ++ [c])%list ->
  runningNames w' = (runningNames w ++ [runName w' c])%list.
Proof.
  intros Hlabels Hlive. unfold runningNames. rewrite Hlive, fmap_app. cbn.
  f_equal. apply list_fmap_ext. intros _ c0 _. now apply runName_ext.
Qed.

(** ** The aggregate status text *)

(** C3. After every start of a launch (a shortcut or a one-time run) and
    after every run that ends, the tool tip of the tray icon is the
    aggregate status of the runs then live: the neutral text Nero Manager
    when none is left, the text naming the application when exactly one
    runs, and the text with the number of applications when two or more
    run.  A start adds the name of the application started to the names
    of the live runs, an end takes the name of its run away. *)
Theorem C3_aggregate_status (w : Window) :
  Inv w ->
  (forall sender button label,
      Z.of_nat (btn_slot sender) ∉ currentlyRunning w ->
      NeroFS.exists_ (fs w) (launchTarget (fs w) (btn_hash sender)) = true ->
      prefixShortcutPlayButton w !! btn_slot sender = Some (Some button) ->
      prefixShortcutLabel w !! btn_slot sender = Some (Some label) ->
      exists w',
        prefixShortcutPlayButtons_clicked sender w = Some w'
        /\ Inv w'
        /\ runningNames w' = (runningNames w ++ [label])%list
        /\ toolTip (sysTray w')
           = aggregateStatus (NeroFS.currentPrefix (fs w')) (runningNames w'))
  /\ (forall oneTimeApp oneTimeRunArgs,
      oneTimeApp <> EmptyString ->
      let w' := on_oneTimeRunBtn_clicked oneTimeApp oneTimeRunArgs w in
      Inv w'
      /\ runningNames w' = (runningNames w ++ [afterLastSlash oneTimeApp])%list
      /\ toolTip (sysTray w')
         = aggregateStatus (NeroFS.currentPrefix (fs w')) (runningNames w'))
  /\ (forall c result,
      c ∈ live w ->
      exists w',
        handleUmuResults c (ctl_slot c) result w = Some w'
        /\ Inv w'
        /\ Permutation (runName w c :: runningNames w') (runningNames w)
        /\ toolTip (sysTray w')
           = aggregateStatus (NeroFS.currentPrefix (fs w')) (runningNames w')).
Proof.
  intros HI. split; [|split].
  - intros sender button label Hidle Hfile Hbutton Hlabel.
    destruct (launchShortcut_spec sender button label w HI Hbutton Hlabel)
      as (w' & Hlaunch & HI' & (c & Hlive & _ & _ & Hname) & _ & Hlabels & _ & Htip).
    exists w'. split.
    + unfold prefixShortcutPlayButtons_clicked.
      rewrite bool_decide_eq_false_2 by exact Hidle. now rewrite Hfile.
    + split; [exact HI'|]. split; [|exact Htip].
      rewrite (runningNames_snoc w w' c Hlabels Hlive). now rewrite Hname.
  - intros oneTimeApp oneTimeRunArgs Happ w'.
    destruct (oneTime_spec oneTimeApp oneTimeRunArgs w HI Happ)
      as (HI' & (c & Hlive & _ & _ & Hname) & _ & Hlabels & _ & Htip).
    fold w' in HI', Hlive, Hname, Hlabels, Htip.
    split; [exact HI'|]. split; [|exact Htip].
    rewrite (runningNames_snoc w w' c Hlabels Hlive). now rewrite Hname.
  - intros c result Hc.
    destruct (handleUmuResults_step c result w HI Hc)
      as (w' & Hhandle & HI' & Hperm & _ & _ & Hlabels & _ & Htip & _).
    exists w'. split; [exact Hhandle|]. split; [exact HI'|]. split; [|exact Htip].
    unfold runningNames. rewrite <- Hperm. rewrite fmap_cons.
    apply Permutation_cons; [reflexivity|].
    rewrite (list_fmap_ext (runName w') (runName w) (live w'));
      [reflexivity | intros _ c0 _; now apply runName_ext].
Qed.

(** ** Stopping all runs *)

Lemma stopScan_spec (l : list (option NeroThreadController)) (n : nat) :
  (n <= length l)%nat ->
  (exists i c,
      stopScan n l = Some (Some i) /\ (i < n)%nat /\ l !! i = Some (Some c)
      /\ forall j, (i < j < n)%nat -> l !! j = Some None)
  \/ (stopScan n l = Some None /\ forall j, (j < n)%nat -> l !! j = Some None).
Proof.
  induction n as [|n IH]; intros Hn.
  - right. split; [reflexivity|]. intros j Hj. lia.
  - simpl. destruct (lookup_lt_is_Some_2 l n ltac:(lia)) as [[c|] Hc]; rewrite Hc.
    + left. exists n, c. repeat split; auto. intros j Hj. lia.
    + destruct (IH ltac:(lia)) as [(i & c & Hscan & Hi & Hl & Hafter)|(Hscan & Hall)].
      * left. exists i, c. repeat split; auto.
        intros j Hj. destruct (decide (j = n)) as [->|]; [exact Hc|]. apply Hafter. lia.
      * right. split; [exact Hscan|]. intros j Hj.
        destruct (decide (j = n)) as [->|]; [exact Hc|]. apply Hall. lia.
Qed.

Lemma all_null_not_live (l : list (option NeroThreadController)) :
  (forall j, (j < length l)%nat -> l !! j = Some None) -> omap id l = [].
Proof.
  induction l as [|x l IH]; intros Hall; [reflexivity|].
  pose proof (Hall 0%nat ltac:(simpl; lia)) as H0. simpl in H0. injection H0 as ->.
  simpl. apply IH. intros j Hj. apply (Hall (S j)). simpl. lia.
Qed.

(** The results of all live runs, handed over in any order, leave nothing
    running. *)
Lemma deliverResults_all (order : list (NeroThreadController * Z)) (w : Window) :
  Inv w -> Permutation (order.*1) (live w) -> order <> [] ->
  exists w',
    deliverResults order w = Some w'
    /\ currentlyRunning w' = []
    /\ umuController w' = []
    /\ threadsCount w' = 0%nat
    /\ events w' = events w
    /\ toolTip (sysTray w') = "Nero Manager".
Proof.
  revert w. induction order as [|[c code] rest IH]; intros w HI Hperm Hne; [congruence|].
  rewrite fmap_cons in Hperm. cbn [fst] in Hperm.
  assert (Hc : c ∈ live w) by (rewrite <- Hperm; apply list_elem_of_here).
  destruct (handleUmuResults_step c code w HI Hc)
    as (w1 & Hhandle & HI1 & Hperm1 & Hev1 & _ & _ & _ & Htip1 & Hidle1).
  assert (Hrest : Permutation (rest.*1) (live w1)).
  { apply (Permutation_cons_inv (a := c)). now rewrite Hperm, Hperm1. }
  simpl. rewrite Hhandle. cbn [mbind option_bind].
  destruct rest as [|p rest].
  - simpl. exists w1. split; [reflexivity|].
    cbn in Hrest. apply Permutation_nil in Hrest.
    assert (Hrun1 : currentlyRunning w1 = []).
    { pose proof (inv_running w1 HI1) as Hr. rewrite Hrest in Hr.
      now apply Permutation_nil in Hr. }
    destruct (Hidle1 Hrun1) as (Hctl1 & Hcount1).
    repeat split; auto.
    rewrite Htip1. unfold runningNames. now rewrite Hrest.
  - destruct (IH w1 HI1 Hrest ltac:(discriminate))
      as (w' & Hdeliver & Hrun & Hctl & Hcount & Hev & Htip).
    exists w'. repeat split; auto. now rewrite Hev.
Qed.

(** C2. When the back button is used to stop all running applications
    while at least one run is live, Stop is called on exactly one live
    controller, the one of highest index, where the scan from the top of
    the list ends; no other controller is stopped.  With the kill of the
    whole prefix that one Stop stands for, every run ends, and once the
    results of all runs are handed in, in whatever order, nothing runs any
    more and no further Stop was called. *)
Theorem C2_stop_all_stops_one (w : Window) :
  Inv w ->
  currentlyRunning w <> [] ->
  (prefixIsSelected w && runnerPrefixIsDefault w) = false ->
  exists w' thread c,
    on_backButton_clicked w = Some w'
    /\ events w' = (events w ++ [Stop thread])%list
    /\ umuController w !! thread = Some (Some c)
    /\ (forall j, (thread < j < length (umuController w))%nat ->
                  umuController w !! j = Some None)
    /\ umuController w' = umuController w
    /\ currentlyRunning w' = currentlyRunning w
    /\ forall code order,
         stopExits code order w' ->
         exists w'',
           deliverResults order w' = Some w''
           /\ currentlyRunning w'' = []
           /\ live w'' = []
           /\ threadsCount w'' = 0%nat
           /\ events w'' = events w'
           /\ toolTip (sysTray w'') = "Nero Manager".
Proof.
  intros HI Hrun Hview.
  assert (Hlive : live w <> []).
  { intros Hnone. pose proof (inv_running w HI) as Hp. rewrite Hnone in Hp.
    cbn in Hp. now apply Permutation_nil in Hp. }
  destruct (stopScan_spec (umuController w) (threadsCount w))
    as [(i & c & Hscan & Hi & Hc & Hafter)|(Hscan & Hall)].
  - rewrite (inv_count w HI). lia.
  - set (w0 := openRunnerWindow false "all running apps in current prefix" w).
    assert (Hsame : umuController w0 = umuController w
                    /\ currentlyRunning w0 = currentlyRunning w
                    /\ threadsCount w0 = threadsCount w
                    /\ oneOffsRunning w0 = oneOffsRunning w
                    /\ prefixShortcutLabel w0 = prefixShortcutLabel w
                    /\ prefixShortcutPlayButton w0 = prefixShortcutPlayButton w
                    /\ events w0 = events w).
    { unfold w0. repeat split. }
    destruct Hsame as (Hctl0 & Hrun0 & Hcount0 & Hone0 & Hlabels0 & Hbuttons0 & Hev0).
    exists (set_events (events w0 ++ [Stop i]) w0), i, c.
    split.
    { unfold on_backButton_clicked.
      rewrite bool_decide_eq_true_2 by (destruct (currentlyRunning w); simpl; [congruence|lia]).
      rewrite Hview. cbn [negb].
      change (stopAll w)
        with (stopScan (threadsCount w) (umuController w)
              ≫= (fun found =>
                    Some (match found with
                          | Some thread => set_events (events w0 ++ [Stop thread]) w0
                          | None => w0
                          end))).
      rewrite Hscan. reflexivity. }
    cbn [events umuController currentlyRunning set_events].
    split; [now rewrite Hev0|]. split; [exact Hc|].
    split; [intros j Hj; apply Hafter; rewrite (inv_count w HI); lia|].
    split; [exact Hctl0|]. split; [exact Hrun0|].
    intros code order Hexits.
    assert (HI' : Inv (set_events (events w0 ++ [Stop i]) w0)).
    { apply (Inv_ext w); auto. }
    assert (Hlive' : live (set_events (events w0 ++ [Stop i]) w0) = live w).
    { reflexivity. }
    unfold stopExits in Hexits. rewrite Hlive' in Hexits.
    destruct (deliverResults_all order _ HI') as (w'' & Hd & Hr & Hc'' & Ht & He & Htip).
    + rewrite Hlive', Hexits, <- list_fmap_compose.
      rewrite (list_fmap_ext (fst ∘ (fun c0 => (c0, code c0))) id (live w));
        [now rewrite list_fmap_id | reflexivity].
    + intros ->. apply Permutation_nil in Hexits.
      apply fmap_nil_inv in Hexits. contradiction.
    + exists w''. repeat split; auto. unfold live. now rewrite Hc''.
  - exfalso. apply Hlive. apply all_null_not_live.
    intros j Hj. apply Hall. rewrite (inv_count w HI). exact Hj.
Qed.
Lemma Example_window_Inv : Inv Example.window.
Proof. apply Inv_idle; reflexivity. Qed.

Lemma ExampleRuns_oneRunning_Inv : Inv ExampleRuns.oneRunning.
Proof.
  destruct (launchShortcut_spec Example.notepadButton Example.notepadButton "Notepad"
              Example.window Example_window_Inv eq_refl eq_refl)
    as (w' & Hlaunch & HI & _).
  vm_compute in Hlaunch. injection Hlaunch as <-.
  exact HI.
Qed.

Lemma ExampleRuns_twoRunning_Inv : Inv ExampleRuns.twoRunning.
Proof.
  apply (oneTime_spec "/tmp/setup.exe" EmptyString ExampleRuns.oneRunning
           ExampleRuns_oneRunning_Inv).
  discriminate.
Qed.

Lemma C3_aggregate_status_witness :
  exists w1 w3,
    prefixShortcutPlayButtons_clicked Example.notepadButton Example.window = Some w1
    /\ toolTip (sysTray w1) = "Nero Manager (Games is running Notepad)"
    /\ toolTip (sysTray (on_oneTimeRunBtn_clicked "/tmp/setup.exe" EmptyString w1))
       = "Nero Manager (Games is running 2 apps)"
    /\ handleUmuResults ExampleRuns.notepad 0 0
         (on_oneTimeRunBtn_clicked "/tmp/setup.exe" EmptyString w1) = Some w3
    /\ toolTip (sysTray w3) = "Nero Manager (Games is running setup.exe)".
Proof.
  destruct (C3_aggregate_status Example.window Example_window_Inv) as (Hstart & _ & _).
  destruct (Hstart Example.notepadButton Example.notepadButton "Notepad")
    as (w1 & Hclick & HI1 & Hnames1 & Htip1).
  { vm_compute. intros H. inversion H. }
  { vm_compute. reflexivity. }
  { reflexivity. }
  { reflexivity. }
  assert (Hw1 : w1 = ExampleRuns.oneRunning).
  { assert (H : prefixShortcutPlayButtons_clicked Example.notepadButton Example.window
                = Some ExampleRuns.oneRunning) by (vm_compute; reflexivity).
    rewrite H in Hclick. now injection Hclick. }
  subst w1.
  destruct (C3_aggregate_status ExampleRuns.oneRunning HI1) as (_ & Honce & _).
  destruct (Honce "/tmp/setup.exe" EmptyString ltac:(discriminate))
    as (HI2 & Hnames2 & Htip2).
  destruct (C3_aggregate_status ExampleRuns.twoRunning HI2) as (_ & _ & Hexit).
  destruct (Hexit ExampleRuns.notepad 0%Z) as (w3 & Hhandle & HI3 & Hnames3 & Htip3).
  { assert (H : live ExampleRuns.twoRunning = [ExampleRuns.notepad; ExampleRuns.setup])
      by (vm_compute; reflexivity).
    rewrite H. apply list_elem_of_here. }
  exists ExampleRuns.oneRunning, w3.
  split; [exact Hclick|]. split; [rewrite Htip1, Hnames1; reflexivity|].
  split; [rewrite Htip2, Hnames2, Hnames1; reflexivity|].
  split; [exact Hhandle|].
  assert (Hw3 : exists w, handleUmuResults ExampleRuns.notepad 0 0 ExampleRuns.twoRunning
                          = Some w
                          /\ toolTip (sysTray w) = "Nero Manager (Games is running setup.exe)").
  { eexists. split; [vm_compute; reflexivity | reflexivity]. }
  destruct Hw3 as (w & Hw & Htip). change (ctl_slot ExampleRuns.notepad) with 0%Z in Hhandle.
  rewrite Hhandle in Hw. injection Hw as <-. exact Htip.
Defined.

Lemma C2_stop_all_stops_one_witness :
  exists w' w'',
    on_backButton_clicked ExampleRuns.twoRunning = Some w'
    /\ events w' = [Operate 0; Operate 1; Stop 1]
    /\ deliverResults [(ExampleRuns.setup, 0%Z); (ExampleRuns.notepad, 0%Z)] w' = Some w''
    /\ currentlyRunning w'' = []
    /\ live w'' = []
    /\ events w'' = events w'.
Proof.
  destruct (C2_stop_all_stops_one ExampleRuns.twoRunning ExampleRuns_twoRunning_Inv)
    as (w' & thread & c & Hback & Hev & Hc & Hafter & Hctl & Hrun & Hstop).
  { discriminate. }
  { reflexivity. }
  assert (Hthread : thread = 1%nat).
  { destruct thread as [|[|thread]].
    - specialize (Hafter 1%nat ltac:(vm_compute; lia)). vm_compute in Hafter.
      discriminate.
    - reflexivity.
    - vm_compute in Hc. discriminate. }
  subst thread.
  destruct (Hstop (fun _ => 0%Z)
              [(ExampleRuns.setup, 0%Z); (ExampleRuns.notepad, 0%Z)])
    as (w'' & Hdeliver & Hrun'' & Hlive'' & _ & Hev'' & _).
  { unfold stopExits, live. rewrite Hctl. apply perm_swap. }
  exists w', w''. split; [exact Hback|]. split; [rewrite Hev; reflexivity|].
  split; [exact Hdeliver|]. split; [exact Hrun''|]. split; [exact Hlive'' | exact Hev''].
Defined.

(** ** The split of the one-time arguments *)

Lemma append_nil_r (a : string) : a +:+ EmptyString = a.
Proof.
  induction a as [|x a IH]; [reflexivity|].
  change (String x (a +:+ EmptyString) = String x a). now rewrite IH.
Qed.

Lemma append_cons (x : ascii) (a b : string) : String x a +:+ b = String x (a +:+ b).
Proof. reflexivity. Qed.

Lemma append_snoc (a b : string) (x : ascii) :
  (a +:+ String x EmptyString) +:+ b = a +:+ String x b.
Proof. now rewrite append_assoc. Qed.

Lemma splitArgs_loop_word (u rest : string) (acc : list string) (last : string) :
  noBlankNoQuote u = true ->
  splitArgs_loop (u +:+ rest) acc last false
  = splitArgs_loop rest acc (last +:+ u) false.
Proof.
  revert last. induction u as [|c u IH]; intros last Hu.
  - now rewrite append_nil_r.
  - cbn [noBlankNoQuote] in Hu. apply andb_prop in Hu as [Hc Hu].
    rewrite append_cons. cbn [splitArgs_loop negb]. rewrite Hc.
    rewrite IH by exact Hu. now rewrite append_snoc.
Qed.

Lemma splitArgs_loop_quoted (v rest : string) (acc : list string) (last : string) :
  noQuote v = true ->
  splitArgs_loop (v +:+ rest) acc last true
  = splitArgs_loop rest acc (last +:+ v) true.
Proof.
  revert last. induction v as [|c v IH]; intros last Hv.
  - now rewrite append_nil_r.
  - cbn [noQuote] in Hv. apply andb_prop in Hv as [Hc Hv].
    rewrite append_cons. cbn [splitArgs_loop negb]. rewrite Hc.
    rewrite IH by exact Hv. now rewrite append_snoc.
Qed.

Lemma isWord_inv (a : string) :
  isWord a = true -> a <> EmptyString /\ noBlankNoQuote a = true.
Proof.
  unfold isWord. intros H. apply andb_prop in H as [H1 H2]. split; [|exact H2].
  intros ->. discriminate.
Qed.

Lemma splitArgs_loop_words (args : list string) (acc : list string) :
  Forall (fun a => isWord a = true) args -> args <> [] ->
  exists d l,
    splitArgs_loop (Qt.join args " ") acc EmptyString false = (d, l)
    /\ l <> EmptyString /\ (d ++ [l] = acc ++ args)%list.
Proof.
  intros Hall. revert acc.
  induction Hall as [|a args Ha Hall IH]; intros acc Hne; [done|].
  apply isWord_inv in Ha as [Hne_a Ha].
  destruct args as [|b args].
  - exists acc, a. split; [|done].
    change (Qt.join [a] " ") with a.
    rewrite <- (append_nil_r a) at 1.
    now rewrite splitArgs_loop_word.
  - change (Qt.join (a :: b :: args) " ") with (a +:+ " " +:+ Qt.join (b :: args) " ").
    rewrite splitArgs_loop_word by exact Ha.
    change (EmptyString +:+ a) with a.
    rewrite append_cons. cbn [splitArgs_loop negb Ascii.eqb Bool.eqb andb].
    apply String.eqb_neq in Hne_a. rewrite Hne_a. cbn [negb].
    change (EmptyString +:+ Qt.join (b :: args) " ") with (Qt.join (b :: args) " ").
    destruct (IH (acc ++ [a])%list) as (d & l & Hloop & Hl & Hd); [done|].
    exists d, l. split; [exact Hloop|]. split; [exact Hl|].
    rewrite Hd. now rewrite <- app_assoc.
Qed.

(** X1. The split of the arguments undoes the joining of words with
    single blanks: for arguments none of which is empty or holds a blank or
    a double quote, splitting the text in which they follow each other,
    one blank between two, gives the arguments back. *)
Theorem X1_splitArgs_join_words (args : list string) :
  Forall (fun a => isWord a = true) args ->
  splitArgs (Qt.join args " ") = args.
Proof.
  intros Hall. destruct args as [|a args]; [reflexivity|].
  destruct (splitArgs_loop_words (a :: args) [] Hall) as (d & l & Hloop & Hl & Hd); [done|].
  unfold splitArgs. rewrite Hloop.
  apply String.eqb_neq in Hl. rewrite Hl. exact Hd.
Qed.

Lemma X1_splitArgs_join_words_witness :
  splitArgs "-windowed --mode=fast 3" = ["-windowed"; "--mode=fast"; "3"].
Proof.
  apply (X1_splitArgs_join_words ["-windowed"; "--mode=fast"; "3"]).
  repeat constructor.
Defined.

Lemma splitArgs_loop_quoted_args (args : list string) (acc : list string) :
  Forall (fun a => noQuote a = true) args ->
  splitArgs_loop (Qt.join (quoted <$> args) " ") acc EmptyString false
  = ((acc ++ args)%list, EmptyString).
Proof.
  intros Hall. revert acc.
  induction Hall as [|a args Ha Hall IH]; intros acc.
  - now rewrite app_nil_r.
  - assert (Hstep : forall rest,
               splitArgs_loop (quoted a +:+ rest) acc EmptyString false
               = splitArgs_loop rest (acc ++ [a])%list EmptyString false).
    { intros rest. unfold quoted, Qt.dq.
      rewrite !append_cons. change (EmptyString +:+ ?x) with x.
      cbn [splitArgs_loop negb Ascii.eqb Bool.eqb andb String.eqb].
      rewrite append_assoc, splitArgs_loop_quoted by exact Ha.
      rewrite append_cons. cbn [splitArgs_loop negb Ascii.eqb Bool.eqb andb].
      reflexivity. }
    destruct args as [|b args].
    + change (Qt.join (quoted <$> [a]) " ") with (quoted a).
      rewrite <- (append_nil_r (quoted a)), Hstep. reflexivity.
    + change (Qt.join (quoted <$> a :: b :: args) " ")
        with (quoted a +:+ " " +:+ Qt.join (quoted <$> b :: args) " ").
      rewrite Hstep, append_cons.
      cbn [splitArgs_loop negb Ascii.eqb Bool.eqb andb String.eqb].
      change (EmptyString +:+ ?x) with x.
      rewrite IH. now rewrite <- app_assoc.
Qed.

(** X2. Quoting protects blanks and keeps empty arguments: for
    arguments without a double quote, each put between double quotes and
    joined with single blanks, the split gives the arguments back, the
    empty ones included. *)
Theorem X2_splitArgs_join_quoted (args : list string) :
  Forall (fun a => noQuote a = true) args ->
  splitArgs (Qt.join (quoted <$> args) " ") = args.
Proof.
  intros Hall. unfold splitArgs.
  rewrite (splitArgs_loop_quoted_args args [] Hall). reflexivity.
Qed.

Lemma X2_splitArgs_join_quoted_witness :
  splitArgs (quoted "My Game.sav" +:+ " " +:+ quoted EmptyString +:+ " " +:+ quoted "-x")
  = ["My Game.sav"; EmptyString; "-x"].
Proof.
  apply (X2_splitArgs_join_quoted ["My Game.sav"; EmptyString; "-x"]).
  repeat constructor.
Defined.


Lemma noQuote_app (a b : string) :
  noQuote (a +:+ b) = noQuote a && noQuote b.
Proof.
  induction a as [|c a IH]; [reflexivity|].
  rewrite append_cons. cbn [noQuote]. rewrite IH. now rewrite andb_assoc.
Qed.

Lemma splitArgs_loop_noQuote (buf : string) (acc : list string) (last : string)
    (quotation : bool) :
  Forall (fun a => noQuote a = true) acc -> noQuote last = true ->
  Forall (fun a => noQuote a = true) (splitArgs_loop buf acc last quotation).1
  /\ noQuote (splitArgs_loop buf acc last quotation).2 = true.
Proof.
  revert acc last quotation.
  induction buf as [|c buf IH]; intros acc last quotation Hacc Hlast; [done|].
  assert (Hsnoc : Forall (fun a => noQuote a = true) (acc ++ [last])).
  { apply Forall_app. split; [exact Hacc|]. by constructor. }
  cbn [splitArgs_loop]. destruct quotation; cbn [negb].
  - destruct (Ascii.eqb c "034") eqn:Hq; cbn [negb].
    + by apply IH.
    + apply IH; [exact Hacc|]. rewrite noQuote_app, Hlast. cbn [noQuote]. now rewrite Hq.
  - destruct (Ascii.eqb c " ") eqn:Hb; cbn [negb andb].
    + destruct (String.eqb last EmptyString); cbn [negb]; by apply IH.
    + destruct (Ascii.eqb c "034") eqn:Hq; cbn [negb].
      * destruct (String.eqb last EmptyString); cbn [negb]; by apply IH.
      * apply IH; [exact Hacc|]. rewrite noQuote_app, Hlast. cbn [noQuote]. now rewrite Hq.
Qed.

(** X3. No argument the split yields holds a double quote, whatever
    the text: a double quote only ever opens or closes a quotation. *)
Theorem X3_splitArgs_never_quote (buf : string) :
  Forall (fun a => noQuote a = true) (splitArgs buf).
Proof.
  unfold splitArgs.
  pose proof (splitArgs_loop_noQuote buf [] EmptyString false
                (Forall_nil_2 _) eq_refl) as [Hacc Hlast].
  destruct (splitArgs_loop buf [] EmptyString false) as [acc last].
  cbn [fst snd] in Hacc, Hlast.
  destruct (String.eqb last EmptyString); [exact Hacc|].
  apply Forall_app. split; [exact Hacc|]. by constructor.
Qed.

(** X4. A double quote ends the argument before it: a word directly
    followed by a quoted text gives two arguments, not one.  A quotation
    that is never closed runs to the end of the text, and gives no
    argument when nothing follows the quote. *)
Theorem X4_splitArgs_quote_boundaries (u v : string) :
  isWord u = true -> noQuote v = true ->
  splitArgs (u +:+ quoted v) = [u; v]
  /\ splitArgs (Qt.dq +:+ v) = (if String.eqb v EmptyString then [] else [v]).
Proof.
  intros Hu Hv. apply isWord_inv in Hu as [Hne Hu]. split.
  - unfold splitArgs. rewrite splitArgs_loop_word by exact Hu.
    change (EmptyString +:+ u) with u.
    unfold quoted, Qt.dq. rewrite append_cons.
    cbn [splitArgs_loop negb Ascii.eqb Bool.eqb andb].
    apply String.eqb_neq in Hne. rewrite Hne. cbn [negb].
    change (EmptyString +:+ ?x) with x.
    rewrite splitArgs_loop_quoted by exact Hv.
    cbn [splitArgs_loop negb Ascii.eqb Bool.eqb andb]. reflexivity.
  - unfold splitArgs, Qt.dq. rewrite append_cons.
    cbn [splitArgs_loop negb Ascii.eqb Bool.eqb andb String.eqb].
    change (EmptyString +:+ ?x) with x.
    rewrite <- (append_nil_r v) at 1.
    rewrite splitArgs_loop_quoted by exact Hv.
    change (EmptyString +:+ v) with v. cbn [splitArgs_loop].
    destruct (String.eqb v EmptyString); reflexivity.
Qed.

Lemma X4_splitArgs_quote_boundaries_witness :
  splitArgs ("--name=" +:+ quoted "Jane Doe") = ["--name="; "Jane Doe"]
  /\ splitArgs (Qt.dq +:+ "Jane Doe") = ["Jane Doe"].
Proof.
  apply (X4_splitArgs_quote_boundaries "--name=" "Jane Doe"); reflexivity.
Defined.

(** ** The fix of [system.reg] *)

Lemma concat_empty_cons (x : string) (l : list string) :
  String.concat EmptyString (x :: l) = x +:+ String.concat EmptyString l.
Proof.
  destruct l as [|y l]; [|reflexivity].
  cbn [String.concat]. now rewrite append_nil_r.
Qed.

Lemma concat_readLines_from (s cur : string) :
  String.concat EmptyString (Qt.readLines_from cur s) = cur +:+ s.
Proof.
  revert cur. induction s as [|c s IH]; intros cur; cbn [Qt.readLines_from].
  - destruct (String.eqb cur EmptyString) eqn:Hcur.
    + apply String.eqb_eq in Hcur as ->. reflexivity.
    + cbn [String.concat]. now rewrite append_nil_r.
  - destruct (Ascii.eqb c "010") eqn:Hc.
    + apply Ascii.eqb_eq in Hc as ->.
      rewrite concat_empty_cons, IH. unfold Qt.nl.
      change (EmptyString +:+ s) with s. now rewrite append_snoc.
    + rewrite IH. now rewrite append_snoc.
Qed.

Lemma fixSystemReg_app (l1 l2 : list string) :
  fixSystemReg (l1 ++ l2) = fixSystemReg l1 +:+ fixSystemReg l2.
Proof.
  induction l1 as [|line l1 IH]; [reflexivity|].
  cbn [app fixSystemReg]. rewrite IH. now rewrite !append_assoc.
Qed.

Lemma fixSystemReg_plain (lines : list string) :
  (forall line, line ∈ lines -> Qt.startsWith line portsSection = false) ->
  fixSystemReg lines = String.concat EmptyString lines.
Proof.
  induction lines as [|line lines IH]; intros Hplain; [reflexivity|].
  cbn [fixSystemReg]. rewrite concat_empty_cons.
  change "[Software\\Wine\\Ports]" with portsSection.
  rewrite (Hplain line) by apply list_elem_of_here.
  change (EmptyString +:+ ?x) with x.
  rewrite IH; [reflexivity|]. intros l Hl. apply Hplain. by apply list_elem_of_further.
Qed.

(** X5. Of the files the child process leaves, [CreatePrefix] writes
    to [system.reg] of the new prefix alone, and only when the file opens;
    what it writes is the text read, which is the text the file had when
    no line of it starts with the header of the ports section. *)
Theorem X5_CreatePrefix_touches_system_reg_only (run : ProcessRun)
    (newPrefix runner : string) (tricksToInstall : list string) (w : Window) :
  let after := NeroFS.files (fs (CreatePrefix run newPrefix runner tricksToInstall w)) in
  let marker := systemReg (fs w) newPrefix in
  (forall path, path <> marker -> after !! path = filesAfter run !! path)
  /\ (regFileOpens run = false -> after = filesAfter run)
  /\ (forall reg, filesAfter run !! marker = Some reg -> regFileOpens run = true ->
      after !! marker = Some (fixSystemReg (Qt.readLines reg)))
  /\ (forall reg, filesAfter run !! marker = Some reg ->
      (forall line, line ∈ Qt.readLines reg -> Qt.startsWith line portsSection = false) ->
      after = filesAfter run).
Proof.
  cbn zeta. unfold CreatePrefix. cbn.
  change (systemReg _ newPrefix) with (systemReg (fs w) newPrefix).
  set (marker := systemReg (fs w) newPrefix).
  destruct (filesAfter run !! marker) as [reg|] eqn:Hreg; cbn.
  - destruct (regFileOpens run) eqn:Hopen; cbn.
    + change (systemReg _ newPrefix) with marker.
      repeat split.
      * intros path Hpath. by rewrite lookup_insert_ne.
      * discriminate.
      * intros reg' [= <-] _. by rewrite lookup_insert_eq.
      * intros reg' [= <-] Hplain.
        rewrite (fixSystemReg_plain _ Hplain).
        unfold Qt.readLines. rewrite concat_readLines_from.
        change (EmptyString +:+ reg) with reg. by apply insert_id.
    + repeat split; done.
  - repeat split; done.
Qed.


Lemma readLines_from_app (a b cur : string) :
  endsWithNewline a = true ->
  Qt.readLines_from cur (a +:+ b)
  = (Qt.readLines_from cur a ++ Qt.readLines_from EmptyString b)%list.
Proof.
  revert cur. induction a as [|c a IH]; intros cur Ha; [discriminate|].
  rewrite append_cons. cbn [Qt.readLines_from].
  destruct a as [|c' a].
  - cbn [endsWithNewline] in Ha. rewrite Ha. reflexivity.
  - assert (Ha' : endsWithNewline (String c' a) = true) by exact Ha.
    destruct (Ascii.eqb c "010"); rewrite (IH _ Ha'); reflexivity.
Qed.

Lemma readLines_from_line (u b cur : string) :
  noNewline u = true ->
  Qt.readLines_from cur (u +:+ Qt.nl +:+ b)
  = (cur +:+ u +:+ Qt.nl) :: Qt.readLines_from EmptyString b.
Proof.
  revert cur. induction u as [|c u IH]; intros cur Hu.
  - reflexivity.
  - cbn [noNewline] in Hu. apply andb_prop in Hu as [Hc Hu].
    rewrite append_cons. cbn [Qt.readLines_from].
    apply negb_true_iff in Hc. rewrite Hc, (IH _ Hu). now rewrite append_snoc.
Qed.

Lemma noNewline_app (a b : string) :
  noNewline (a +:+ b) = noNewline a && noNewline b.
Proof.
  induction a as [|c a IH]; [reflexivity|].
  rewrite append_cons. cbn [noNewline]. rewrite IH. now rewrite andb_assoc.
Qed.

Lemma prefix_append (p x : string) : String.prefix p (p +:+ x) = true.
Proof.
  induction p as [|c p IH]; [by destruct x|].
  rewrite append_cons. cbn [String.prefix].
  destruct (ascii_dec c c); [exact IH|done].
Qed.

(** X6. The fix puts the five COM entries directly below the header
    line of the ports section and changes nothing else: for a registry
    file made of the text before the section (empty or ending a line), the
    header line and the text after it, where no other line starts with the
    header, the file written is the same text with the entries after the
    header line. *)
Theorem X6_fixSystemReg_one_section (before rest after : string) :
  before = EmptyString \/ endsWithNewline before = true ->
  noNewline rest = true ->
  (forall line, line ∈ Qt.readLines before -> Qt.startsWith line portsSection = false) ->
  (forall line, line ∈ Qt.readLines after -> Qt.startsWith line portsSection = false) ->
  let header := portsSection +:+ rest +:+ Qt.nl in
  fixSystemReg (Qt.readLines (before +:+ header +:+ after))
  = before +:+ header +:+ comPorts +:+ after.
Proof.
  intros Hbefore Hrest Hplain1 Hplain2 header.
  assert (Hlines : Qt.readLines (before +:+ header +:+ after)
                   = (Qt.readLines before ++ header :: Qt.readLines after)%list).
  { assert (Hheader : Qt.readLines (header +:+ after) = header :: Qt.readLines after).
    { unfold Qt.readLines, header. rewrite !append_assoc.
      rewrite <- append_assoc.
      rewrite readLines_from_line; [reflexivity|].
      rewrite noNewline_app, Hrest. reflexivity. }
    destruct Hbefore as [->|Hbefore]; [exact Hheader|].
    unfold Qt.readLines. rewrite readLines_from_app by exact Hbefore.
    f_equal. exact Hheader. }
  rewrite Hlines, fixSystemReg_app. cbn [fixSystemReg].
  rewrite !fixSystemReg_plain by assumption.
  unfold Qt.readLines. rewrite !concat_readLines_from.
  change (EmptyString +:+ ?x) with x.
  change "[Software\\Wine\\Ports]" with portsSection.
  unfold Qt.startsWith, header. rewrite prefix_append.
  now rewrite !append_assoc.
Qed.

Lemma X6_fixSystemReg_one_section_witness :
  fixSystemReg
    (Qt.readLines
       (("WINE REGISTRY Version 2" +:+ Qt.nl)
        +:+ (portsSection +:+ " 1700000000" +:+ Qt.nl)
        +:+ ("#time=1db" +:+ Qt.nl)))
  = ("WINE REGISTRY Version 2" +:+ Qt.nl)
    +:+ (portsSection +:+ " 1700000000" +:+ Qt.nl)
    +:+ comPorts +:+ ("#time=1db" +:+ Qt.nl).
Proof.
  apply (X6_fixSystemReg_one_section
           ("WINE REGISTRY Version 2" +:+ Qt.nl) " 1700000000" ("#time=1db" +:+ Qt.nl)).
  - right. reflexivity.
  - reflexivity.
  - intros line Hline. vm_compute in Hline.
    apply list_elem_of_singleton in Hline as ->. reflexivity.
  - intros line Hline. vm_compute in Hline.
    apply list_elem_of_singleton in Hline as ->. reflexivity.
Defined.

(** ** The components winetricks has logged *)

Lemma removeDuplicates_from_spec (l seen : list string) :
  NoDup (Qt.removeDuplicates_from seen l)
  /\ forall x, x ∈ Qt.removeDuplicates_from seen l <-> x ∈ l /\ x ∉ seen.
Proof.
  revert seen. induction l as [|y l IH]; intros seen; cbn [Qt.removeDuplicates_from].
  - split; [constructor|]. intros x. rewrite elem_of_nil. tauto.
  - case_bool_decide as Hy.
    + destruct (IH seen) as [Hnd Hin]. split; [exact Hnd|].
      intros x. rewrite Hin, elem_of_cons.
      split; [tauto|]. intros [[->|Hx] Hseen]; [done|tauto].
    + destruct (IH (y :: seen)) as [Hnd Hin]. split.
      * constructor; [|exact Hnd]. rewrite Hin, elem_of_cons. tauto.
      * intros x. rewrite !elem_of_cons, Hin, elem_of_cons.
        destruct (decide (x = y)) as [->|Hxy]; tauto.
Qed.

(** X7. The components handed to the tricks dialog as installed are
    the lines of [winetricks.log] of the prefix, each with the blanks at
    its ends removed, and each component is handed over once, however
    often the log names it; without a log, or with a log that cannot be
    opened, there is none. *)
Theorem X7_winetricksLogVerbs_once (logOpens : bool) (s : NeroFS.t) (prefix : string) :
  let log := NeroFS.files s !! (NeroFS.prefixesPath s +:+ "/" +:+ prefix +:+ "/winetricks.log") in
  NoDup (winetricksLogVerbs logOpens s prefix)
  /\ (forall verb, verb ∈ winetricksLogVerbs logOpens s prefix <->
        logOpens = true
        /\ exists text line, log = Some text /\ line ∈ Qt.readLines text
                             /\ verb = Qt.trimmed line)
  /\ (log = None \/ logOpens = false -> winetricksLogVerbs logOpens s prefix = []).
Proof.
  cbn zeta. unfold winetricksLogVerbs.
  destruct (NeroFS.files s !! _) as [text|]; [destruct logOpens|].
  - destruct (removeDuplicates_from_spec (Qt.trimmed <$> Qt.readLines text) []) as [Hnd Hin].
    split; [exact Hnd|]. split; [|by intros [?|?]].
    intros verb. unfold Qt.removeDuplicates. rewrite Hin, list_elem_of_fmap. split.
    + intros [(line & -> & Hline) _]. split; [done|]. by exists text, line.
    + intros (_ & text' & line & [= <-] & Hline & ->).
      split; [by exists line|apply not_elem_of_nil].
  - split; [constructor|]. split; [|done].
    intros verb. rewrite elem_of_nil. split; [done|]. by intros [? _].
  - split; [constructor|]. split; [|done].
    intros verb. rewrite elem_of_nil. split; [done|]. by intros (_ & ? & ? & ? & _).
Qed.

(** ** Paths *)

Lemma replace_fuel_absent (fuel : nat) (s before after : string) :
  Qt.contains s before = false -> Qt.replace_fuel fuel s before after = s.
Proof.
  revert s. induction fuel as [|fuel IH]; intros s Habsent; [reflexivity|].
  destruct s as [|c s]; [reflexivity|].
  cbn [Qt.replace_fuel]. cbn [Qt.contains] in Habsent.
  apply orb_false_iff in Habsent as [Hhere Hlater].
  rewrite Hhere. by rewrite IH.
Qed.

Lemma replace_fuel_here (fuel : nat) (c : ascii) (s before after : string) :
  String.prefix before (String c s) = true ->
  Qt.replace_fuel (S fuel) (String c s) before after
  = after +:+ Qt.replace_fuel fuel (Qt.drop_chars (String.length before) (String c s))
                before after.
Proof. intros Hhere. cbn [Qt.replace_fuel]. by rewrite Hhere. Qed.

Lemma prefix_drop_chars (p s : string) :
  String.prefix p s = true -> s = p +:+ Qt.drop_chars (String.length p) s.
Proof.
  revert s. induction p as [|c p IH]; intros s Hp; [reflexivity|].
  destruct s as [|c' s]; [discriminate|].
  cbn [String.prefix] in Hp. destruct (ascii_dec c c') as [<-|]; [|discriminate].
  cbn [String.length Qt.drop_chars]. rewrite append_cons. f_equal. by apply IH.
Qed.

(** X8. The path whose existence a launch tests is the path of the
    shortcut itself when C:/ does not occur in it, and for a path that
    starts with C:/ and holds no other C:/ it is the rest of the path below
    the drive_c directory of the current prefix: on such paths the
    replacement is the mapping of a leading drive letter. *)
Theorem X8_launchTarget_leading_drive (s : NeroFS.t) (hash : string) :
  let path := Qt.toString (GetShortcutSettings s hash !! "Path") in
  let drive_c :=
    NeroFS.prefixesCanonicalPath s +:+ "/" +:+ NeroFS.currentPrefix s +:+ "/drive_c/" in
  (Qt.contains path "C:/" = false -> launchTarget s hash = path)
  /\ (forall rest,
      path = "C:/" +:+ rest -> Qt.contains rest "C:/" = false ->
      launchTarget s hash = drive_c +:+ rest)
  /\ (Qt.contains (if String.prefix "C:/" path then Qt.drop_chars 3 path else path) "C:/"
      = false ->
      launchTarget s hash = mapLeadingDrive s path).
Proof.
  cbn zeta. unfold launchTarget.
  set (path := Qt.toString (GetShortcutSettings s hash !! "Path")).
  set (drive_c := NeroFS.prefixesCanonicalPath s +:+ "/" +:+ NeroFS.currentPrefix s
                  +:+ "/drive_c/").
  assert (Hleading : forall rest,
             Qt.contains rest "C:/" = false ->
             Qt.replace ("C:/" +:+ rest) "C:/" drive_c = drive_c +:+ rest).
  { intros rest Hrest. unfold Qt.replace.
    change (String.length ("C:/" +:+ rest)) with (S (S (S (String.length rest)))).
    change ("C:/" +:+ rest) with (String "C" (String ":" (String "/" rest))).
    rewrite replace_fuel_here.
    - change (Qt.drop_chars (String.length "C:/") (String "C" (String ":" (String "/" rest))))
        with rest.
      by rewrite replace_fuel_absent.
    - change (String.prefix "C:/" (String "C" (String ":" (String "/" rest))))
        with (String.prefix EmptyString rest).
      by destruct rest. }
  split; [|split].
  - intros Habsent. unfold Qt.replace. by apply replace_fuel_absent.
  - intros rest -> Hrest. by apply Hleading.
  - unfold mapLeadingDrive. fold drive_c.
    destruct (String.prefix "C:/" path) eqn:Hprefix; intros Hrest.
    + assert (Hpath : path = "C:/" +:+ Qt.drop_chars 3 path)
        by (by apply (prefix_drop_chars "C:/")).
      rewrite Hpath at 1. by apply Hleading.
    + unfold Qt.replace. by apply replace_fuel_absent.
Qed.

Lemma X8_launchTarget_leading_drive_witness :
  launchTarget Example.store "0a1b" = "/home/nero/prefixes/Games/drive_c/windows/notepad.exe".
Proof.
  apply (X8_launchTarget_leading_drive Example.store "0a1b"). reflexivity.
Defined.

Lemma contains_slash_app (a b : string) : Qt.contains (a +:+ "/" +:+ b) "/" = true.
Proof.
  induction a as [|c a IH].
  - change (EmptyString +:+ "/" +:+ b) with (String "/" b).
    cbn [Qt.contains String.prefix]. destruct (ascii_dec "/" "/"); [|done]. by destruct b.
  - rewrite append_cons. cbn [Qt.contains]. rewrite IH. apply orb_true_r.
Qed.

Lemma afterLastSlash_app (dir name : string) :
  Qt.contains name "/" = false -> afterLastSlash (dir +:+ "/" +:+ name) = name.
Proof.
  intros Hname. induction dir as [|c dir IH].
  - change (EmptyString +:+ "/" +:+ name) with (String "/" name).
    cbn [afterLastSlash]. rewrite Hname. reflexivity.
  - rewrite append_cons. cbn [afterLastSlash]. by rewrite contains_slash_app.
Qed.

Lemma afterLastSlash_none (path : string) :
  Qt.contains path "/" = false -> afterLastSlash path = path.
Proof.
  destruct path as [|c path]; [reflexivity|]. intros Hnone.
  cbn [Qt.contains] in Hnone. apply orb_false_iff in Hnone as [Hhere Hlater].
  cbn [afterLastSlash]. rewrite Hlater.
  destruct (Ascii.eqb c "/") eqn:Hc; [|reflexivity].
  apply Ascii.eqb_eq in Hc as ->. cbn [String.prefix] in Hhere.
  destruct (ascii_dec "/" "/"); [|done]. by destruct path.
Qed.

(** X9. A one-time run goes by the file name of its executable: for
    an executable chosen as a directory, a slash and a name without slash,
    the name is what is appended to oneOffsRunning and set as the property
    running of the controller; a path without any slash is taken whole.
    The path chosen is remembered as the place to open the next file dialog
    at. *)
Theorem X9_oneTime_run_named_after_file (dir name oneTimeRunArgs : string) (w : Window) :
  Qt.contains name "/" = false ->
  let oneTimeApp := dir +:+ "/" +:+ name in
  let w' := on_oneTimeRunBtn_clicked oneTimeApp oneTimeRunArgs w in
  oneOffsRunning w' = (oneOffsRunning w ++ [name])%list
  /\ (exists c, last (umuController w') = Some (Some c)
                /\ ctl_running c = name /\ ctl_parameters c = oneTimeApp)
  /\ oneTimeLastPath w' = oneTimeApp
  /\ (name <> EmptyString ->
      oneOffsRunning (on_oneTimeRunBtn_clicked name oneTimeRunArgs w)
      = (oneOffsRunning w ++ [name])%list).
Proof.
  intros Hname. cbn zeta.
  assert (Happ : String.eqb (dir +:+ "/" +:+ name) EmptyString = false).
  { apply String.eqb_neq. intros Hempty.
    pose proof (contains_slash_app dir name) as Hslash. by rewrite Hempty in Hslash. }
  unfold on_oneTimeRunBtn_clicked. rewrite Happ.
  assert (Hfields :
    forall app,
      oneOffsRunning (oneTimeStarted app oneTimeRunArgs w)
      = (oneOffsRunning w ++ [afterLastSlash app])%list
      /\ umuController (oneTimeStarted app oneTimeRunArgs w)
         = (umuController w
            ++ [Some (mkController (-1) app
                        (bool_decide (1 < length (currentlyRunning w ++ [(-1)%Z]))%nat)
                        (if String.eqb oneTimeRunArgs EmptyString then []
                         else splitArgs oneTimeRunArgs)
                        (threadsCount w + 1 - 1) (afterLastSlash app))])%list
      /\ oneTimeLastPath (oneTimeStarted app oneTimeRunArgs w) = app)
    by (intros app; repeat split).
  destruct (Hfields (dir +:+ "/" +:+ name)) as (Hone & Hctl & Hlast).
  rewrite Hone, Hctl, Hlast, last_snoc, (afterLastSlash_app dir name Hname).
  split; [reflexivity|]. split; [by eexists|]. split; [reflexivity|].
  intros Hne. apply String.eqb_neq in Hne. rewrite Hne.
  destruct (Hfields name) as (-> & _). by rewrite (afterLastSlash_none name Hname).
Qed.

Lemma X9_oneTime_run_named_after_file_witness :
  oneOffsRunning (on_oneTimeRunBtn_clicked "/tmp/setup.exe" EmptyString Example.window)
  = ["setup.exe"].
Proof.
  exact (proj1 (X9_oneTime_run_named_after_file "/tmp" "setup.exe" EmptyString
                  Example.window eq_refl)).
Defined.

(** ** The list of prefixes *)

Lemma renderPrefixButtons_fields (names : list string) (i : nat) (w : Window) :
  length (prefixMainButton w) = i -> length (prefixDeleteButton w) = i ->
  let w' := renderPrefixButtons names i w in
  prefixMainButton w' = (prefixMainButton w ++ names)%list
  /\ prefixDeleteButton w'
     = (prefixDeleteButton w ++ ((fun name => "Delete " +:+ name) <$> names))%list
  /\ fs w' = fs w /\ managerCfg w' = managerCfg w /\ ui w' = ui w
  /\ sysTray w' = sysTray w
  /\ prefixIsSelected w' = prefixIsSelected w
  /\ prefixShortcutLabel w' = prefixShortcutLabel w
  /\ prefixShortcutPlayButton w' = prefixShortcutPlayButton w.
Proof.
  revert i w. induction names as [|name names IH]; intros i w Hmain Hdelete.
  - cbn. by rewrite !app_nil_r.
  - cbn [renderPrefixButtons].
    assert (Hset : <[i := "Delete " +:+ name]> (prefixDeleteButton w ++ [EmptyString])%list
                   = (prefixDeleteButton w ++ ["Delete " +:+ name])%list).
    { rewrite <- Hdelete. rewrite insert_app_r_alt by lia. by rewrite Nat.sub_diag. }
    match goal with |- context [renderPrefixButtons names (S i) ?w0] => set (w1 := w0) end.
    assert (Hmain1 : prefixMainButton w1 = (prefixMainButton w ++ [name])%list)
      by reflexivity.
    assert (Hdelete1 : prefixDeleteButton w1
                       = (prefixDeleteButton w ++ ["Delete " +:+ name])%list)
      by (rewrite <- Hset; reflexivity).
    destruct (IH (S i) w1) as (H1 & H2 & H3 & H4 & H5 & H6 & H7 & H8 & H9).
    + rewrite Hmain1, length_app, Hmain. cbn. lia.
    + rewrite Hdelete1, length_app, Hdelete. cbn. lia.
    + cbn zeta. rewrite H1, H2, H3, H4, H5, H6, H7, H8, H9, Hmain1, Hdelete1.
      rewrite <- !app_assoc. repeat split.
Qed.

Lemma RenderPrefixes_fields (w : Window) :
  length (prefixDeleteButton w) = length (prefixMainButton w) ->
  let w' := RenderPrefixes w in
  fs w' = fs w /\ managerCfg w' = managerCfg w /\ ui w' = ui w
  /\ sysTray w' = sysTray w
  /\ prefixIsSelected w' = prefixIsSelected w
  /\ prefixShortcutLabel w' = prefixShortcutLabel w
  /\ prefixShortcutPlayButton w' = prefixShortcutPlayButton w
  /\ (NeroFS.GetPrefixes (fs w) <> [] ->
      prefixMainButton w' = NeroFS.GetPrefixes (fs w)
      /\ prefixDeleteButton w'
         = (fun name => "Delete " +:+ name) <$> NeroFS.GetPrefixes (fs w))
  /\ (NeroFS.GetPrefixes (fs w) = [] -> w' = w).
Proof.
  intros Haligned. cbn zeta. unfold RenderPrefixes.
  case_bool_decide as Hnone.
  - repeat split; done.
  - assert (Hcleared :
      exists w0, (if negb (bool_decide (prefixMainButton w = []))
                  then set_prefixDeleteButton [] (set_prefixMainButton [] w)
                  else w) = w0
                 /\ prefixMainButton w0 = [] /\ prefixDeleteButton w0 = []
                 /\ fs w0 = fs w /\ managerCfg w0 = managerCfg w /\ ui w0 = ui w
                 /\ sysTray w0 = sysTray w
                 /\ prefixIsSelected w0 = prefixIsSelected w
                 /\ prefixShortcutLabel w0 = prefixShortcutLabel w
                 /\ prefixShortcutPlayButton w0 = prefixShortcutPlayButton w).
    { case_bool_decide as Hmain; cbn [negb]; eexists; (split; [reflexivity|]).
      - rewrite Hmain in Haligned. apply nil_length_inv in Haligned. done.
      - done. }
    destruct Hcleared as (w0 & -> & Hmain0 & Hdelete0 & Hfs0 & E1 & E2 & E3 & E4 & E5 & E6).
    rewrite Hfs0 at 1.
    destruct (renderPrefixButtons_fields (NeroFS.GetPrefixes (fs w)) 0 w0)
      as (H1 & H2 & H3 & H4 & H5 & H6 & H7 & H8 & H9);
      [by rewrite Hmain0|by rewrite Hdelete0|].
    rewrite !Hfs0. rewrite H1, H2, H3, H4, H5, H6, H7, H8, H9, Hmain0, Hdelete0.
    repeat split; done.
Qed.

(** X10. When a prefix is registered, [RenderPrefixes] makes the
    buttons anew from the registry: one main button per prefix, in the
    order of the registry, each with the delete button that names it.  When
    no prefix is registered it leaves the buttons it finds, so the buttons
    of prefixes that are gone stay in the list. *)
Theorem X10_RenderPrefixes_mirrors_registry (w : Window) :
  length (prefixDeleteButton w) = length (prefixMainButton w) ->
  let w' := RenderPrefixes w in
  (NeroFS.GetPrefixes (fs w) <> [] ->
   prefixMainButton w' = NeroFS.GetPrefixes (fs w)
   /\ prefixDeleteButton w'
      = (fun name => "Delete " +:+ name) <$> NeroFS.GetPrefixes (fs w))
  /\ (NeroFS.GetPrefixes (fs w) = [] ->
      prefixMainButton w' = prefixMainButton w
      /\ prefixDeleteButton w' = prefixDeleteButton w)
  /\ fs w' = fs w.
Proof.
  intros Haligned.
  destruct (RenderPrefixes_fields w Haligned) as (Hfs & _ & _ & _ & _ & _ & _ & Hsome & Hnone).
  cbn zeta. split; [exact Hsome|]. split; [|exact Hfs].
  intros Hempty. by rewrite (Hnone Hempty).
Qed.

Lemma X10_RenderPrefixes_mirrors_registry_witness :
  prefixMainButton (RenderPrefixes (set_prefixMainButton ["Old"]
                                      (set_prefixDeleteButton ["Delete Old"] Example.window)))
  = ["Games"].
Proof.
  apply (X10_RenderPrefixes_mirrors_registry
           (set_prefixMainButton ["Old"]
              (set_prefixDeleteButton ["Delete Old"] Example.window)));
    [reflexivity|discriminate].
Defined.


Lemma CreatePrefix_fields (run : ProcessRun) (newPrefix runner : string)
    (tricksToInstall : list string) (w : Window) :
  let w' := CreatePrefix run newPrefix runner tricksToInstall w in
  managerCfg w' = managerCfg w
  /\ trayIcon (sysTray w') = ":/ico/systrayPhi"
  /\ prefixShortcutLabel w' = prefixShortcutLabel w
  /\ prefixShortcutPlayButton w' = prefixShortcutPlayButton w
  /\ (length (prefixDeleteButton w) = length (prefixMainButton w) ->
      length (prefixDeleteButton w') = length (prefixMainButton w'))
  /\ (filesAfter run !! systemReg (fs w) newPrefix = None ->
      NeroFS.prefixes (fs w') = NeroFS.prefixes (fs w)).
Proof.
  cbn zeta. unfold CreatePrefix. cbn.
  change (systemReg _ newPrefix) with (systemReg (fs w) newPrefix).
  destruct (filesAfter run !! systemReg (fs w) newPrefix) as [reg|]; cbn.
  - destruct (regFileOpens run); cbn; repeat split; try done;
      intros Haligned; rewrite !length_app, Haligned; reflexivity.
  - repeat split; done.
Qed.

(** X11. When the prefix wizard is accepted, the setting
    DefaultPrefix is written whenever its box was ticked, whether or not
    the prefix was committed: with the box ticked, no user links asked for
    and no marker file after the child process, the setting names the new
    prefix while the registry is as before.  The busy icon of the tray is
    gone afterwards, the window shows the list of prefixes, and when a
    prefix is registered the main buttons are the registered prefixes. *)
Theorem X11_prefixWizard_result_writes_default (availableProtons : list string)
    (CreateUserLinks : string -> NeroFS.t -> NeroFS.t)
    (run : ProcessRun) (wizard : NeroPrefixWizard) (w : Window) (runner : string) :
  wz_result wizard = Accepted ->
  availableProtons !! wz_protonRunner wizard = Some runner ->
  length (prefixDeleteButton w) = length (prefixMainButton w) ->
  exists w',
    prefixWizard_result availableProtons CreateUserLinks run wizard w = Some w'
    /\ (wz_defaultPrefix wizard = true ->
        managerCfg w' !! "DefaultPrefix" = Some (Qt.VString (wz_prefixName wizard)))
    /\ (wz_defaultPrefix wizard = false -> managerCfg w' = managerCfg w)
    /\ (wz_userSymlinks wizard = false ->
        filesAfter run !! systemReg (fs w) (wz_prefixName wizard) = None ->
        NeroFS.prefixes (fs w') = NeroFS.prefixes (fs w))
    /\ trayIcon (sysTray w') = ":/ico/systrayPhi"
    /\ prefixIsSelected w' = false
    /\ (NeroFS.GetPrefixes (fs w') <> [] -> prefixMainButton w' = NeroFS.GetPrefixes (fs w')).
Proof.
  intros Haccepted Hrunner Haligned.
  unfold prefixWizard_result. rewrite Haccepted, Hrunner. cbn [mbind option_bind].
  set (w0 := set_sysTray (set_trayIcon ":/ico/systrayPhiBusy" (sysTray w)) w).
  destruct (CreatePrefix_fields run (wz_prefixName wizard) runner
              (wz_verbsToInstall wizard) w0) as (Hcfg & Hicon & _ & _ & Hlen & Hreg).
  remember (CreatePrefix run (wz_prefixName wizard) runner (wz_verbsToInstall wizard) w0)
    as w1 eqn:E1. clear E1.
  remember (if wz_userSymlinks wizard
            then set_fs (CreateUserLinks (wz_prefixName wizard) (fs w1)) w1 else w1)
    as w2 eqn:E2.
  assert (H2 : managerCfg w2 = managerCfg w /\ trayIcon (sysTray w2) = ":/ico/systrayPhi"
               /\ length (prefixDeleteButton w2) = length (prefixMainButton w2)
               /\ (wz_userSymlinks wizard = false -> fs w2 = fs w1)).
  { rewrite E2. destruct (wz_userSymlinks wizard);
      cbn [managerCfg sysTray prefixDeleteButton prefixMainButton set_fs];
      rewrite Hcfg, Hicon; repeat split; try done; by apply Hlen. }
  clear E2. destruct H2 as (Hcfg2 & Hicon2 & Hlen2 & Hfs2).
  remember (if wz_defaultPrefix wizard
            then set_managerCfg
                   (<["DefaultPrefix" := Qt.VString (wz_prefixName wizard)]> (managerCfg w2))
                   w2
            else w2) as w3 eqn:E3.
  assert (H3 : trayIcon (sysTray w3) = ":/ico/systrayPhi"
               /\ length (prefixDeleteButton w3) = length (prefixMainButton w3)
               /\ fs w3 = fs w2
               /\ (wz_defaultPrefix wizard = true ->
                   managerCfg w3 !! "DefaultPrefix"
                   = Some (Qt.VString (wz_prefixName wizard)))
               /\ (wz_defaultPrefix wizard = false -> managerCfg w3 = managerCfg w)).
  { rewrite E3. destruct (wz_defaultPrefix wizard);
      cbn [managerCfg sysTray prefixDeleteButton prefixMainButton fs set_managerCfg];
      repeat split; try done. by rewrite lookup_insert_eq. }
  clear E3. destruct H3 as (Hicon3 & Hlen3 & Hfs3 & Hdef3 & Hnodef3).
  remember (SetHeader EmptyString 0 w3) as w4 eqn:E4.
  assert (H4 : managerCfg w4 = managerCfg w3 /\ sysTray w4 = sysTray w3
               /\ prefixMainButton w4 = prefixMainButton w3
               /\ prefixDeleteButton w4 = prefixDeleteButton w3
               /\ fs w4 = fs w3 /\ prefixIsSelected w4 = false) by (by rewrite E4).
  clear E4. destruct H4 as (Hcfg4 & Htray4 & Hmain4 & Hdelete4 & Hfs4 & Hsel4).
  destruct (RenderPrefixes_fields w4) as (Hr1 & Hr2 & _ & Hr3 & Hr4 & _ & _ & Hr5 & _);
    [by rewrite Hmain4, Hdelete4|].
  exists (RenderPrefixes w4). split; [reflexivity|].
  rewrite Hr1, Hr2, Hr3, Hr4, Hcfg4, Htray4, Hsel4.
  split; [exact Hdef3|]. split; [exact Hnodef3|].
  split; [intros Hlinks Hmarker; rewrite Hfs4, Hfs3, (Hfs2 Hlinks); by apply Hreg|].
  split; [exact Hicon3|]. split; [reflexivity|].
  intros Hsome. by apply Hr5.
Qed.

Lemma X11_prefixWizard_result_writes_default_witness :
  exists w',
    prefixWizard_result ["GE-Proton-9"] (fun _ s => s) ExampleWizard.noMarkerRun
      ExampleWizard.wizard Example.window = Some w'
    /\ managerCfg w' !! "DefaultPrefix" = Some (Qt.VString "Test")
    /\ NeroFS.prefixes (fs w') = [("Games", "GE-Proton-9")].
Proof.
  destruct (X11_prefixWizard_result_writes_default ["GE-Proton-9"] (fun _ s => s)
              ExampleWizard.noMarkerRun ExampleWizard.wizard Example.window "GE-Proton-9"
              eq_refl eq_refl eq_refl) as (w' & Hrun & Hdefault & _ & Hregistry & _).
  exists w'. split; [exact Hrun|]. split; [exact (Hdefault eq_refl)|].
  exact (Hregistry eq_refl eq_refl).
Defined.

(** X12. After a prefix was deleted the window shows the list of
    prefixes, and the shortcut rows are gone when the prefix deleted was the
    current one.  The main buttons are the prefixes that remain; when none
    remains the buttons stay as they were, the button of the prefix that
    was deleted among them. *)
Theorem X12_prefixDeleteButtons_clicked_buttons
    (DeletePrefix : string -> NeroFS.t -> bool * NeroFS.t)
    (slot : nat) (text : string) (s' : NeroFS.t) (w : Window) :
  prefixMainButton w !! slot = Some text ->
  DeletePrefix text (fs w) = (true, s') ->
  (length (prefixShortcutLabel w) <= length (prefixShortcutPlayButton w))%nat ->
  length (prefixDeleteButton w) = length (prefixMainButton w) ->
  exists w',
    prefixDeleteButtons_clicked DeletePrefix true slot w = Some w'
    /\ fs w' = s'
    /\ prefixIsSelected w' = false
    /\ topTitle (ui w') = "Select a Prefix"
    /\ (NeroFS.currentPrefix s' = text ->
        prefixShortcutLabel w' = [] /\ prefixShortcutPlayButton w' = [])
    /\ (NeroFS.GetPrefixes s' <> [] -> prefixMainButton w' = NeroFS.GetPrefixes s')
    /\ (NeroFS.GetPrefixes s' = [] ->
        prefixMainButton w' = prefixMainButton w /\ prefixMainButton w' !! slot = Some text).
Proof.
  intros Hslot Hdeleted Hrows Haligned.
  unfold prefixDeleteButtons_clicked. rewrite Hslot. cbn [mbind option_bind].
  rewrite Hdeleted. cbn [fst snd fs set_fs].
  remember (set_fs s' w) as w0 eqn:E0.
  assert (H0 : fs w0 = s' /\ prefixShortcutLabel w0 = prefixShortcutLabel w
               /\ prefixShortcutPlayButton w0 = prefixShortcutPlayButton w
               /\ prefixMainButton w0 = prefixMainButton w
               /\ prefixDeleteButton w0 = prefixDeleteButton w) by (by rewrite E0).
  clear E0. destruct H0 as (Hfs0 & Hlabel0 & Hbutton0 & Hmain0 & Hdelete0).
  assert (Hclean :
    exists w1,
      (if String.eqb (NeroFS.currentPrefix s') text then CleanupShortcuts w0 else Some w0)
      = Some w1
      /\ fs w1 = s' /\ prefixMainButton w1 = prefixMainButton w
      /\ prefixDeleteButton w1 = prefixDeleteButton w
      /\ (NeroFS.currentPrefix s' = text ->
          prefixShortcutLabel w1 = [] /\ prefixShortcutPlayButton w1 = [])).
  { destruct (String.eqb (NeroFS.currentPrefix s') text) eqn:Hcurrent.
    - unfold CleanupShortcuts. rewrite Hlabel0, Hbutton0. rewrite bool_decide_eq_true_2 by exact Hrows.
      eexists. split; [reflexivity|]. cbn. done.
    - exists w0. split; [reflexivity|]. do 3 (split; [done|]).
      intros Heq. apply String.eqb_neq in Hcurrent. done. }
  destruct Hclean as (w1 & -> & Hfs1 & Hmain1 & Hdelete1 & Hrows1).
  cbn [mbind option_bind].
  remember (SetHeader EmptyString 0 w1) as w2 eqn:E2.
  assert (H2 : fs w2 = s' /\ prefixMainButton w2 = prefixMainButton w
               /\ prefixDeleteButton w2 = prefixDeleteButton w
               /\ prefixShortcutLabel w2 = prefixShortcutLabel w1
               /\ prefixShortcutPlayButton w2 = prefixShortcutPlayButton w1
               /\ prefixIsSelected w2 = false /\ topTitle (ui w2) = "Select a Prefix")
    by (by rewrite E2).
  clear E2. destruct H2 as (Hfs2 & Hmain2 & Hdelete2 & Hlabel2 & Hbutton2 & Hsel2 & Htitle2).
  destruct (RenderPrefixes_fields w2) as (R1 & _ & R2 & _ & R3 & R4 & R5 & R6 & R7);
    [by rewrite Hmain2, Hdelete2|].
  exists (RenderPrefixes w2). split; [reflexivity|].
  rewrite R1, R2, R3, R4, R5, Hfs2, Hsel2, Htitle2, Hlabel2, Hbutton2.
  rewrite Hfs2 in R6, R7.
  do 3 (split; [done|]). split; [exact Hrows1|]. split; [intros Hsome; exact (proj1 (R6 Hsome))|].
  intros Hnone. rewrite (R7 Hnone), Hmain2. done.
Qed.

Lemma X12_prefixDeleteButtons_clicked_buttons_witness :
  exists w',
    prefixDeleteButtons_clicked ExampleWizard.deleteAll true 0 Example.window = Some w'
    /\ NeroFS.GetPrefixes (fs w') = []
    /\ prefixMainButton w' = ["Games"].
Proof.
  destruct (X12_prefixDeleteButtons_clicked_buttons ExampleWizard.deleteAll 0 "Games"
              (NeroFS.set_prefixes [] Example.store) Example.window
              eq_refl eq_refl) as (w' & Hrun & Hfs & _ & _ & _ & _ & Hstale);
    [cbn; lia|reflexivity|].
  exists w'. split; [exact Hrun|]. split; [by rewrite Hfs|].
  exact (proj1 (Hstale eq_refl)).
Defined.

(** ** The blinking of the add button *)

Lemma blinkTimer_timeout_step (b : Blink) :
  (0 <= blinkingState b <= 2)%Z ->
  let b' := blinkTimer_timeout b in
  blinkingState b' = ((blinkingState b + 1) mod 3)%Z
  /\ (0 <= blinkingState b' <= 2)%Z
  /\ (blinkingState b' = 0%Z ->
      addButtonFlat b' = false /\ addButtonStyleSheet b' = "background-color: #777777")
  /\ (blinkingState b' = 1%Z ->
      addButtonFlat b' = true /\ addButtonStyleSheet b' = EmptyString)
  /\ (blinkingState b' = 2%Z ->
      addButtonFlat b' = addButtonFlat b /\ addButtonStyleSheet b' = addButtonStyleSheet b).
Proof.
  intros Hrange. unfold blinkTimer_timeout.
  assert (Hcases : blinkingState b = 0%Z \/ blinkingState b = 1%Z \/ blinkingState b = 2%Z)
    by lia.
  destruct Hcases as [H|[H|H]]; rewrite H; cbn; repeat split; (done || lia).
Qed.

Lemma blinkTimer_timeout_iter (b : Blink) (n : nat) :
  (0 <= blinkingState b <= 2)%Z ->
  let b' := Nat.iter n blinkTimer_timeout b in
  blinkingState b' = ((blinkingState b + Z.of_nat n) mod 3)%Z
  /\ (0 <= blinkingState b' <= 2)%Z
  /\ ((1 <= n)%nat -> blinkingState b' = 0%Z ->
      addButtonFlat b' = false /\ addButtonStyleSheet b' = "background-color: #777777")
  /\ ((1 <= n)%nat -> blinkingState b' = 1%Z ->
      addButtonFlat b' = true /\ addButtonStyleSheet b' = EmptyString)
  /\ ((2 <= n)%nat -> blinkingState b' = 2%Z ->
      addButtonFlat b' = true /\ addButtonStyleSheet b' = EmptyString).
Proof.
  intros Hrange. induction n as [|n IH].
  - cbn zeta. change (Nat.iter 0 blinkTimer_timeout b) with b.
    rewrite Z.add_0_r, Z.mod_small by lia.
    repeat split; try done; try lia; intros; lia.
  - cbn zeta in *.
    change (Nat.iter (S n) blinkTimer_timeout b)
      with (blinkTimer_timeout (Nat.iter n blinkTimer_timeout b)).
    destruct IH as (Hstate & Hrange' & H0 & H1 & H2).
    destruct (blinkTimer_timeout_step (Nat.iter n blinkTimer_timeout b) Hrange')
      as (Sstate & Srange & S0 & S1 & S2).
    cbn zeta in *.
    split.
    { rewrite Sstate, Hstate, Zplus_mod_idemp_l, Nat2Z.inj_succ. f_equal. lia. }
    split; [exact Srange|].
    split; [intros _; exact S0|]. split; [intros _; exact S1|].
    intros Hn Htwo. destruct (S2 Htwo) as [-> ->].
    apply H1; [lia|].
    rewrite Sstate in Htwo.
    assert (Hc : blinkingState (Nat.iter n blinkTimer_timeout b) = 0%Z
                 \/ blinkingState (Nat.iter n blinkTimer_timeout b) = 1%Z
                 \/ blinkingState (Nat.iter n blinkTimer_timeout b) = 2%Z) by lia.
    destruct Hc as [Hc|[Hc|Hc]]; rewrite Hc in Htwo; cbn in Htwo; (done || lia).
Qed.

(** X13. While the timer ticks the add button is highlighted for one
    tick in three: the blinking state stays among 0, 1 and 2 and goes round
    them, and from the second tick on the button is the grey, raised one
    exactly when the state has come back to 0, and the plain, flat one
    otherwise. *)
Theorem X13_blinkTimer_timeout_cycle (b : Blink) (n : nat) :
  (0 <= blinkingState b <= 2)%Z -> (2 <= n)%nat ->
  let b' := Nat.iter n blinkTimer_timeout b in
  blinkingState b' = ((blinkingState b + Z.of_nat n) mod 3)%Z
  /\ (blinkingState b' = 0%Z ->
      addButtonFlat b' = false /\ addButtonStyleSheet b' = "background-color: #777777")
  /\ (blinkingState b' <> 0%Z ->
      addButtonFlat b' = true /\ addButtonStyleSheet b' = EmptyString).
Proof.
  intros Hrange Hn.
  destruct (blinkTimer_timeout_iter b n Hrange) as (Hstate & Hrange' & H0 & H1 & H2).
  cbn zeta in *. split; [exact Hstate|]. split; [apply H0; lia|].
  intros Hnot.
  assert (Hc : blinkingState (Nat.iter n blinkTimer_timeout b) = 1%Z
               \/ blinkingState (Nat.iter n blinkTimer_timeout b) = 2%Z) by lia.
  destruct Hc as [Hc|Hc]; [apply H1; (lia || done)|apply H2; (lia || done)].
Qed.

Lemma X13_blinkTimer_timeout_cycle_witness :
  let b' := Nat.iter 4 blinkTimer_timeout (mkBlink 1 false "background-color: #777777") in
  blinkingState b' = 2%Z /\ addButtonFlat b' = true.
Proof.
  destruct (X13_blinkTimer_timeout_cycle (mkBlink 1 false "background-color: #777777") 4)
    as (Hstate & _ & Hplain); [cbn; lia|lia|].
  cbn zeta in *. split; [exact Hstate|].
  apply Hplain. rewrite Hstate. discriminate.
Defined.

(** ** The status of the runner *)

Lemma handleUmuSignal_step (signalType : RunnerStatus) (w : Window) :
  let w' := handleUmuSignal signalType w in
  w' = set_runnerWindow (runnerWindow w') w
  /\ (runnerWindow w = None -> w' = w)
  /\ (signalType = RunnerProtonStarted \/ signalType = RunnerProtonStopped ->
      runnerWindow w' = None)
  /\ (forall dialog', runnerWindow w' = Some dialog' ->
      exists dialog, runnerWindow w = Some dialog
                     /\ rd_name dialog' = rd_name dialog
                     /\ rd_starting dialog' = rd_starting dialog).
Proof.
  cbn zeta. unfold handleUmuSignal.
  destruct (runnerWindow w) as [dialog|] eqn:Hdialog.
  - destruct signalType; cbn; rewrite ?Hdialog; repeat split; try done;
      try (intros [|]; done);
      try (intros dialog' [= <-]; by exists dialog);
      try (rewrite <- Hdialog; reflexivity).
  - split; [reflexivity|]. split; [done|]. split; [intros _; exact Hdialog|].
    intros dialog' Hsome. rewrite Hdialog in Hsome. discriminate.
Qed.

(** X14. The status updates of the runner never open the runner
    dialog and never touch anything but it: with no dialog open they change
    nothing; a dialog that is open keeps its name and only has its text
    replaced, until the update for Proton started or for Proton stopped
    closes it, and once closed it stays closed whatever updates follow. *)
Theorem X14_handleUmuSignal_only_closes (signals : list RunnerStatus) (w : Window) :
  let w' := foldl (fun w signalType => handleUmuSignal signalType w) w signals in
  w' = set_runnerWindow (runnerWindow w') w
  /\ (runnerWindow w = None -> w' = w)
  /\ (RunnerProtonStarted ∈ signals \/ RunnerProtonStopped ∈ signals ->
      runnerWindow w' = None)
  /\ (forall dialog', runnerWindow w' = Some dialog' ->
      exists dialog, runnerWindow w = Some dialog
                     /\ rd_name dialog' = rd_name dialog
                     /\ rd_starting dialog' = rd_starting dialog).
Proof.
  revert w. induction signals as [|signalType signals IH]; intros w; cbn zeta.
  - cbn [foldl]. repeat split; try done.
    + intros [H|H]; by apply elem_of_nil in H.
    + intros dialog' H. by exists dialog'.
  - cbn [foldl].
    destruct (handleUmuSignal_step signalType w) as (Sset & Snone & Sclose & Skeep).
    destruct (IH (handleUmuSignal signalType w)) as (Iset & Inone & Iclose & Ikeep).
    cbn zeta in *.
    set (w1 := handleUmuSignal signalType w) in *.
    set (w' := foldl _ w1 signals) in *.
    split; [rewrite Iset, Sset; reflexivity|].
    split; [intros Hnone; rewrite Inone; [by apply Snone|by rewrite (Snone Hnone)]|].
    split.
    + intros Hin.
      assert (Hcase : (signalType = RunnerProtonStarted \/ signalType = RunnerProtonStopped)
                      \/ (RunnerProtonStarted ∈ signals \/ RunnerProtonStopped ∈ signals)).
      { destruct Hin as [Hin|Hin]; apply elem_of_cons in Hin as [Hin|Hin]; auto. }
      destruct Hcase as [Hnow|Hlater]; [|by apply Iclose].
      rewrite Inone; by apply Sclose.
    + intros dialog' Hdialog'.
      destruct (Ikeep dialog' Hdialog') as (dialog1 & H1 & Hname1 & Hstart1).
      destruct (Skeep dialog1 H1) as (dialog & H & Hname & Hstart).
      exists dialog. split; [exact H|]. split; congruence.
Qed.

(** ** Where the window is hidden and shown *)

Lemma releaseRun_hidden (sender : NeroThreadController) (buttonSlot : Z) (w w1 : Window) :
  releaseRun sender buttonSlot w = Some w1 ->
  managerCfg w1 = managerCfg w
  /\ hidden w1
     = (if bool_decide (0 <= buttonSlot)%Z
           && Qt.toBool (managerCfg w !! "ShortcutHidesManager")
        then false else hidden w).
Proof.
  unfold releaseRun. case_bool_decide as Hslot; cbn [andb].
  - destruct (at_ (prefixShortcutPlayButton w) (Z.to_nat buttonSlot)) as [button|];
      [|discriminate].
    destruct (at_ (prefixShortcutLabel w) (Z.to_nat buttonSlot)) as [label|];
      [|discriminate].
    cbn [mbind option_bind]. intros [= <-]. split; reflexivity.
  - intros [= <-]. split; reflexivity.
Qed.

Lemma retireController_hidden (threadSlot : nat) (buttonSlot : Z) (w w2 : Window) :
  retireController threadSlot buttonSlot w = Some w2 ->
  managerCfg w2 = managerCfg w /\ hidden w2 = hidden w.
Proof.
  unfold retireController.
  destruct (umuController w !! threadSlot); [|discriminate].
  cbn [mbind option_bind]. intros [= <-]. split; reflexivity.
Qed.

Lemma refreshStatus_hidden (w w3 : Window) :
  refreshStatus w = Some w3 -> managerCfg w3 = managerCfg w /\ hidden w3 = hidden w.
Proof.
  unfold refreshStatus. destruct (currentlyRunning w) as [|first [|second rest]].
  - intros [= <-]. unfold resetRuns. destruct (prefixIsSelected w) eqn:Hsel; cbn;
      rewrite Hsel; split; reflexivity.
  - destruct (negb (bool_decide (first = (-1)%Z))).
    + destruct (atZ (prefixShortcutLabel w) first); [|discriminate].
      cbn [mbind option_bind]. intros [= <-]. split; reflexivity.
    + destruct (head (oneOffsRunning w)); [|discriminate].
      cbn [mbind option_bind]. intros [= <-]. split; reflexivity.
  - intros [= <-]. split; reflexivity.
Qed.

Lemma stopShortcut_hidden (slot : nat) (w w' : Window) :
  stopShortcut slot w = Some w' -> hidden w' = hidden w.
Proof.
  unfold stopShortcut.
  destruct (runnerWindow w).
  - cbn [mbind option_bind].
    destruct (at_ (prefixShortcutPlayButton w) slot) as [button|]; [|discriminate].
    cbn [mbind option_bind].
    destruct (at_ (umuController w) (btn_thread button)); [|discriminate].
    cbn [mbind option_bind]. by intros [= <-].
  - destruct (at_ (prefixShortcutLabel w) slot) as [label|]; [|discriminate].
    cbn.
    destruct (at_ (prefixShortcutPlayButton w) slot) as [button|]; [|discriminate].
    cbn.
    destruct (at_ (umuController w) (btn_thread button)); [|discriminate].
    cbn. by intros [= <-].
Qed.

(** X15. The only handlers that hide or show the window are these.
    With the setting ShortcutHidesManager a click that launches a shortcut
    hides the window, and the end of the run of a shortcut shows it, also
    while other runs go on; a click that stops a shortcut or reports a
    missing executable does neither.  A one-time run neither hides the
    window when it starts nor shows it when it ends.  A click on the tray
    icon toggles the window, other activations of the icon do nothing, and
    a click on a tray message shows it. *)
Theorem X15_manager_visibility (w : Window) :
  let hides := Qt.toBool (managerCfg w !! "ShortcutHidesManager") in
  (forall sender w',
      prefixShortcutPlayButtons_clicked sender w = Some w' ->
      hidden w'
      = (if negb (bool_decide (Z.of_nat (btn_slot sender) ∈ currentlyRunning w))
            && NeroFS.exists_ (fs w) (launchTarget (fs w) (btn_hash sender))
            && hides
         then true else hidden w))
  /\ (forall oneTimeApp oneTimeRunArgs,
      hidden (on_oneTimeRunBtn_clicked oneTimeApp oneTimeRunArgs w) = hidden w)
  /\ (forall sender buttonSlot result w',
      handleUmuResults sender buttonSlot result w = Some w' ->
      hidden w' = (if bool_decide (0 <= buttonSlot)%Z && hides then false else hidden w))
  /\ (forall reason,
      hidden (sysTray_activated reason w)
      = match reason with
        | QSystemTrayIcon.Trigger => negb (hidden w)
        | _ => hidden w
        end)
  /\ hidden (sysTray_messageClicked w) = false.
Proof.
  cbn zeta. split; [|split; [|split; [|split]]].
  - intros sender w'. unfold prefixShortcutPlayButtons_clicked.
    case_bool_decide as Hrunning; cbn [negb andb].
    + apply stopShortcut_hidden.
    + destruct (NeroFS.exists_ (fs w) (launchTarget (fs w) (btn_hash sender)));
        cbn [andb].
      * unfold launchShortcut.
        destruct (at_ (prefixShortcutPlayButton w) (btn_slot sender)) as [button|];
          [|discriminate].
        destruct (at_ (prefixShortcutLabel w) (btn_slot sender)) as [label|];
          [|discriminate].
        cbn [mbind option_bind]. intros [= <-]. reflexivity.
      * intros [= <-]. reflexivity.
  - intros oneTimeApp oneTimeRunArgs. unfold on_oneTimeRunBtn_clicked.
    destruct (String.eqb oneTimeApp EmptyString); reflexivity.
  - intros sender buttonSlot result w'. unfold handleUmuResults.
    destruct (releaseRun sender buttonSlot w) as [w1|] eqn:H1; [|discriminate].
    cbn [mbind option_bind].
    destruct (retireController (ctl_thread sender) buttonSlot w1) as [w2|] eqn:H2;
      [|discriminate].
    cbn [mbind option_bind].
    destruct (refreshStatus w2) as [w3|] eqn:H3; [|discriminate].
    cbn [mbind option_bind]. intros [= <-].
    apply releaseRun_hidden in H1 as [_ H1].
    apply retireController_hidden in H2 as [_ H2].
    apply refreshStatus_hidden in H3 as [_ H3].
    change (hidden (set_runnerWindow None w3)) with (hidden w3). congruence.
  - intros []; reflexivity.
  - unfold sysTray_messageClicked. cbn [hidden set_hidden]. by destruct (hidden w).
Qed.

(** ** What the worker of a launch is told *)

Lemma more_than_one_snoc {A : Type} (l : list A) (x : A) :
  bool_decide (1 < length (l ++ [x]))%nat = negb (bool_decide (l = [])).
Proof.
  destruct l as [|y l]; [reflexivity|].
  rewrite bool_decide_eq_true_2; [by rewrite bool_decide_eq_false_2|].
  cbn. rewrite length_app. cbn. lia.
Qed.

(** X16. The worker a launch creates is told to start the shortcut
    by its hash, or the executable chosen with the arguments split from the
    text of the arguments field (none when the field is empty), and in both
    cases it is told that umu already runs exactly when another run was in
    currentlyRunning at the time of the launch.  The slot it will report
    is the slot of the button, and -1 for a one-time run. *)
Theorem X16_launch_tells_worker (w : Window) :
  let alreadyRunning := negb (bool_decide (currentlyRunning w = [])) in
  (forall sender w',
      Z.of_nat (btn_slot sender) ∉ currentlyRunning w ->
      NeroFS.exists_ (fs w) (launchTarget (fs w) (btn_hash sender)) = true ->
      prefixShortcutPlayButtons_clicked sender w = Some w' ->
      exists c,
        last (umuController w') = Some (Some c)
        /\ umuRunnerProcess c = StartShortcut (btn_hash sender) alreadyRunning
        /\ ctl_slot c = Z.of_nat (btn_slot sender))
  /\ (forall oneTimeApp oneTimeRunArgs,
      oneTimeApp <> EmptyString ->
      exists c,
        last (umuController (on_oneTimeRunBtn_clicked oneTimeApp oneTimeRunArgs w))
        = Some (Some c)
        /\ umuRunnerProcess c
           = StartOnetime oneTimeApp alreadyRunning
               (if String.eqb oneTimeRunArgs EmptyString then []
                else splitArgs oneTimeRunArgs)
        /\ ctl_slot c = (-1)%Z).
Proof.
  cbn zeta. split.
  - intros sender w' Hidle Hexists. unfold prefixShortcutPlayButtons_clicked.
    rewrite bool_decide_eq_false_2 by exact Hidle. rewrite Hexists.
    unfold launchShortcut.
    destruct (at_ (prefixShortcutPlayButton w) (btn_slot sender)) as [button|];
      [|discriminate].
    destruct (at_ (prefixShortcutLabel w) (btn_slot sender)) as [label|];
      [|discriminate].
    cbn [mbind option_bind]. intros [= <-].
    destruct (launched_fields sender button label w) as (_ & Hctl & _).
    rewrite Hctl, last_snoc. eexists. split; [reflexivity|].
    unfold umuRunnerProcess. cbn [ctl_slot ctl_parameters ctl_alreadyRunning].
    rewrite bool_decide_eq_true_2 by lia.
    by rewrite more_than_one_snoc.
  - intros oneTimeApp oneTimeRunArgs Happ.
    apply String.eqb_neq in Happ. unfold on_oneTimeRunBtn_clicked. rewrite Happ.
    assert (Hctl : umuController (oneTimeStarted oneTimeApp oneTimeRunArgs w)
                   = (umuController w
                      ++ [Some (mkController (-1) oneTimeApp
                                  (bool_decide (1 < length (currentlyRunning w ++ [(-1)%Z]))%nat)
                                  (if String.eqb oneTimeRunArgs EmptyString then []
                                   else splitArgs oneTimeRunArgs)
                                  (threadsCount w + 1 - 1)
                                  (afterLastSlash oneTimeApp))])%list)
      by reflexivity.
    rewrite Hctl, last_snoc. eexists. split; [reflexivity|].
    unfold umuRunnerProcess. cbn [ctl_slot ctl_parameters ctl_alreadyRunning ctl_oneTimeArgs].
    rewrite bool_decide_eq_false_2 by lia.
    by rewrite more_than_one_snoc.
Qed.

(** ** The preferences dialog, opened and accepted *)

(** X17. When the preferences dialog is opened from the settings and
    accepted with its widgets as they were shown, the two check boxes are
    written back with the meaning they were read with, and so is the
    default prefix when it is among the prefixes.  A default prefix that
    is not among them is replaced by the entry the combo box shows, the
    first prefix, or the empty text when there is no prefix.  The combo box
    is enabled exactly when the check box for the default prefix is set. *)
Theorem X17_preferences_open_then_accept (w : Window) (closed : NeroManagerPreferences.t) :
  let shown := on_managerSettings_clicked w in
  let cfg := managerCfg w in
  let old := Qt.toString (cfg !! "DefaultPrefix") in
  NeroManagerPreferences.accepted closed = true ->
  NeroManagerPreferences.shortcutHide closed = NeroManagerPreferences.shortcutHide shown ->
  NeroManagerPreferences.defaultPrefixStart closed
  = NeroManagerPreferences.defaultPrefixStart shown ->
  NeroManagerPreferences.defaultPrefix closed = NeroManagerPreferences.defaultPrefix shown ->
  let after := NeroManagerPreferences.destructor closed cfg in
  Qt.toBool (after !! "ShortcutHidesManager") = Qt.toBool (cfg !! "ShortcutHidesManager")
  /\ Qt.toBool (after !! "RunWithDefaultPrefix") = Qt.toBool (cfg !! "RunWithDefaultPrefix")
  /\ (old ∈ NeroFS.GetPrefixes (fs w) -> Qt.toString (after !! "DefaultPrefix") = old)
  /\ (old ∉ NeroFS.GetPrefixes (fs w) ->
      Qt.toString (after !! "DefaultPrefix")
      = default EmptyString (head (NeroFS.GetPrefixes (fs w))))
  /\ NeroManagerPreferences.defaultPrefixEnabled shown
     = Qt.toBool (cfg !! "RunWithDefaultPrefix").
Proof.
  cbn zeta. intros Haccepted Hhide Hstart Hprefix.
  unfold NeroManagerPreferences.destructor. rewrite Haccepted, Hhide, Hstart, Hprefix.
  unfold on_managerSettings_clicked, NeroManagerPreferences.BindSettings,
    NeroManagerPreferences.new.
  cbn [NeroManagerPreferences.shortcutHide NeroManagerPreferences.defaultPrefixStart
       NeroManagerPreferences.defaultPrefix NeroManagerPreferences.defaultPrefixItems
       NeroManagerPreferences.defaultPrefixEnabled].
  split; [by simplify_map_eq|]. split; [by simplify_map_eq|].
  split; [|split; [|reflexivity]].
  - intros Hin. rewrite lookup_insert_eq. cbn [Qt.toString].
    by rewrite bool_decide_eq_true_2.
  - intros Hout. rewrite lookup_insert_eq. cbn [Qt.toString].
    by rewrite bool_decide_eq_false_2.
Qed.

Lemma X17_preferences_open_then_accept_witness :
  Qt.toString
    (NeroManagerPreferences.destructor
       (NeroManagerPreferences.mk true false false ["Games"] "Games" false)
       (managerCfg (set_managerCfg {[ "DefaultPrefix" := Qt.VString "Gone" ]} Example.window))
     !! "DefaultPrefix")
  = "Games".
Proof.
  refine (proj1 (proj2 (proj2 (proj2
            (X17_preferences_open_then_accept
               (set_managerCfg {[ "DefaultPrefix" := Qt.VString "Gone" ]} Example.window)
               (NeroManagerPreferences.mk true false false ["Games"] "Games" false)
               eq_refl eq_refl eq_refl eq_refl)))) _).
  vm_compute. intros Hin. apply list_elem_of_singleton in Hin. discriminate.
Defined.

(** ** The bookkeeping in every window that can be reached *)

Lemma Inv_mono (w w' : Window) :
  Inv w ->
  threadsCount w' = threadsCount w -> umuController w' = umuController w ->
  currentlyRunning w' = currentlyRunning w -> oneOffsRunning w' = oneOffsRunning w ->
  (forall j, is_Some (at_ (prefixShortcutLabel w) j) ->
             is_Some (at_ (prefixShortcutLabel w') j)) ->
  (forall j, is_Some (at_ (prefixShortcutPlayButton w) j) ->
             is_Some (at_ (prefixShortcutPlayButton w') j)) ->
  Inv w'.
Proof.
  intros [H1 H2 H3 H4 H5] Hcount Hctl Hrun Hone Hlabel Hbutton.
  constructor; unfold live in *; rewrite ?Hcount, ?Hctl, ?Hrun, ?Hone; try assumption.
  intros z Hz. destruct (H5 z Hz) as [Hneg|(Hpos & Hl & Hb)]; [by left|right].
  split; [exact Hpos|]. split; [by apply Hlabel|by apply Hbutton].
Qed.

Lemma Rows_ext (w w' : Window) :
  Rows w ->
  prefixShortcutLabel w' = prefixShortcutLabel w ->
  prefixShortcutPlayButton w' = prefixShortcutPlayButton w ->
  Rows w'.
Proof.
  intros [H1 H2 H3] Hlabel Hbutton.
  constructor; rewrite ?Hlabel, ?Hbutton; assumption.
Qed.

Lemma Linked_ext (w w' : Window) :
  Linked w ->
  umuController w' = umuController w -> currentlyRunning w' = currentlyRunning w ->
  prefixShortcutPlayButton w' = prefixShortcutPlayButton w ->
  Linked w'.
Proof.
  intros [H1 H2] Hctl Hrun Hbutton.
  constructor; rewrite ?Hctl, ?Hrun, ?Hbutton; assumption.
Qed.

Lemma Consistent_ext (w w' : Window) :
  Consistent w ->
  threadsCount w' = threadsCount w -> umuController w' = umuController w ->
  currentlyRunning w' = currentlyRunning w -> oneOffsRunning w' = oneOffsRunning w ->
  prefixShortcutLabel w' = prefixShortcutLabel w ->
  prefixShortcutPlayButton w' = prefixShortcutPlayButton w ->
  Consistent w'.
Proof.
  intros (HI & HR & HL) Hcount Hctl Hrun Hone Hlabel Hbutton.
  split; [by apply (Inv_ext w)|]. split; [by apply (Rows_ext w)|by apply (Linked_ext w)].
Qed.

Lemma at_insert_Some {A : Type} (l : list (option A)) (i j : nat) (x : A) :
  is_Some (at_ l i) ->
  at_ (<[i := Some x]> l) j = (if decide (i = j) then Some x else at_ l j).
Proof.
  intros Hi. unfold at_ in *.
  destruct (decide (i = j)) as [<-|Hne].
  - rewrite list_lookup_insert_eq; [reflexivity|].
    destruct (l !! i) eqn:Hl; [by eapply lookup_lt_Some|by destruct Hi].
  - by rewrite list_lookup_insert_ne.
Qed.

Lemma at_lt {A : Type} (l : list (option A)) (i : nat) :
  is_Some (at_ l i) -> (i < length l)%nat.
Proof.
  unfold at_. intros Hi. destruct (l !! i) eqn:Hl; [by eapply lookup_lt_Some|by destruct Hi].
Qed.

Lemma at_app_l {A : Type} (l k : list (option A)) (i : nat) :
  (i < length l)%nat -> at_ (l ++ k) i = at_ l i.
Proof. intros Hi. unfold at_. by rewrite lookup_app_l. Qed.

Lemma Idle_Inv (w : Window) : Idle w -> Inv w.
Proof. intros (H1 & H2 & H3 & H4). by apply Inv_idle. Qed.

Lemma Idle_Linked (w : Window) : Idle w -> Linked w.
Proof.
  intros (_ & _ & Hrun & _). constructor; rewrite Hrun.
  - constructor.
  - intros slot button Hin. by apply elem_of_nil in Hin.
Qed.

(** *** Launching *)

Lemma filter_nonneg_snoc (l : list Z) (z : Z) :
  filter (fun z => (0 <= z)%Z) (l ++ [z])%list
  = (filter (fun z => (0 <= z)%Z) l ++ (if decide (0 <= z)%Z then [z] else []))%list.
Proof.
  rewrite filter_app, filter_cons, filter_nil.
  by destruct (decide (0 <= z)%Z).
Qed.

Lemma launched_Consistent (sender button : PlayButton) (label : string) (w : Window) :
  Consistent w ->
  Z.of_nat (btn_slot sender) ∉ currentlyRunning w ->
  prefixShortcutPlayButton w !! btn_slot sender = Some (Some button) ->
  prefixShortcutLabel w !! btn_slot sender = Some (Some label) ->
  Consistent (launched sender button label w).
Proof.
  intros (HI & HR & HL) Hidle Hbutton Hlabel.
  destruct (launchShortcut_spec sender button label w HI Hbutton Hlabel)
    as (w' & Hlaunch & HI' & _).
  assert (Hsame : launchShortcut sender w = Some (launched sender button label w)).
  { unfold launchShortcut, at_. by rewrite Hbutton, Hlabel. }
  rewrite Hsame in Hlaunch. apply (inj Some) in Hlaunch. rewrite <- Hlaunch in HI'.
  clear Hlaunch Hsame w'.
  destruct (launched_fields sender button label w)
    as (Hcount & Hctl & Hrun & Hone & Hlabels & Hbuttons & _).
  cbn zeta in *.
  assert (Hthread : (threadsCount w + 1 - 1)%nat = length (umuController w)).
  { rewrite (inv_count w HI). lia. }
  split; [exact HI'|]. split.
  - destruct HR as [R1 R2 R3]. constructor; rewrite ?Hlabels, ?Hbuttons.
    + by rewrite length_insert.
    + intros i b Hb. destruct (decide (btn_slot sender = i)) as [<-|Hne].
      * rewrite list_lookup_insert_eq in Hb by (by eapply lookup_lt_Some).
        injection Hb as <-. cbn. by apply (R2 _ _ Hbutton).
      * rewrite list_lookup_insert_ne in Hb by done. by apply R2.
    + intros i. rewrite at_insert_Some by (unfold at_; rewrite Hbutton; by eexists).
      destruct (decide (btn_slot sender = i)) as [<-|Hne]; [|by apply R3].
      unfold at_. rewrite Hlabel. split; intros _; by eexists.
  - destruct HL as [L1 L2]. constructor; rewrite ?Hrun, ?Hctl, ?Hbuttons.
    + rewrite filter_nonneg_snoc. rewrite decide_True by lia.
      apply NoDup_app. split; [exact L1|]. split; [|apply NoDup_singleton].
      intros z Hz Hz'. apply list_elem_of_singleton in Hz' as ->.
      apply list_elem_of_filter in Hz as [_ Hz]. done.
    + intros slot b Hin Hb.
      rewrite at_insert_Some in Hb by (unfold at_; rewrite Hbutton; by eexists).
      destruct (decide (btn_slot sender = slot)) as [<-|Hne].
      * injection Hb as <-. cbn [btn_thread]. rewrite Hthread.
        rewrite lookup_app_r by lia. rewrite Nat.sub_diag. cbn.
        eexists. split; [reflexivity|]. reflexivity.
      * apply elem_of_app in Hin as [Hin|Hin].
        -- destruct (L2 slot b Hin Hb) as (c & Hc & Hslot).
           exists c. split; [|exact Hslot].
           rewrite lookup_app_l; [exact Hc|by eapply lookup_lt_Some].
        -- apply list_elem_of_singleton in Hin. lia.
Qed.


Lemma play_Consistent (slot : nat) (w : Window) :
  Consistent w -> offered (ActPlay slot) w ->
  exists w', perform (ActPlay slot) w = Some w' /\ Consistent w'.
Proof.
  intros HC [sender Hsender]. pose proof HC as (HI & HR & HL).
  cbn [perform]. rewrite Hsender. cbn [mbind option_bind].
  assert (Hlookup : prefixShortcutPlayButton w !! slot = Some (Some sender)).
  { unfold at_ in Hsender. destruct (prefixShortcutPlayButton w !! slot) as [[b|]|];
      cbn in Hsender; congruence. }
  assert (Hslot : btn_slot sender = slot) by (by apply (rows_slot w HR)).
  destruct (proj2 (rows_both w HR slot)) as [label Hlabel]; [by eexists|].
  assert (Hlabel' : prefixShortcutLabel w !! slot = Some (Some label)).
  { unfold at_ in Hlabel. destruct (prefixShortcutLabel w !! slot) as [[l|]|];
      cbn in Hlabel; congruence. }
  unfold prefixShortcutPlayButtons_clicked. rewrite Hslot.
  case_bool_decide as Hrunning.
  - destruct (linked_thread w HL slot sender Hrunning Hsender) as (c & Hc & _).
    unfold stopShortcut.
    assert (Hat : at_ (umuController w) (btn_thread sender) = Some c)
      by (unfold at_; by rewrite Hc).
    destruct (runnerWindow w) as [dialog|].
    + cbn [mbind option_bind]. rewrite Hsender. cbn [mbind option_bind].
      rewrite Hat. cbn [mbind option_bind].
      eexists. split; [reflexivity|]. by apply (Consistent_ext w).
    + rewrite Hlabel. cbn [mbind option_bind].
      change (at_ (prefixShortcutPlayButton (set_runnerWindow _ w)) slot)
        with (at_ (prefixShortcutPlayButton w) slot).
      rewrite Hsender. cbn [mbind option_bind].
      change (at_ (umuController (set_runnerWindow _ w)) (btn_thread sender))
        with (at_ (umuController w) (btn_thread sender)).
      rewrite Hat. cbn [mbind option_bind].
      eexists. split; [reflexivity|]. by apply (Consistent_ext w).
  - destruct (NeroFS.exists_ (fs w) (launchTarget (fs w) (btn_hash sender))).
    + unfold launchShortcut. rewrite Hslot, Hsender, Hlabel. cbn [mbind option_bind].
      eexists. split; [reflexivity|].
      apply launched_Consistent; rewrite ?Hslot; done.
    + eexists. split; [reflexivity|]. by apply (Consistent_ext w).
Qed.

Lemma oneTime_Consistent (oneTimeApp oneTimeRunArgs : string) (w : Window) :
  Consistent w -> Consistent (on_oneTimeRunBtn_clicked oneTimeApp oneTimeRunArgs w).
Proof.
  intros HC. pose proof HC as (HI & HR & HL).
  destruct (decide (oneTimeApp = EmptyString)) as [->|Happ]; [exact HC|].
  destruct (oneTime_spec oneTimeApp oneTimeRunArgs w HI Happ) as (HI' & _).
  destruct (oneTime_fields oneTimeApp oneTimeRunArgs w Happ)
    as (args & Hcount & Hctl & Hrun & Hone & Hlabels & Hbuttons & _).
  cbn zeta in *.
  split; [exact HI'|]. split; [by apply (Rows_ext w)|].
  destruct HL as [L1 L2]. constructor; rewrite ?Hrun, ?Hctl, ?Hbuttons.
  - rewrite filter_nonneg_snoc. rewrite decide_False by lia. by rewrite app_nil_r.
  - intros slot b Hin Hb. apply elem_of_app in Hin as [Hin|Hin].
    + destruct (L2 slot b Hin Hb) as (c & Hc & Hslot).
      exists c. split; [|exact Hslot].
      rewrite lookup_app_l; [exact Hc|by eapply lookup_lt_Some].
    + apply list_elem_of_singleton in Hin. lia.
Qed.


(** *** The end of a run *)

Lemma releaseRun_rows (sender : NeroThreadController) (buttonSlot : Z) (w w1 : Window) :
  releaseRun sender buttonSlot w = Some w1 ->
  prefixShortcutLabel w1 = prefixShortcutLabel w
  /\ umuController w1 = umuController w
  /\ currentlyRunning w1 = currentlyRunning w
  /\ fs w1 = fs w /\ ui w1 = ui w /\ sysTray w1 = sysTray w
  /\ prefixIsSelected w1 = prefixIsSelected w
  /\ ((0 <= buttonSlot)%Z ->
      exists button label,
        at_ (prefixShortcutPlayButton w) (Z.to_nat buttonSlot) = Some button
        /\ at_ (prefixShortcutLabel w) (Z.to_nat buttonSlot) = Some label
        /\ prefixShortcutPlayButton w1
           = <[Z.to_nat buttonSlot :=
                 Some (mkPlayButton "media-playback-start" ("Start " +:+ label)
                         (btn_slot button) (btn_hash button) (btn_thread button))]>
               (prefixShortcutPlayButton w))
  /\ ((buttonSlot < 0)%Z -> prefixShortcutPlayButton w1 = prefixShortcutPlayButton w).
Proof.
  unfold releaseRun. case_bool_decide as Hslot.
  - destruct (at_ (prefixShortcutPlayButton w) (Z.to_nat buttonSlot)) as [button|];
      [|discriminate].
    destruct (at_ (prefixShortcutLabel w) (Z.to_nat buttonSlot)) as [label|];
      [|discriminate].
    cbn [mbind option_bind]. intros [= <-].
    do 7 (split; [reflexivity|]). split; [|lia].
    intros _. exists button, label. done.
  - intros [= <-]. do 7 (split; [reflexivity|]). split; [lia|done].
Qed.

Lemma retireController_rows (threadSlot : nat) (buttonSlot : Z) (w w2 : Window) :
  retireController threadSlot buttonSlot w = Some w2 ->
  prefixShortcutLabel w2 = prefixShortcutLabel w
  /\ prefixShortcutPlayButton w2 = prefixShortcutPlayButton w
  /\ umuController w2 = <[threadSlot := None]> (umuController w)
  /\ currentlyRunning w2 = removeOne buttonSlot (currentlyRunning w)
  /\ fs w2 = fs w /\ ui w2 = ui w /\ sysTray w2 = sysTray w
  /\ prefixIsSelected w2 = prefixIsSelected w.
Proof.
  unfold retireController.
  destruct (umuController w !! threadSlot); [|discriminate].
  cbn [mbind option_bind]. intros [= <-]. repeat split; reflexivity.
Qed.

Lemma refreshStatus_rows (w w3 : Window) :
  refreshStatus w = Some w3 ->
  prefixShortcutLabel w3 = prefixShortcutLabel w
  /\ prefixShortcutPlayButton w3 = prefixShortcutPlayButton w
  /\ currentlyRunning w3 = currentlyRunning w
  /\ fs w3 = fs w
  /\ (currentlyRunning w = [] ->
      umuController w3 = [] /\ threadsCount w3 = 0%nat
      /\ trayIcon (sysTray w3) = ":/ico/systrayPhi"
      /\ toolTip (sysTray w3) = "Nero Manager"
      /\ prefixSettingsBtnEnabled (ui w3) = true
      /\ prefixTricksBtnEnabled (ui w3) = true
      /\ (prefixIsSelected w = true ->
          backButtonIcon (ui w3) = "go-previous"
          /\ backButtonToolTip (ui w3) = "Go back to prefixes list."))
  /\ (currentlyRunning w <> [] -> umuController w3 = umuController w).
Proof.
  unfold refreshStatus. destruct (currentlyRunning w) as [|first [|second rest]] eqn:Hrun.
  - intros [= <-]. unfold resetRuns. destruct (prefixIsSelected w) eqn:Hsel; cbn;
      rewrite ?Hsel; repeat split; try done.
  - destruct (negb (bool_decide (first = (-1)%Z))).
    + destruct (atZ (prefixShortcutLabel w) first); [|discriminate].
      cbn [mbind option_bind]. intros [= <-]. repeat split; try done; by rewrite ?Hrun.
    + destruct (head (oneOffsRunning w)); [|discriminate].
      cbn [mbind option_bind]. intros [= <-]. repeat split; try done; by rewrite ?Hrun.
  - intros [= <-]. repeat split; try done; by rewrite ?Hrun.
Qed.

Lemma removeOne_filter_NoDup (l : list Z) (z : Z) :
  NoDup (filter (fun z => (0 <= z)%Z) l) ->
  NoDup (filter (fun z => (0 <= z)%Z) (removeOne z l))
  /\ ((0 <= z)%Z -> z ∉ removeOne z l).
Proof.
  induction l as [|y l IH]; intros Hnd; cbn [removeOne].
  - split; [constructor|]. intros _. apply not_elem_of_nil.
  - rewrite filter_cons in Hnd. destruct (decide (y = z)) as [->|Hne].
    + destruct (decide (0 <= z)%Z) as [Hz|Hz].
      * apply NoDup_cons in Hnd as [Hnotin Hnd]. split; [exact Hnd|].
        intros _ Hin. apply Hnotin. by apply list_elem_of_filter.
      * split; [exact Hnd|]. done.
    + rewrite filter_cons. destruct (decide (0 <= y)%Z) as [Hy|Hy].
      * apply NoDup_cons in Hnd as [Hnotin Hnd]. destruct (IH Hnd) as [IH1 IH2].
        split.
        -- constructor; [|exact IH1]. intros Hin. apply Hnotin.
           apply list_elem_of_filter in Hin as [Hpos Hin].
           apply list_elem_of_filter. split; [exact Hpos|].
           by apply (removeOne_elem_of z).
        -- intros Hz Hin. apply elem_of_cons in Hin as [->|Hin]; [done|by apply IH2].
      * destruct (IH Hnd) as [IH1 IH2]. split; [exact IH1|].
        intros Hz Hin. apply elem_of_cons in Hin as [->|Hin]; [done|by apply IH2].
Qed.

Lemma exit_Consistent (thread : nat) (result : Z) (w : Window) :
  Consistent w -> offered (ActExit thread result) w ->
  exists w', perform (ActExit thread result) w = Some w' /\ Consistent w'.
Proof.
  intros (HI & HR & HL) [c Hc]. cbn [perform]. rewrite Hc. cbn [mbind option_bind].
  assert (Hlive : c ∈ live w).
  { apply live_lookup. exists thread. by apply at_Some_inv. }
  destruct (handleUmuResults_step c result w HI Hlive) as (w' & Hrun & HI' & _).
  exists w'. split; [exact Hrun|]. split; [exact HI'|].
  unfold handleUmuResults in Hrun.
  destruct (releaseRun c (ctl_slot c) w) as [w1|] eqn:H1; [|discriminate].
  cbn [mbind option_bind] in Hrun.
  destruct (retireController (ctl_thread c) (ctl_slot c) w1) as [w2|] eqn:H2;
    [|discriminate].
  cbn [mbind option_bind] in Hrun.
  destruct (refreshStatus w2) as [w3|] eqn:H3; [|discriminate].
  cbn [mbind option_bind] in Hrun. injection Hrun as <-.
  apply releaseRun_rows in H1
    as (Hlabel1 & Hctl1 & Hrun1 & _ & _ & _ & _ & Hpos1 & Hneg1).
  apply retireController_rows in H2 as (Hlabel2 & Hbutton2 & Hctl2 & Hrun2 & _).
  apply refreshStatus_rows in H3 as (Hlabel3 & Hbutton3 & Hrun3 & _ & Hnone3 & Hsome3).
  change (prefixShortcutLabel (set_runnerWindow None w3)) with (prefixShortcutLabel w3).
  assert (Hbuttons :
    forall j, at_ (prefixShortcutPlayButton w3) j = at_ (prefixShortcutPlayButton w) j
              \/ (Z.of_nat j = ctl_slot c
                  /\ exists button b',
                       at_ (prefixShortcutPlayButton w) j = Some button
                       /\ at_ (prefixShortcutPlayButton w3) j = Some b'
                       /\ btn_slot b' = btn_slot button
                       /\ btn_thread b' = btn_thread button)).
  { intros j. rewrite Hbutton3, Hbutton2.
    destruct (decide (0 <= ctl_slot c)%Z) as [Hpos|Hneg].
    - destruct (Hpos1 Hpos) as (button & label & Hb & _ & ->).
      rewrite at_insert_Some by (by eexists).
      destruct (decide (Z.to_nat (ctl_slot c) = j)) as [<-|Hne]; [|by left].
      right. split; [lia|]. by eexists _, _.
    - rewrite Hneg1 by lia. by left. }
  assert (Hlen : length (prefixShortcutPlayButton w3) = length (prefixShortcutPlayButton w)).
  { rewrite Hbutton3, Hbutton2.
    destruct (decide (0 <= ctl_slot c)%Z) as [Hpos|Hneg].
    - destruct (Hpos1 Hpos) as (button & label & _ & _ & ->). by rewrite length_insert.
    - by rewrite Hneg1 by lia. }
  split.
  - destruct HR as [R1 R2 R3].
    constructor;
      change (prefixShortcutLabel (set_runnerWindow None w3)) with (prefixShortcutLabel w3);
      change (prefixShortcutPlayButton (set_runnerWindow None w3))
        with (prefixShortcutPlayButton w3);
      rewrite ?Hlabel3, ?Hlabel2, ?Hlabel1.
    + by rewrite Hlen.
    + intros i b Hb. apply at_Some in Hb.
      destruct (Hbuttons i) as [Hsame|(_ & button & b' & Hold & Hnew & Hslot & _)].
      * rewrite Hsame in Hb. apply at_Some_inv in Hb. by apply R2.
      * rewrite Hnew in Hb. injection Hb as <-. rewrite Hslot.
        apply at_Some_inv in Hold. by apply R2.
    + intros i. rewrite R3.
      destruct (Hbuttons i) as [Hsame|(_ & button & b' & Hold & Hnew & _)].
      * by rewrite Hsame.
      * rewrite Hold, Hnew. split; intros _; by eexists.
  - destruct HL as [L1 L2].
    destruct (removeOne_filter_NoDup (currentlyRunning w) (ctl_slot c) L1) as [Hnd Hgone].
    constructor;
      change (currentlyRunning (set_runnerWindow None w3)) with (currentlyRunning w3);
      change (umuController (set_runnerWindow None w3)) with (umuController w3);
      change (prefixShortcutPlayButton (set_runnerWindow None w3))
        with (prefixShortcutPlayButton w3);
      rewrite Hrun3, Hrun2, Hrun1.
    + exact Hnd.
    + intros slot b Hin Hb.
      assert (Hne : Z.of_nat slot <> ctl_slot c).
      { intros Heq. rewrite <- Heq in Hgone, Hin. apply Hgone; [lia|exact Hin]. }
      destruct (Hbuttons slot) as [Hsame|(Heq & _)]; [|done].
      rewrite Hsame in Hb.
      destruct (L2 slot b (removeOne_elem_of _ _ _ Hin) Hb) as (c' & Hc' & Hslot').
      exists c'. split; [|exact Hslot'].
      rewrite Hsome3.
      * rewrite Hctl2, Hctl1. rewrite list_lookup_insert_ne; [exact Hc'|].
        intros Heq. pose proof (Inv_live_thread w c HI Hlive) as Hcc.
        rewrite Heq in Hcc. congruence.
      * rewrite Hrun2, Hrun1. intros Hempty. rewrite Hempty in Hin.
        by apply elem_of_nil in Hin.
Qed.


(** *** The back button, additions and the settings of a shortcut *)

Lemma back_Consistent (w : Window) :
  Consistent w ->
  exists w', on_backButton_clicked w = Some w' /\ Consistent w'.
Proof.
  intros HC. pose proof HC as (HI & _ & _). unfold on_backButton_clicked.
  assert (Htoggle : Consistent (togglePage w)).
  { unfold togglePage. case_bool_decide; by apply (Consistent_ext w). }
  case_bool_decide as Hrunning.
  - destruct (negb (prefixIsSelected w && runnerPrefixIsDefault w)).
    + unfold stopAll.
      change (threadsCount (openRunnerWindow _ _ w)) with (threadsCount w).
      change (umuController (openRunnerWindow _ _ w)) with (umuController w).
      destruct (stopScan_spec (umuController w) (threadsCount w))
        as [(i & c & -> & _)|[-> _]]; [rewrite (inv_count w HI); lia| |];
        cbn [mbind option_bind]; eexists; (split; [reflexivity|]);
        by apply (Consistent_ext w).
    + by eexists.
  - destruct (negb (prefixIsSelected w)); by eexists.
Qed.

Lemma SetHeader_rows (prefix : string) (shortcutsCount : nat) (w : Window) :
  let w' := SetHeader prefix shortcutsCount w in
  threadsCount w' = threadsCount w /\ umuController w' = umuController w
  /\ currentlyRunning w' = currentlyRunning w /\ oneOffsRunning w' = oneOffsRunning w
  /\ prefixShortcutLabel w' = prefixShortcutLabel w
  /\ prefixShortcutPlayButton w' = prefixShortcutPlayButton w
  /\ fs w' = fs w.
Proof.
  cbn zeta. unfold SetHeader. destruct (String.eqb prefix EmptyString); repeat split.
Qed.

Lemma on_addButton_clicked_rows (fuel : nat) (candidate : nat -> string)
    (newApp : string) (shortcutAdd : NeroShortcutWizard) (w w' : Window) :
  on_addButton_clicked fuel candidate newApp shortcutAdd w = Some w' ->
  threadsCount w' = threadsCount w /\ umuController w' = umuController w
  /\ currentlyRunning w' = currentlyRunning w /\ oneOffsRunning w' = oneOffsRunning w
  /\ ((prefixShortcutLabel w' = prefixShortcutLabel w
       /\ prefixShortcutPlayButton w' = prefixShortcutPlayButton w)
      \/ exists button,
           prefixShortcutLabel w'
           = (prefixShortcutLabel w ++ [Some (shortcutName shortcutAdd)])%list
           /\ prefixShortcutPlayButton w'
              = (prefixShortcutPlayButton w ++ [Some button])%list
           /\ btn_slot button = length (prefixShortcutLabel w)).
Proof.
  unfold on_addButton_clicked.
  destruct (prefixIsSelected w); [|intros [= <-]; repeat split; by left].
  destruct (negb (String.eqb newApp EmptyString)
            && negb (String.eqb (appPath shortcutAdd) EmptyString));
    [|intros [= <-]; repeat split; by left].
  destruct (generateHash fuel (NeroFS.childKeys (fs w)) candidate 0) as [hashName|];
    [|discriminate].
  cbn [mbind option_bind].
  intros [= <-].
  match goal with |- context [SetHeader ?p ?n ?w0] =>
    destruct (SetHeader_rows p n w0) as (H1 & H2 & H3 & H4 & H5 & H6 & _)
  end.
  cbn zeta in *. rewrite H1, H2, H3, H4, H5, H6.
  destruct (String.eqb (appIcon shortcutAdd) EmptyString);
    (do 4 (split; [reflexivity|])); right; eexists;
    (split; [reflexivity|split; reflexivity]).
Qed.

Lemma add_Consistent (fuel : nat) (candidate : nat -> string)
    (newApp : string) (shortcutAdd : NeroShortcutWizard) (w : Window) :
  Consistent w -> offered (ActAdd fuel candidate newApp shortcutAdd) w ->
  exists w', perform (ActAdd fuel candidate newApp shortcutAdd) w = Some w'
             /\ Consistent w'.
Proof.
  intros HC [hashName Hhash]. pose proof HC as (HI & HR & HL). cbn [perform].
  assert (Hsome : is_Some (on_addButton_clicked fuel candidate newApp shortcutAdd w)).
  { unfold on_addButton_clicked. rewrite Hhash. cbn [mbind option_bind].
    destruct (prefixIsSelected w); [|by eexists].
    destruct (negb _ && negb _); by eexists. }
  destruct Hsome as [w' Hrun]. exists w'. split; [exact Hrun|].
  apply on_addButton_clicked_rows in Hrun
    as (Hcount & Hctl & Hrunning & Hone & [[Hlabel Hbutton]|(button & Hlabel & Hbutton & Hslot)]).
  { by apply (Consistent_ext w). }
  pose proof (rows_length w HR) as Hlen. split; [|split].
  - apply (Inv_mono w); try done.
    + intros j Hj. rewrite Hlabel, at_app_l; [exact Hj|by apply at_lt].
    + intros j Hj. rewrite Hbutton, at_app_l; [exact Hj|by apply at_lt].
  - destruct HR as [R1 R2 R3]. constructor; rewrite ?Hlabel, ?Hbutton.
    + rewrite !length_app. cbn. lia.
    + intros i b Hb. destruct (decide (i < length (prefixShortcutPlayButton w))%nat).
      * rewrite lookup_app_l in Hb by done. by apply R2.
      * rewrite lookup_app_r in Hb by lia.
        destruct (i - length (prefixShortcutPlayButton w))%nat as [|k] eqn:Hk;
          [|by destruct k].
        injection Hb as <-. lia.
    + intros i. unfold at_.
      destruct (decide (i < length (prefixShortcutPlayButton w))%nat).
      * rewrite !lookup_app_l by lia. apply R3.
      * rewrite !lookup_app_r by lia. rewrite Hlen.
        destruct (i - length (prefixShortcutPlayButton w))%nat as [|k]; cbn.
        -- split; intros _; by eexists.
        -- destruct k; cbn; split; intros [? ?]; done.
  - destruct HL as [L1 L2]. constructor; rewrite ?Hrunning, ?Hctl, ?Hbutton.
    + exact L1.
    + intros slot b Hin Hb.
      destruct (inv_slots w HI _ Hin) as [Hneg|(_ & _ & Hold)]; [lia|].
      rewrite Nat2Z.id in Hold. rewrite at_app_l in Hb by (by apply at_lt).
      by apply L2.
Qed.


Lemma renameShortcut_rows (slot : Z) (label appName : string) (w : Window) :
  is_Some (atZ (prefixShortcutPlayButton w) slot) ->
  exists w' button,
    renameShortcut slot label appName w = Some w'
    /\ atZ (prefixShortcutPlayButton w) slot = Some button
    /\ threadsCount w' = threadsCount w /\ umuController w' = umuController w
    /\ currentlyRunning w' = currentlyRunning w /\ oneOffsRunning w' = oneOffsRunning w
    /\ prefixShortcutLabel w' = <[Z.to_nat slot := Some appName]> (prefixShortcutLabel w)
    /\ prefixShortcutPlayButton w'
       = <[Z.to_nat slot :=
             Some (mkPlayButton (btn_icon button) ("Start " +:+ appName)
                     (btn_slot button) (btn_hash button) (btn_thread button))]>
           (prefixShortcutPlayButton w).
Proof.
  intros [button Hbutton]. unfold renameShortcut. cbn zeta.
  destruct (NeroFS.exists_ _ _);
    cbn [prefixShortcutPlayButton set_prefixShortcutLabel set_fs];
    rewrite Hbutton; cbn [mbind option_bind];
    eexists _, button; (split; [reflexivity|]); repeat split.
Qed.

Lemma deleteShortcutRow_rows (slot : Z) (label : string) (w : Window) :
  is_Some (prefixShortcutPlayButton w !! Z.to_nat slot) ->
  exists w',
    deleteShortcutRow slot label w = Some w'
    /\ threadsCount w' = threadsCount w /\ umuController w' = umuController w
    /\ currentlyRunning w' = currentlyRunning w /\ oneOffsRunning w' = oneOffsRunning w
    /\ prefixShortcutLabel w' = <[Z.to_nat slot := None]> (prefixShortcutLabel w)
    /\ prefixShortcutPlayButton w' = <[Z.to_nat slot := None]> (prefixShortcutPlayButton w).
Proof.
  intros [button Hbutton]. unfold deleteShortcutRow. cbn zeta.
  cbn [prefixShortcutPlayButton set_fs]. rewrite Hbutton. cbn [mbind option_bind].
  eexists. split; [reflexivity|].
  match goal with |- context [SetHeader ?p ?n ?w0] =>
    destruct (SetHeader_rows p n w0) as (H1 & H2 & H3 & H4 & H5 & H6 & _)
  end.
  cbn zeta in *. rewrite H1, H2, H3, H4, H5, H6. repeat split.
Qed.

Lemma atZ_at {A : Type} (l : list (option A)) (z : Z) :
  is_Some (atZ l z) -> (0 <= z)%Z /\ atZ l z = at_ l (Z.to_nat z).
Proof.
  unfold atZ. case_bool_decide; [done|]. by intros [? ?].
Qed.

Lemma at_insert_None {A : Type} (l : list (option A)) (i j : nat) :
  (i < length l)%nat ->
  at_ (<[i := None]> l) j = (if decide (i = j) then None else at_ l j).
Proof.
  intros Hi. unfold at_. destruct (decide (i = j)) as [<-|Hne].
  - by rewrite list_lookup_insert_eq.
  - by rewrite list_lookup_insert_ne.
Qed.

Lemma settings_Consistent (prefixSettings : NeroPrefixSettingsWindow) (w : Window) :
  Consistent w -> offered (ActSettings prefixSettings) w ->
  exists w', perform (ActSettings prefixSettings) w = Some w' /\ Consistent w'.
Proof.
  intros HC Hoffered. pose proof HC as (HI & HR & HL).
  cbn [perform]. unfold prefixSettings_result. cbn zeta.
  case_bool_decide as Hslot; [|by eexists].
  destruct Hoffered as [Hneg|[Hrow Hdelete]]; [lia|].
  destruct (atZ_at _ _ Hrow) as [_ Hat]. destruct Hrow as [label Hlabel].
  assert (Hlabel' : is_Some (at_ (prefixShortcutLabel w) (Z.to_nat (ps_slot prefixSettings))))
    by (rewrite <- Hat, Hlabel; by eexists).
  assert (Hbutton' : is_Some (at_ (prefixShortcutPlayButton w)
                                (Z.to_nat (ps_slot prefixSettings))))
    by (by apply (rows_both w HR)).
  pose proof (rows_length w HR) as Hlen.
  destruct (ps_result prefixSettings) eqn:Hresult; [by eexists| |];
    rewrite Hlabel; cbn [mbind option_bind].
  - destruct (negb (String.eqb (ps_appName prefixSettings) label)); [|by eexists].
    destruct (renameShortcut_rows (ps_slot prefixSettings) label
                (ps_appName prefixSettings) w)
      as (w' & button & Hrun & Hb & Hcount & Hctl & Hrunning & Hone & Hlabels & Hbuttons).
    { unfold atZ. rewrite bool_decide_eq_true_2 by done. exact Hbutton'. }
    unfold atZ in Hb. rewrite bool_decide_eq_true_2 in Hb by done.
    exists w'. split; [exact Hrun|]. split; [|split].
    + apply (Inv_mono w); try done.
      * intros j Hj. rewrite Hlabels. by apply at_insert_is_Some.
      * intros j Hj. rewrite Hbuttons. by apply at_insert_is_Some.
    + destruct HR as [R1 R2 R3]. constructor; rewrite ?Hlabels, ?Hbuttons.
      * by rewrite !length_insert.
      * intros i b Hi. apply at_Some in Hi. rewrite at_insert_Some in Hi by done.
        destruct (decide (Z.to_nat (ps_slot prefixSettings) = i)) as [<-|Hne].
        -- injection Hi as <-. cbn. apply R2. by apply at_Some_inv.
        -- apply R2. by apply at_Some_inv.
      * intros i. rewrite !at_insert_Some by done.
        destruct (decide (Z.to_nat (ps_slot prefixSettings) = i)); [|apply R3].
        split; intros _; by eexists.
    + destruct HL as [L1 L2]. constructor; rewrite ?Hrunning, ?Hctl, ?Hbuttons.
      * exact L1.
      * intros slot b Hin Hi. rewrite at_insert_Some in Hi by done.
        destruct (decide (Z.to_nat (ps_slot prefixSettings) = slot)) as [<-|Hne].
        -- injection Hi as <-. cbn [btn_thread]. by apply L2.
        -- by apply L2.
  - destruct (deleteShortcutRow_rows (ps_slot prefixSettings) label w)
      as (w' & Hrun & Hcount & Hctl & Hrunning & Hone & Hlabels & Hbuttons).
    { apply lookup_lt_is_Some. by apply at_lt. }
    specialize (Hdelete eq_refl).
    exists w'. split; [exact Hrun|]. split; [|split].
    + destruct HI as [I1 I2 I3 I4 I5].
      constructor; unfold live in *; rewrite ?Hcount, ?Hctl, ?Hrunning, ?Hone; try done.
      intros z Hz. rewrite Hdelete in Hz. by apply elem_of_nil in Hz.
    + destruct HR as [R1 R2 R3]. constructor; rewrite ?Hlabels, ?Hbuttons.
      * by rewrite !length_insert.
      * intros i b Hi. apply at_Some in Hi.
        rewrite at_insert_None in Hi by (by apply at_lt).
        destruct (decide (Z.to_nat (ps_slot prefixSettings) = i)); [done|].
        apply R2. by apply at_Some_inv.
      * intros i. rewrite !at_insert_None by (by apply at_lt).
        destruct (decide (Z.to_nat (ps_slot prefixSettings) = i)); [|apply R3].
        split; intros [? ?]; done.
    + constructor; rewrite ?Hrunning, ?Hdelete.
      * constructor.
      * intros slot b Hin. by apply elem_of_nil in Hin.
Qed.

Lemma handleUmuSignal_rows (signalType : RunnerStatus) (w : Window) :
  handleUmuSignal signalType w
  = set_runnerWindow (runnerWindow (handleUmuSignal signalType w)) w.
Proof. apply handleUmuSignal_step. Qed.

(** Every action that can happen in a consistent window runs its handler
    to the end and leaves a consistent window. *)
Lemma step_Consistent (a : Action) (w : Window) :
  Consistent w -> offered a w ->
  exists w', perform a w = Some w' /\ Consistent w'.
Proof.
  intros HC Hoffered. destruct a.
  - by apply play_Consistent.
  - eexists. split; [reflexivity|]. by apply oneTime_Consistent.
  - by apply exit_Consistent.
  - by apply back_Consistent.
  - by apply add_Consistent.
  - by apply settings_Consistent.
  - eexists. split; [reflexivity|]. cbn [perform].
    rewrite handleUmuSignal_rows. by apply (Consistent_ext w).
  - eexists. split; [reflexivity|]. destruct reason; by apply (Consistent_ext w).
  - eexists. split; [reflexivity|]. by apply (Consistent_ext w).
Qed.

Lemma Reachable_Consistent (w : Window) : Reachable w -> Consistent w.
Proof.
  induction 1 as [w Hidle Hrows|w w' a _ IH Hoffered Hrun].
  - split; [by apply Idle_Inv|]. split; [exact Hrows|by apply Idle_Linked].
  - destruct (step_Consistent a w IH Hoffered) as (w'' & Hrun' & HC).
    congruence.
Qed.


Lemma stopShortcut_fields (slot : nat) (label : string) (button : PlayButton)
    (c : NeroThreadController) (w : Window) :
  at_ (prefixShortcutLabel w) slot = Some label ->
  at_ (prefixShortcutPlayButton w) slot = Some button ->
  at_ (umuController w) (btn_thread button) = Some c ->
  exists w',
    stopShortcut slot w = Some w'
    /\ events w' = (events w ++ [Stop (btn_thread button)])%list
    /\ runnerWindow w'
       = Some (default (mkRunnerDialog false label None) (runnerWindow w))
    /\ threadsCount w' = threadsCount w /\ umuController w' = umuController w
    /\ currentlyRunning w' = currentlyRunning w /\ oneOffsRunning w' = oneOffsRunning w
    /\ prefixShortcutLabel w' = prefixShortcutLabel w
    /\ prefixShortcutPlayButton w' = prefixShortcutPlayButton w
    /\ fs w' = fs w.
Proof.
  intros Hlabel Hbutton Hc. unfold stopShortcut.
  destruct (runnerWindow w) as [dialog|] eqn:Hdialog.
  - cbn [mbind option_bind]. rewrite Hbutton. cbn [mbind option_bind].
    rewrite Hc. cbn [mbind option_bind].
    eexists. split; [reflexivity|]. cbn. rewrite Hdialog. repeat split.
  - rewrite Hlabel. cbn [mbind option_bind].
    change (at_ (prefixShortcutPlayButton (set_runnerWindow _ w)) slot)
      with (at_ (prefixShortcutPlayButton w) slot).
    rewrite Hbutton. cbn [mbind option_bind].
    change (at_ (umuController (set_runnerWindow _ w)) (btn_thread button))
      with (at_ (umuController w) (btn_thread button)).
    rewrite Hc. cbn [mbind option_bind].
    eexists. split; [reflexivity|]. repeat split.
Qed.

Lemma NoDup_filter_fmap_inj {A B : Type} (f : A -> B) (P : B -> Prop)
    `{forall y, Decision (P y)} (l : list A) (x x' : A) :
  NoDup (filter P (f <$> l)) -> x ∈ l -> x' ∈ l -> f x = f x' -> P (f x) -> x = x'.
Proof.
  induction l as [|y l IH]; intros Hnd Hx Hx' Heq HP; [by apply elem_of_nil in Hx|].
  rewrite fmap_cons, filter_cons in Hnd.
  assert (Hin : forall z, z ∈ l -> f z = f y -> P (f y) -> f y ∈ filter P (f <$> l)).
  { intros z Hz Hzy HPy. apply list_elem_of_filter. split; [exact HPy|].
    rewrite <- Hzy. by apply list_elem_of_fmap_2. }
  apply elem_of_cons in Hx as [->|Hx], Hx' as [->|Hx']; [done| | |].
  - rewrite decide_True in Hnd by done. apply NoDup_cons in Hnd as [Hnotin _].
    exfalso. apply Hnotin. by apply (Hin x').
  - rewrite decide_True in Hnd by (by rewrite <- Heq).
    apply NoDup_cons in Hnd as [Hnotin _].
    exfalso. apply Hnotin. apply (Hin x); [done|done|by rewrite <- Heq].
  - apply IH; try done. destruct (decide (P (f y))); [by apply NoDup_cons in Hnd as [_ ?]|done].
Qed.

(** X18. In every window reached from one in which nothing runs, by
    clicks on play buttons, one-time runs, results of live controllers, the
    back button, additions, results of the settings dialog (deletions only
    while nothing runs), status updates and clicks on the tray, the
    bookkeeping is consistent: the controllers, currentlyRunning and
    oneOffsRunning agree, every row has its label and its button with the
    index of the row as slot, and the play button of a shortcut that runs
    leads to a live controller made for its slot. *)
Theorem X18_reachable_windows_consistent (w : Window) :
  Reachable w -> Inv w /\ Rows w /\ Linked w.
Proof.
  induction 1 as [w Hidle Hrows|w w' a _ IH Hoffered Hrun].
  - split; [by apply Idle_Inv|]. split; [exact Hrows|by apply Idle_Linked].
  - destruct (step_Consistent a w IH Hoffered) as (w'' & Hrun' & HI & HR & HL).
    rewrite Hrun in Hrun'. apply (inj Some) in Hrun'. subst w''.
    split; [exact HI|]. split; [exact HR|exact HL].
Qed.

Lemma Example_window_Rows : Rows Example.window.
Proof.
  apply mkRows.
  - reflexivity.
  - intros i button Hbutton. destruct i as [|[|i]]; cbn in Hbutton.
    + by injection Hbutton as <-.
    + by injection Hbutton as <-.
    + discriminate.
  - intros i. destruct i as [|[|i]]; cbn.
    + split; intros _; by eexists.
    + split; intros _; by eexists.
    + split; intros [x Hx]; discriminate.
Qed.

Lemma Example_window_Reachable : Reachable Example.window.
Proof. apply reach_idle; [repeat split|apply Example_window_Rows]. Qed.

Lemma ExampleRuns_oneRunning_Reachable : Reachable ExampleRuns.oneRunning.
Proof.
  apply (reach_step Example.window ExampleRuns.oneRunning (ActPlay 0)).
  - apply Example_window_Reachable.
  - cbn. by eexists.
  - reflexivity.
Qed.

Lemma X18_reachable_windows_consistent_witness :
  Inv ExampleRuns.oneRunning /\ Rows ExampleRuns.oneRunning
  /\ Linked ExampleRuns.oneRunning.
Proof.
  apply X18_reachable_windows_consistent. apply ExampleRuns_oneRunning_Reachable.
Defined.

(** X19. No handler runs into an index out of range or a deleted row
    in such a window: every action that can happen there runs its handler
    to the end, and the window it leaves is again one of them. *)
Theorem X19_reachable_actions_run (w : Window) (a : Action) :
  Reachable w -> offered a w ->
  exists w', perform a w = Some w' /\ Reachable w'.
Proof.
  intros Hreach Hoffered.
  destruct (step_Consistent a w (Reachable_Consistent w Hreach) Hoffered)
    as (w' & Hrun & _).
  exists w'. split; [exact Hrun|]. by apply (reach_step w w' a).
Qed.

Lemma X19_reachable_actions_run_witness :
  exists w', perform (ActExit 0 0) ExampleRuns.oneRunning = Some w' /\ Reachable w'.
Proof.
  apply X19_reachable_actions_run.
  - apply ExampleRuns_oneRunning_Reachable.
  - cbn. by eexists.
Defined.

(** X20. In such a window a click on the play button of a shortcut
    that runs asks exactly one controller to stop: the one live controller
    that was made for the slot of the button.  The click changes neither
    the list of controllers nor currentlyRunning; the run is struck off
    when its result comes in. *)
Theorem X20_running_button_stops_own_run (w : Window) (slot : nat) :
  Reachable w -> Z.of_nat slot ∈ currentlyRunning w ->
  exists w' c,
    perform (ActPlay slot) w = Some w'
    /\ events w' = (events w ++ [Stop (ctl_thread c)])%list
    /\ umuController w !! ctl_thread c = Some (Some c)
    /\ ctl_slot c = Z.of_nat slot
    /\ (forall c', c' ∈ live w -> ctl_slot c' = Z.of_nat slot -> c' = c)
    /\ umuController w' = umuController w
    /\ currentlyRunning w' = currentlyRunning w.
Proof.
  intros Hreach Hrunning.
  destruct (Reachable_Consistent w Hreach) as (HI & HR & HL).
  destruct (inv_slots w HI _ Hrunning) as [Hneg|(_ & Hlabel & Hbutton)]; [lia|].
  rewrite Nat2Z.id in Hlabel, Hbutton.
  destruct Hlabel as [label Hlabel]. destruct Hbutton as [button Hbutton].
  destruct (linked_thread w HL slot button Hrunning Hbutton) as (c & Hc & Hslot).
  pose proof (inv_thread w HI _ _ Hc) as Hthread.
  destruct (stopShortcut_fields slot label button c w Hlabel Hbutton)
    as (w' & Hstop & Hevents & _ & _ & Hctl & Hrun & _); [by apply at_Some|].
  exists w', c. split.
  - cbn [perform]. rewrite Hbutton. cbn [mbind option_bind].
    unfold prefixShortcutPlayButtons_clicked.
    rewrite (rows_slot w HR slot button) by (by apply at_Some_inv).
    by rewrite bool_decide_eq_true_2.
  - rewrite Hthread. do 3 (split; [done|]). split; [|done].
    intros c' Hc' Hslot'.
    apply (NoDup_filter_fmap_inj ctl_slot (fun z => (0 <= z)%Z) (live w)).
    + rewrite (inv_running w HI). apply (linked_once w HL).
    + exact Hc'.
    + apply live_lookup. by eexists.
    + congruence.
    + lia.
Qed.

Lemma X20_running_button_stops_own_run_witness :
  exists w',
    perform (ActPlay 0) ExampleRuns.oneRunning = Some w'
    /\ last (events w') = Some (Stop 0).
Proof.
  destruct (X20_running_button_stops_own_run ExampleRuns.oneRunning 0)
    as (w' & c & Hrun & Hevents & Hc & _).
  - apply ExampleRuns_oneRunning_Reachable.
  - cbn. apply list_elem_of_here.
  - exists w'. split; [exact Hrun|]. rewrite Hevents, last_snoc. do 2 f_equal.
    assert (Hlt : (ctl_thread c < 1)%nat) by (by apply lookup_lt_Some in Hc).
    lia.
Defined.


(** X21. A shortcut started while nothing runs and then ended leaves
    the window as a window in which nothing runs: the play button of the
    row shows the start icon and the start tool tip again, with the slot
    and the hash it had, the lists of controllers and of runs are empty,
    the tray shows the idle icon and the neutral text, the buttons for the
    settings and the components of the prefix are enabled, the runner
    dialog is closed, and the store is untouched. *)
Theorem X21_launch_then_exit_restores (w : Window) (slot : nat) (button : PlayButton)
    (label : string) (result : Z) :
  Reachable w -> currentlyRunning w = [] ->
  at_ (prefixShortcutPlayButton w) slot = Some button ->
  at_ (prefixShortcutLabel w) slot = Some label ->
  NeroFS.exists_ (fs w) (launchTarget (fs w) (btn_hash button)) = true ->
  exists w1 w2 thread,
    perform (ActPlay slot) w = Some w1
    /\ events w1 = (events w ++ [Operate thread])%list
    /\ perform (ActExit thread result) w1 = Some w2
    /\ Idle w2
    /\ prefixShortcutLabel w2 = prefixShortcutLabel w
    /\ prefixShortcutPlayButton w2
       = <[slot := Some (mkPlayButton "media-playback-start" ("Start " +:+ label)
                           slot (btn_hash button) thread)]>
           (prefixShortcutPlayButton w)
    /\ toolTip (sysTray w2) = "Nero Manager"
    /\ trayIcon (sysTray w2) = ":/ico/systrayPhi"
    /\ prefixSettingsBtnEnabled (ui w2) = true
    /\ prefixTricksBtnEnabled (ui w2) = true
    /\ runnerWindow w2 = None
    /\ fs w2 = fs w
    /\ events w2 = events w1.
Proof.
  intros Hreach Hidle Hbutton Hlabel Hexists.
  destruct (Reachable_Consistent w Hreach) as (HI & HR & HL).
  pose proof (rows_slot w HR slot button (at_Some_inv _ _ _ Hbutton)) as Hslot.
  set (w1 := launched button button label w).
  set (thread := (threadsCount w + 1 - 1)%nat).
  set (c := mkController (Z.of_nat slot) (btn_hash button) false [] thread EmptyString).
  assert (Hplay : perform (ActPlay slot) w = Some w1).
  { cbn [perform]. rewrite Hbutton. cbn [mbind option_bind].
    unfold prefixShortcutPlayButtons_clicked. rewrite Hslot, Hidle.
    rewrite bool_decide_eq_false_2 by apply not_elem_of_nil.
    rewrite Hexists. unfold launchShortcut. rewrite Hslot, Hbutton, Hlabel. reflexivity. }
  destruct (launched_fields button button label w)
    as (Hcount1 & Hctl1 & Hrun1 & Hone1 & Hlabels1 & Hbuttons1 & Hfs1 & _ & Hevents1 & _).
  cbn zeta in *. fold w1 thread in Hcount1, Hctl1, Hrun1, Hone1, Hlabels1, Hbuttons1,
    Hfs1, Hevents1.
  rewrite Hslot, Hidle in *. cbn [app length] in Hctl1.
  rewrite bool_decide_eq_false_2 in Hctl1 by lia. fold c in Hctl1.
  assert (Hthread : thread = length (umuController w)).
  { unfold thread. rewrite (inv_count w HI). lia. }
  assert (Hc : at_ (umuController w1) thread = Some c).
  { unfold at_. rewrite Hctl1, Hthread, lookup_app_r by lia.
    by rewrite Nat.sub_diag. }
  assert (Hreach1 : Reachable w1).
  { apply (reach_step w w1 (ActPlay slot)); [done|cbn; by eexists|done]. }
  destruct (step_Consistent (ActExit thread result) w1 (Reachable_Consistent w1 Hreach1))
    as (w2 & Hexit & _); [cbn; by eexists|].
  exists w1, w2, thread. split; [exact Hplay|]. split; [exact Hevents1|].
  split; [exact Hexit|].
  cbn [perform] in Hexit. rewrite Hc in Hexit. cbn [mbind option_bind] in Hexit.
  unfold handleUmuResults in Hexit.
  destruct (releaseRun c (ctl_slot c) w1) as [w1'|] eqn:H1; [|discriminate].
  cbn [mbind option_bind] in Hexit.
  destruct (retireController (ctl_thread c) (ctl_slot c) w1') as [w2'|] eqn:H2;
    [|discriminate].
  cbn [mbind option_bind] in Hexit.
  destruct (refreshStatus w2') as [w3|] eqn:H3; [|discriminate].
  cbn [mbind option_bind] in Hexit. injection Hexit as <-.
  assert (Hone1' : oneOffsRunning w1' = oneOffsRunning w1).
  { unfold releaseRun in H1. cbn [ctl_slot c] in H1.
    rewrite bool_decide_eq_true_2 in H1 by lia.
    destruct (at_ (prefixShortcutPlayButton w1) (Z.to_nat (Z.of_nat slot)));
      [|discriminate].
    destruct (at_ (prefixShortcutLabel w1) (Z.to_nat (Z.of_nat slot)));
      [|discriminate].
    cbn [mbind option_bind] in H1. by injection H1 as <-. }
  assert (Hevents1' : events w1' = events w1 /\ threadsCount w1' = threadsCount w1).
  { unfold releaseRun in H1. cbn [ctl_slot c] in H1.
    rewrite bool_decide_eq_true_2 in H1 by lia.
    destruct (at_ (prefixShortcutPlayButton w1) (Z.to_nat (Z.of_nat slot)));
      [|discriminate].
    destruct (at_ (prefixShortcutLabel w1) (Z.to_nat (Z.of_nat slot)));
      [|discriminate].
    cbn [mbind option_bind] in H1. by injection H1 as <-. }
  assert (H2' : oneOffsRunning w2' = oneOffsRunning w1' /\ events w2' = events w1').
  { unfold retireController in H2. destruct (umuController w1' !! ctl_thread c);
      [|discriminate].
    cbn [mbind option_bind] in H2. by injection H2 as <-. }
  apply releaseRun_rows in H1
    as (Hlabel1' & Hctl1' & Hrun1' & Hfs1' & _ & _ & _ & Hpos1 & _).
  apply retireController_rows in H2
    as (Hlabel2 & Hbutton2 & Hctl2 & Hrun2 & Hfs2 & _).
  assert (Hrun2' : currentlyRunning w2' = []).
  { rewrite Hrun2, Hrun1', Hrun1. cbn. by rewrite decide_True. }
  assert (H3' : oneOffsRunning w3 = oneOffsRunning w2' /\ events w3 = events w2').
  { unfold refreshStatus in H3. rewrite Hrun2' in H3. injection H3 as <-.
    unfold resetRuns. destruct (prefixIsSelected _); split; reflexivity. }
  apply refreshStatus_rows in H3 as (Hlabel3 & Hbutton3 & Hrun3 & Hfs3 & Hnone3 & _).
  destruct (Hnone3 Hrun2') as (Hctl3 & Hcount3 & Hicon3 & Htip3 & Hsettings3 & Htricks3 & _).
  destruct (Hpos1 ltac:(cbn; lia)) as (b1 & l1 & Hb1 & Hl1 & Hbuttons1').
  cbn [ctl_slot c] in Hb1, Hl1, Hbuttons1'. rewrite Nat2Z.id in Hb1, Hl1, Hbuttons1'.
  rewrite Hbuttons1, at_insert_Some in Hb1 by (by eexists).
  rewrite decide_True in Hb1 by done. injection Hb1 as <-.
  rewrite Hlabels1, Hlabel in Hl1. injection Hl1 as <-.
  cbn [btn_slot btn_hash btn_thread] in Hbuttons1'.
  assert (Hnone : oneOffsRunning w = []).
  { pose proof (inv_oneOffs w HI) as Hperm.
    rewrite (Inv_nothing_live w HI Hidle) in Hperm. cbn in Hperm.
    by apply Permutation_nil in Hperm. }
  split.
  { repeat split.
    - exact Hcount3.
    - exact Hctl3.
    - change (currentlyRunning w3 = []). by rewrite Hrun3.
    - change (oneOffsRunning w3 = []).
      destruct H3' as [-> _], H2' as [-> _]. by rewrite Hone1', Hone1. }
  change (prefixShortcutLabel (set_runnerWindow None w3)) with (prefixShortcutLabel w3).
  change (prefixShortcutPlayButton (set_runnerWindow None w3))
    with (prefixShortcutPlayButton w3).
  change (sysTray (set_runnerWindow None w3)) with (sysTray w3).
  change (ui (set_runnerWindow None w3)) with (ui w3).
  change (fs (set_runnerWindow None w3)) with (fs w3).
  change (events (set_runnerWindow None w3)) with (events w3).
  split; [by rewrite Hlabel3, Hlabel2, Hlabel1', Hlabels1|].
  split.
  { by rewrite Hbutton3, Hbutton2, Hbuttons1', Hbuttons1, list_insert_insert_eq. }
  do 4 (split; [done|]). split; [reflexivity|].
  split; [by rewrite Hfs3, Hfs2, Hfs1', Hfs1|].
  destruct H3' as [_ ->], H2' as [_ ->], Hevents1' as [-> _]. reflexivity.
Qed.

Lemma X21_launch_then_exit_restores_witness :
  exists w1 w2 thread,
    perform (ActPlay 0) Example.window = Some w1
    /\ perform (ActExit thread 0) w1 = Some w2
    /\ Idle w2
    /\ prefixShortcutLabel w2 = [Some "Notepad"; Some "Solitaire"].
Proof.
  destruct (X21_launch_then_exit_restores Example.window 0 Example.notepadButton "Notepad" 0%Z
              Example_window_Reachable eq_refl eq_refl eq_refl eq_refl)
    as (w1 & w2 & thread & Hplay & _ & Hexit & Hidle & Hlabels & _).
  exists w1, w2, thread. split; [exact Hplay|]. split; [exact Hexit|].
  split; [exact Hidle|exact Hlabels].
Defined.

(** ** The rows a rendering makes *)

Lemma renderButtons_lookup (hashMap : gmap string string) (names : list string) (i j : nat) :
  renderButtons hashMap i names !! j
  = (fun name =>
       Some (mkPlayButton "media-playback-start" ("Start " +:+ name) (i + j)
               (default EmptyString (hashMap !! name)) 0)) <$> names !! j.
Proof.
  revert i j. induction names as [|name names IH]; intros i j; [reflexivity|].
  cbn [renderButtons]. destruct j as [|j]; cbn.
  - by rewrite Nat.add_0_r.
  - rewrite IH. by replace (S i + j)%nat with (i + S j)%nat by lia.
Qed.

Lemma renderButtons_length (hashMap : gmap string string) (names : list string) (i : nat) :
  length (renderButtons hashMap i names) = length names.
Proof.
  revert i. induction names as [|name names IH]; intros i; [reflexivity|].
  cbn [renderButtons length]. by rewrite IH.
Qed.

Lemma RenderPrefixList_buttons (w : Window) :
  prefixShortcutPlayButton (RenderPrefixList w)
  = (prefixShortcutPlayButton w
     ++ renderButtons (NeroFS.GetCurrentShortcutsMap (fs w)) 0
          (sort_ci (NeroFS.GetCurrentPrefixShortcuts (fs w))))%list.
Proof.
  unfold RenderPrefixList, NeroFS.childKeys, NeroFS.GetCurrentPrefixShortcuts.
  case_bool_decide as Hkeys; [|reflexivity].
  apply fmap_nil_inv in Hkeys. rewrite Hkeys. cbn. by rewrite app_nil_r.
Qed.

Lemma RenderPrefixList_runs (w : Window) :
  threadsCount (RenderPrefixList w) = threadsCount w
  /\ umuController (RenderPrefixList w) = umuController w
  /\ currentlyRunning (RenderPrefixList w) = currentlyRunning w
  /\ oneOffsRunning (RenderPrefixList w) = oneOffsRunning w
  /\ fs (RenderPrefixList w) = fs w
  /\ managerCfg (RenderPrefixList w) = managerCfg w.
Proof. unfold RenderPrefixList. case_bool_decide; repeat split. Qed.

(** A rendering into empty lists. *)
Lemma RenderPrefixList_fresh (w0 : Window) :
  prefixShortcutLabel w0 = [] -> prefixShortcutPlayButton w0 = [] ->
  let names := sort_ci (NeroFS.GetCurrentPrefixShortcuts (fs w0)) in
  let w' := RenderPrefixList w0 in
  Rows w'
  /\ prefixShortcutLabel w' = Some <$> names
  /\ forall i,
       prefixShortcutPlayButton w' !! i
       = (fun name =>
            Some (mkPlayButton "media-playback-start" ("Start " +:+ name) i
                    (default EmptyString
                       (NeroFS.GetCurrentShortcutsMap (fs w0) !! name)) 0))
           <$> names !! i.
Proof.
  intros Hnolabel Hnobutton. cbn zeta.
  pose proof (RenderPrefixList_labels w0) as Hlabels.
  pose proof (RenderPrefixList_buttons w0) as Hbuttons.
  rewrite Hnolabel in Hlabels. rewrite Hnobutton in Hbuttons.
  cbn [app] in Hlabels, Hbuttons.
  set (names := sort_ci (NeroFS.GetCurrentPrefixShortcuts (fs w0))) in *.
  assert (Hbutton : forall i,
             prefixShortcutPlayButton (RenderPrefixList w0) !! i
             = (fun name =>
                  Some (mkPlayButton "media-playback-start" ("Start " +:+ name) i
                          (default EmptyString
                             (NeroFS.GetCurrentShortcutsMap (fs w0) !! name)) 0))
                 <$> names !! i).
  { intros i. by rewrite Hbuttons, renderButtons_lookup. }
  split; [|split; [exact Hlabels|exact Hbutton]].
  constructor.
  - by rewrite Hlabels, Hbuttons, renderButtons_length, length_fmap.
  - intros i button. rewrite Hbutton. destruct (names !! i); cbn; [|done].
    by intros [= <-].
  - intros i. unfold at_. rewrite Hbutton, Hlabels, list_lookup_fmap.
    destruct (names !! i); cbn.
    + split; intros _; by eexists.
    + split; intros [? ?]; discriminate.
Qed.

(** Right after the list was rendered, the map from display names to
    hashes holds, for the label of every row, the hash on the play button
    of the row: the rows meet the premise under which a renaming rewrites
    the entry of the shortcut renamed. *)
Lemma RenderPrefixList_own_hash (w0 : Window) (i : nat) (label : string)
    (button : PlayButton) :
  prefixShortcutLabel w0 = [] -> prefixShortcutPlayButton w0 = [] ->
  prefixShortcutLabel (RenderPrefixList w0) !! i = Some (Some label) ->
  prefixShortcutPlayButton (RenderPrefixList w0) !! i = Some (Some button) ->
  NeroFS.GetCurrentShortcutsMap (fs (RenderPrefixList w0)) !! label
  = Some (btn_hash button).
Proof.
  intros Hnolabel Hnobutton Hlabel Hbutton.
  destruct (RenderPrefixList_fresh w0 Hnolabel Hnobutton) as (_ & Hlabels & Hbuttons).
  destruct (RenderPrefixList_runs w0) as (_ & _ & _ & _ & -> & _).
  cbn zeta in *.
  rewrite Hlabels, list_lookup_fmap in Hlabel. rewrite Hbuttons in Hbutton.
  destruct (sort_ci (NeroFS.GetCurrentPrefixShortcuts (fs w0)) !! i) as [name|] eqn:Hname;
    [|discriminate].
  cbn in Hlabel, Hbutton. injection Hlabel as ->. injection Hbutton as <-.
  cbn [btn_hash].
  assert (Hin : label ∈ NeroFS.GetCurrentPrefixShortcuts (fs w0)).
  { rewrite <- (sort_ci_perm (NeroFS.GetCurrentPrefixShortcuts (fs w0))).
    by apply list_elem_of_lookup_2 in Hname. }
  unfold NeroFS.GetCurrentPrefixShortcuts in Hin.
  apply list_elem_of_fmap in Hin as ([hash name'] & Heq & Hin).
  cbn [snd] in Heq. subst name'.
  destruct (NeroFS.GetCurrentShortcutsMap (fs w0) !! label) as [found|] eqn:Hmap;
    [reflexivity|].
  unfold NeroFS.GetCurrentShortcutsMap in Hmap.
  apply not_elem_of_list_to_map in Hmap. exfalso. apply Hmap.
  rewrite <- list_fmap_compose. apply list_elem_of_fmap.
  by exists (hash, label).
Qed.

(** X22. After the rows were cleaned up and the list of the current
    prefix rendered, there is one row per shortcut of the store, and every
    row is well formed: its play button shows the start icon, is named
    after the label of the row and carries the index of the row as slot.
    When the display names of the prefix differ from each other, the hash
    on the button is the hash the store holds for the name on the label.
    Rendered while nothing runs, the window is one of those the actions
    start from. *)
Theorem X22_RenderPrefixList_rows (w w0 : Window) :
  CleanupShortcuts w = Some w0 ->
  let w' := RenderPrefixList w0 in
  Rows w'
  /\ length (prefixShortcutLabel w') = length (NeroFS.shortcuts (fs w))
  /\ (forall i name,
      prefixShortcutLabel w' !! i = Some (Some name) ->
      exists button,
        prefixShortcutPlayButton w' !! i = Some (Some button)
        /\ btn_slot button = i
        /\ btn_icon button = "media-playback-start"
        /\ btn_toolTip button = "Start " +:+ name
        /\ (NoDup (NeroFS.GetCurrentPrefixShortcuts (fs w)) ->
            (btn_hash button, name) ∈ NeroFS.shortcuts (fs w)))
  /\ (Idle w -> Reachable w').
Proof.
  unfold CleanupShortcuts. case_bool_decide; [|discriminate]. intros [= <-].
  set (w0 := set_prefixShortcutPlayButton [] (set_prefixShortcutLabel [] w)).
  cbn zeta.
  destruct (RenderPrefixList_fresh w0 eq_refl eq_refl) as (HR & Hlabels & Hbutton).
  cbn zeta in *. change (fs w0) with (fs w) in Hlabels, Hbutton.
  set (names := sort_ci (NeroFS.GetCurrentPrefixShortcuts (fs w))) in *.
  assert (Hrow : forall i name,
             prefixShortcutLabel (RenderPrefixList w0) !! i = Some (Some name) ->
             names !! i = Some name).
  { intros i name. rewrite Hlabels, list_lookup_fmap.
    destruct (names !! i); cbn; congruence. }
  split; [exact HR|]. split; [|split].
  - rewrite Hlabels, length_fmap. unfold names.
    rewrite (Permutation_length (sort_ci_perm _)).
    unfold NeroFS.GetCurrentPrefixShortcuts. by rewrite length_fmap.
  - intros i name Hname. apply Hrow in Hname. rewrite Hbutton, Hname.
    cbn [fmap option_fmap option_map].
    eexists. split; [reflexivity|].
    cbn [btn_hash btn_slot btn_icon btn_toolTip]. do 3 (split; [reflexivity|]).
    intros Hnd.
    assert (Hin : name ∈ NeroFS.GetCurrentPrefixShortcuts (fs w)).
    { rewrite <- (sort_ci_perm (NeroFS.GetCurrentPrefixShortcuts (fs w))).
      by apply list_elem_of_lookup_2 in Hname. }
    unfold NeroFS.GetCurrentPrefixShortcuts in Hin.
    apply list_elem_of_fmap in Hin as ([hash name'] & Heq & Hin).
    cbn [snd] in Heq. subst name'.
    rewrite (GetCurrentShortcutsMap_lookup (fs w) hash name Hnd Hin). exact Hin.
  - intros (I1 & I2 & I3 & I4).
    destruct (RenderPrefixList_runs w0) as (H1 & H2 & H3 & H4 & _).
    apply reach_idle; [|exact HR]. unfold Idle. by rewrite H1, H2, H3, H4.
Qed.

Lemma X22_RenderPrefixList_rows_witness :
  exists w0,
    CleanupShortcuts ExampleNames.upperFirst = Some w0
    /\ Rows (RenderPrefixList w0)
    /\ length (prefixShortcutLabel (RenderPrefixList w0)) = 2%nat.
Proof.
  eexists. split; [reflexivity|].
  match goal with |- Rows (RenderPrefixList ?w0) /\ _ =>
    destruct (X22_RenderPrefixList_rows ExampleNames.upperFirst w0 eq_refl)
      as (Hrows & Hlength & _)
  end.
  split; [exact Hrows|exact Hlength].
Defined.

(** ** The installation of components *)

(** X23. The result of the tricks dialog starts a child process only
    when the dialog was accepted and the question confirmed; otherwise the
    window is left as it is.  When the process has run, the tray shows the
    idle icon, and one message was shown if the tray supports messages: the
    warning about an error when the exit code is not 0, the note that the
    installation finished when it is 0.  The registered prefixes, the
    shortcuts of the prefix and the rows of the window are not touched. *)
Theorem X23_tricksWindow_result_outcome (systemEnvironment : gmap string string)
    (run : ProcessRun) (confirmed : bool) (tricks : NeroTricksWindow) (w : Window) :
  let started := (tricksWindow_result systemEnvironment run confirmed tricks w).1 in
  let w' := (tricksWindow_result systemEnvironment run confirmed tricks w).2 in
  (is_Some started <-> tricks_result tricks = Accepted /\ confirmed = true)
  /\ (started = None -> w' = w)
  /\ (is_Some started ->
      trayIcon (sysTray w') = ":/ico/systrayPhi"
      /\ NeroFS.files (fs w') = filesAfter run
      /\ (supportsMessages (sysTray w) = false ->
          messages (sysTray w') = messages (sysTray w))
      /\ (supportsMessages (sysTray w) = true ->
          exists text,
            messages (sysTray w')
            = (messages (sysTray w)
               ++ [(if bool_decide (exitCode run = 0%Z)
                    then "Finished Installing Winetricks"
                    else "Winetricks Installation Returned An Error", text)])%list))
  /\ NeroFS.prefixes (fs w') = NeroFS.prefixes (fs w)
  /\ NeroFS.shortcuts (fs w') = NeroFS.shortcuts (fs w)
  /\ prefixShortcutLabel w' = prefixShortcutLabel w
  /\ prefixShortcutPlayButton w' = prefixShortcutPlayButton w
  /\ currentlyRunning w' = currentlyRunning w.
Proof.
  cbn zeta. unfold tricksWindow_result.
  destruct (tricks_result tricks) eqn:Hresult;
    try (split; [split; [by intros [? ?]|by intros [? ?]]|];
         split; [done|]; split; [by intros [? ?]|]; repeat split).
  destruct confirmed.
  2:{ split; [split; [by intros [? ?]|by intros [? ?]]|].
      split; [done|]. split; [by intros [? ?]|]. repeat split. }
  cbn [fst snd]. split; [split; [done|by eexists]|]. split; [done|].
  split; [|repeat split].
  intros _. unfold showMessage.
  case_bool_decide as Hcode; cbn [negb];
    destruct (supportsMessages (sysTray w)) eqn:Hsupports; cbn;
    rewrite ?Hsupports; cbn; repeat split; try done; intros _; by eexists.
Qed.

(** ** Choosing a prefix *)

Section Choose.

Variable SetCurrentPrefix : string -> NeroFS.t -> NeroFS.t.
Variable SetCurrentPrefixCfg : string -> string -> string -> NeroFS.t -> NeroFS.t.
Variable GetCurrentRunner : NeroFS.t -> string.
Variable availableProtons : list string.

Lemma renderChosenPrefix_same (text : string) (w : Window) :
  NeroFS.currentPrefix (fs w) = text ->
  renderChosenPrefix SetCurrentPrefix SetCurrentPrefixCfg GetCurrentRunner
    availableProtons text w = Some (w, false).
Proof.
  intros Hcurrent. unfold renderChosenPrefix.
  apply String.eqb_eq in Hcurrent. by rewrite Hcurrent.
Qed.

Lemma renderChosenPrefix_other (text : string) (w : Window) :
  NeroFS.currentPrefix (fs w) <> text ->
  (length (prefixShortcutLabel w) <= length (prefixShortcutPlayButton w))%nat ->
  (prefixShortcutLabel w = [] -> prefixShortcutPlayButton w = []) ->
  exists w0,
    prefixShortcutLabel w0 = [] /\ prefixShortcutPlayButton w0 = []
    /\ fs w0 = SetCurrentPrefix text (fs w)
    /\ threadsCount w0 = threadsCount w /\ umuController w0 = umuController w
    /\ currentlyRunning w0 = currentlyRunning w
    /\ oneOffsRunning w0 = oneOffsRunning w
    /\ managerCfg w0 = managerCfg w
    /\ renderChosenPrefix SetCurrentPrefix SetCurrentPrefixCfg GetCurrentRunner
         availableProtons text w
       = if bool_decide (GetCurrentRunner (SetCurrentPrefix text (fs w))
                         ∈ availableProtons)
         then Some (RenderPrefixList w0, false)
         else first ← head availableProtons;
              Some (set_fs (SetCurrentPrefix text
                             (SetCurrentPrefixCfg "PrefixSettings" "CurrentRunner" first
                                (SetCurrentPrefix text (fs w))))
                      (RenderPrefixList w0), true).
Proof.
  intros Hcurrent Hlength Hempty. unfold renderChosenPrefix.
  apply String.eqb_neq in Hcurrent. rewrite Hcurrent. cbn [negb].
  assert (Hclean : exists w1,
             (if negb (bool_decide (length (prefixShortcutLabel w) = 0%nat))
              then CleanupShortcuts w else Some w) = Some w1
             /\ prefixShortcutLabel w1 = [] /\ prefixShortcutPlayButton w1 = []
             /\ fs w1 = fs w
             /\ threadsCount w1 = threadsCount w /\ umuController w1 = umuController w
             /\ currentlyRunning w1 = currentlyRunning w
             /\ oneOffsRunning w1 = oneOffsRunning w
             /\ managerCfg w1 = managerCfg w).
  { case_bool_decide as Hnone; cbn [negb].
    - apply nil_length_inv in Hnone. exists w. by repeat split; auto.
    - unfold CleanupShortcuts. rewrite bool_decide_eq_true_2 by exact Hlength.
      eexists. split; [reflexivity|]. by repeat split. }
  destruct Hclean as (w1 & -> & Hl & Hb & Hfs & H1 & H2 & H3 & H4 & H5).
  cbn [mbind option_bind].
  remember (set_fs (SetCurrentPrefix text (fs w1)) w1) as w0 eqn:E.
  assert (Hfs0 : fs w0 = SetCurrentPrefix text (fs w)) by (by rewrite E, <- Hfs).
  assert (Hfields : prefixShortcutLabel w0 = [] /\ prefixShortcutPlayButton w0 = []
                    /\ threadsCount w0 = threadsCount w
                    /\ umuController w0 = umuController w
                    /\ currentlyRunning w0 = currentlyRunning w
                    /\ oneOffsRunning w0 = oneOffsRunning w
                    /\ managerCfg w0 = managerCfg w).
  { rewrite E. by repeat split. }
  clear E. destruct Hfields as (G1 & G2 & G3 & G4 & G5 & G6 & G7).
  exists w0. do 8 (split; [assumption|]).
  destruct (RenderPrefixList_runs w0) as (_ & _ & _ & _ & Hfsr & _).
  rewrite Hfsr, Hfs0.
  case_bool_decide; cbn [negb]; [reflexivity|].
  destruct (head availableProtons) as [first|]; [|reflexivity].
  reflexivity.
Qed.

Lemma renderChosenPrefix_runs (text : string) (w : Window) (rendered : Window * bool) :
  renderChosenPrefix SetCurrentPrefix SetCurrentPrefixCfg GetCurrentRunner
    availableProtons text w = Some rendered ->
  threadsCount rendered.1 = threadsCount w
  /\ umuController rendered.1 = umuController w
  /\ currentlyRunning rendered.1 = currentlyRunning w
  /\ oneOffsRunning rendered.1 = oneOffsRunning w
  /\ managerCfg rendered.1 = managerCfg w.
Proof.
  unfold renderChosenPrefix.
  destruct (String.eqb (NeroFS.currentPrefix (fs w)) text); cbn [negb].
  { by intros [= <-]. }
  destruct (if negb (bool_decide (length (prefixShortcutLabel w) = 0%nat))
            then CleanupShortcuts w else Some w) as [w1|] eqn:Hclean; [|discriminate].
  assert (H1 : threadsCount w1 = threadsCount w /\ umuController w1 = umuController w
               /\ currentlyRunning w1 = currentlyRunning w
               /\ oneOffsRunning w1 = oneOffsRunning w
               /\ managerCfg w1 = managerCfg w).
  { destruct (negb (bool_decide (length (prefixShortcutLabel w) = 0%nat))).
    - unfold CleanupShortcuts in Hclean. case_bool_decide; [|discriminate].
      injection Hclean as <-. by repeat split.
    - injection Hclean as <-. by repeat split. }
  clear Hclean. cbn [mbind option_bind].
  remember (set_fs (SetCurrentPrefix text (fs w1)) w1) as w0 eqn:E.
  assert (H0 : threadsCount w0 = threadsCount w1 /\ umuController w0 = umuController w1
               /\ currentlyRunning w0 = currentlyRunning w1
               /\ oneOffsRunning w0 = oneOffsRunning w1
               /\ managerCfg w0 = managerCfg w1).
  { rewrite E. by repeat split. }
  clear E.
  destruct (RenderPrefixList_runs w0) as (R1 & R2 & R3 & R4 & _ & R5).
  destruct H1 as (A1 & A2 & A3 & A4 & A5), H0 as (B1 & B2 & B3 & B4 & B5).
  remember (RenderPrefixList w0) as wr eqn:E. clear E.
  destruct (negb (bool_decide (GetCurrentRunner (fs wr) ∈ availableProtons))).
  - destruct (head availableProtons) as [first|]; [|discriminate].
    cbn [mbind option_bind]. intros [= <-]. cbn [fst].
    change (threadsCount wr = threadsCount w /\ umuController wr = umuController w
            /\ currentlyRunning wr = currentlyRunning w
            /\ oneOffsRunning wr = oneOffsRunning w /\ managerCfg wr = managerCfg w).
    repeat split; congruence.
  - intros [= <-]. cbn [fst]. repeat split; congruence.
Qed.

Lemma chosen_tail_fields (winetricks : string) (r : Window) :
  let h := SetHeader (NeroFS.currentPrefix (fs r))
             (length (NeroFS.GetCurrentPrefixShortcuts (fs r))) r in
  let c := (CheckWinetricks winetricks h).1 in
  threadsCount c = threadsCount r /\ umuController c = umuController r
  /\ currentlyRunning c = currentlyRunning r /\ oneOffsRunning c = oneOffsRunning r
  /\ prefixShortcutLabel c = prefixShortcutLabel r
  /\ prefixShortcutPlayButton c = prefixShortcutPlayButton r
  /\ fs c = fs r /\ managerCfg c = managerCfg r
  /\ prefixIsSelected c = negb (String.eqb (NeroFS.currentPrefix (fs r)) EmptyString)
  /\ (CheckWinetricks winetricks h).2
     = (if String.eqb winetricks EmptyString
        then mkTricksButton "Winetricks Not Found" "color: red"
        else mkTricksButton "Install Winetricks Components" EmptyString)
  /\ prefixTricksBtnEnabled (ui c) = negb (String.eqb winetricks EmptyString).
Proof.
  cbn zeta. unfold CheckWinetricks, SetHeader.
  destruct (String.eqb winetricks EmptyString),
    (String.eqb (NeroFS.currentPrefix (fs r)) EmptyString); by repeat split.
Qed.

Lemma prefixMainButtons_clicked_inv (winetricks text : string) (w : Window) :
  match prefixMainButtons_clicked SetCurrentPrefix SetCurrentPrefixCfg
          GetCurrentRunner availableProtons winetricks text w with
  | Some chosen =>
      exists rendered,
        renderChosenPrefix SetCurrentPrefix SetCurrentPrefixCfg GetCurrentRunner
          availableProtons text w = Some rendered
        /\ threadsCount (pc_window chosen) = threadsCount rendered.1
        /\ umuController (pc_window chosen) = umuController rendered.1
        /\ currentlyRunning (pc_window chosen) = currentlyRunning rendered.1
        /\ oneOffsRunning (pc_window chosen) = oneOffsRunning rendered.1
        /\ prefixShortcutLabel (pc_window chosen) = prefixShortcutLabel rendered.1
        /\ prefixShortcutPlayButton (pc_window chosen)
           = prefixShortcutPlayButton rendered.1
        /\ fs (pc_window chosen) = fs rendered.1
        /\ pc_warned chosen = rendered.2
  | None =>
      renderChosenPrefix SetCurrentPrefix SetCurrentPrefixCfg GetCurrentRunner
        availableProtons text w = None
  end.
Proof.
  unfold prefixMainButtons_clicked.
  destruct (renderChosenPrefix SetCurrentPrefix SetCurrentPrefixCfg GetCurrentRunner
              availableProtons text w) as [rendered|]; [|reflexivity].
  cbn [mbind option_bind].
  destruct (chosen_tail_fields winetricks rendered.1)
    as (T1 & T2 & T3 & T4 & T5 & T6 & T7 & _).
  cbn zeta in *.
  remember (CheckWinetricks winetricks
              (SetHeader (NeroFS.currentPrefix (fs rendered.1))
                 (length (NeroFS.GetCurrentPrefixShortcuts (fs rendered.1)))
                 rendered.1)) as checked eqn:E.
  clear E. exists rendered. cbn [pc_window pc_warned]. by repeat split.
Qed.

End Choose.

(** X24. When a prefix is chosen, the two buttons for the
    settings and the components of the prefix are both enabled, unless
    something runs and the prefix is the default one of the manager; then
    both are disabled.  What [CheckWinetricks] did to the button for the
    components does not last: where no winetricks is found the button reads
    that it was not found, in red, and is enabled all the same when nothing
    runs.  The header marks a prefix as selected unless its name is empty.
    The runs and the settings of the manager are left as they were. *)
Theorem X24_prefixMainButtons_clicked_buttons_enabled
    (SetCurrentPrefix : string -> NeroFS.t -> NeroFS.t)
    (SetCurrentPrefixCfg : string -> string -> string -> NeroFS.t -> NeroFS.t)
    (GetCurrentRunner : NeroFS.t -> string)
    (availableProtons : list string) (winetricks : string)
    (text : string) (w : Window) (chosen : PrefixChosen) :
  prefixMainButtons_clicked SetCurrentPrefix SetCurrentPrefixCfg GetCurrentRunner
    availableProtons winetricks text w = Some chosen ->
  let w' := pc_window chosen in
  let locked :=
    bool_decide (0 < length (currentlyRunning w))%nat
    && String.eqb (NeroFS.currentPrefix (fs w'))
         (Qt.toString (managerCfg w !! "DefaultPrefix")) in
  prefixTricksBtnEnabled (ui w') = negb locked
  /\ prefixSettingsBtnEnabled (ui w') = negb locked
  /\ pc_tricksButton chosen
     = (if String.eqb winetricks EmptyString
        then mkTricksButton "Winetricks Not Found" "color: red"
        else mkTricksButton "Install Winetricks Components" EmptyString)
  /\ prefixIsSelected w' = negb (String.eqb (NeroFS.currentPrefix (fs w')) EmptyString)
  /\ threadsCount w' = threadsCount w /\ umuController w' = umuController w
  /\ currentlyRunning w' = currentlyRunning w /\ oneOffsRunning w' = oneOffsRunning w
  /\ managerCfg w' = managerCfg w.
Proof.
  unfold prefixMainButtons_clicked.
  destruct (renderChosenPrefix SetCurrentPrefix SetCurrentPrefixCfg GetCurrentRunner
              availableProtons text w) as [rendered|] eqn:Hrendered; [|discriminate].
  cbn [mbind option_bind].
  apply renderChosenPrefix_runs in Hrendered as (R1 & R2 & R3 & R4 & R5).
  destruct (chosen_tail_fields winetricks rendered.1)
    as (T1 & T2 & T3 & T4 & _ & _ & T5 & T6 & T7 & T8 & _).
  cbn zeta in *.
  remember (CheckWinetricks winetricks
              (SetHeader (NeroFS.currentPrefix (fs rendered.1))
                 (length (NeroFS.GetCurrentPrefixShortcuts (fs rendered.1)))
                 rendered.1)) as checked eqn:E.
  clear E. intros [= <-]. cbn [pc_window pc_tricksButton].
  match goal with
  | |- prefixTricksBtnEnabled (ui (set_ui ?u ?c)) = _ /\ _ =>
      change (ui (set_ui u c)) with u;
      change (fs (set_ui u c)) with (fs c);
      change (prefixIsSelected (set_ui u c)) with (prefixIsSelected c);
      change (threadsCount (set_ui u c)) with (threadsCount c);
      change (umuController (set_ui u c)) with (umuController c);
      change (currentlyRunning (set_ui u c)) with (currentlyRunning c);
      change (oneOffsRunning (set_ui u c)) with (oneOffsRunning c);
      change (managerCfg (set_ui u c)) with (managerCfg c)
  end.
  rewrite T1, T2, T3, T4, T5, T6, T7, T8, R1, R2, R3, R4, R5.
  by repeat split.
Qed.

Lemma X24_prefixMainButtons_clicked_buttons_enabled_witness :
  exists chosen,
    prefixMainButtons_clicked ExampleChoose.SetCurrentPrefix
      ExampleChoose.SetCurrentPrefixCfg ExampleChoose.GetCurrentRunner
      ["GE-Proton9-1"] EmptyString "Office" Example.window = Some chosen
    /\ prefixTricksBtnEnabled (ui (pc_window chosen)) = true
    /\ tb_text (pc_tricksButton chosen) = "Winetricks Not Found".
Proof.
  eexists. split; [reflexivity|].
  match goal with |- prefixTricksBtnEnabled (ui (pc_window ?c)) = _ /\ _ =>
    destruct (X24_prefixMainButtons_clicked_buttons_enabled
                ExampleChoose.SetCurrentPrefix ExampleChoose.SetCurrentPrefixCfg
                ExampleChoose.GetCurrentRunner ["GE-Proton9-1"] EmptyString
                "Office" Example.window c eq_refl) as (Henabled & _ & Hbutton & _)
  end.
  split; [exact Henabled|by rewrite Hbutton].
Defined.

(** X25. On a window whose rows are well formed, choosing a
    prefix fails in one case only: the prefix is not the current one and
    no Proton runner is available, so that there is no first runner to fall
    back on.  Choosing the current prefix leaves the rows and the store as
    they are and warns of nothing.  Choosing another one replaces the rows
    by one row per shortcut of the prefix, as the store holds them right
    after the prefix was made the current one: the labels are a
    permutation of the display names, sorted by the comparison that
    ignores the case of letters (the order among names that differ by case
    alone is left open).  The warning is shown exactly when the runner of
    the prefix is not among the available ones, and the store is then the
    one in which the first available runner was written and the prefix
    loaded again, the rows staying those rendered before.  In both cases
    the rows are well formed afterwards, and a window in which nothing runs
    stays one the actions start from. *)
Theorem X25_prefixMainButtons_clicked_rows
    (SetCurrentPrefix : string -> NeroFS.t -> NeroFS.t)
    (SetCurrentPrefixCfg : string -> string -> string -> NeroFS.t -> NeroFS.t)
    (GetCurrentRunner : NeroFS.t -> string)
    (availableProtons : list string) (winetricks : string)
    (text : string) (w : Window) :
  Rows w ->
  let result :=
    prefixMainButtons_clicked SetCurrentPrefix SetCurrentPrefixCfg GetCurrentRunner
      availableProtons winetricks text w in
  let loaded := SetCurrentPrefix text (fs w) in
  (result = None <-> NeroFS.currentPrefix (fs w) <> text /\ availableProtons = [])
  /\ forall chosen,
       result = Some chosen ->
       let w' := pc_window chosen in
       Rows w'
       /\ (Idle w -> Reachable w')
       /\ (NeroFS.currentPrefix (fs w) = text ->
           prefixShortcutLabel w' = prefixShortcutLabel w
           /\ prefixShortcutPlayButton w' = prefixShortcutPlayButton w
           /\ fs w' = fs w /\ pc_warned chosen = false)
       /\ (NeroFS.currentPrefix (fs w) <> text ->
           (exists names,
               prefixShortcutLabel w' = Some <$> names
               /\ Permutation names (NeroFS.GetCurrentPrefixShortcuts loaded)
               /\ StronglySorted ci_le names)
           /\ pc_warned chosen
              = negb (bool_decide (GetCurrentRunner loaded ∈ availableProtons))
           /\ (pc_warned chosen = false -> fs w' = loaded)
           /\ (pc_warned chosen = true ->
               exists first,
                 head availableProtons = Some first
                 /\ fs w'
                    = SetCurrentPrefix text
                        (SetCurrentPrefixCfg "PrefixSettings" "CurrentRunner" first
                           loaded))).
Proof.
  intros Hrows. cbn zeta.
  pose proof (prefixMainButtons_clicked_inv SetCurrentPrefix SetCurrentPrefixCfg
                GetCurrentRunner availableProtons winetricks text w) as Hinv.
  destruct (decide (NeroFS.currentPrefix (fs w) = text)) as [Hsame|Hother].
  - rewrite (renderChosenPrefix_same SetCurrentPrefix SetCurrentPrefixCfg
               GetCurrentRunner availableProtons text w Hsame) in Hinv.
    destruct (prefixMainButtons_clicked _ _ _ _ _ _ _) as [chosen0|]; [|discriminate].
    destruct Hinv as (rendered & [= <-] & H1 & H2 & H3 & H4 & H5 & H6 & H7 & H8).
    cbn [fst snd] in *.
    split; [split; [discriminate|by intros [? _]]|].
    intros chosen [= <-].
    assert (HR : Rows (pc_window chosen0)) by exact (Rows_ext _ _ Hrows H5 H6).
    split; [exact HR|]. split; [|split; [done|done]].
    intros (I1 & I2 & I3 & I4). apply reach_idle; [|exact HR].
    unfold Idle. by rewrite H1, H2, H3, H4.
  - destruct (renderChosenPrefix_other SetCurrentPrefix SetCurrentPrefixCfg
                GetCurrentRunner availableProtons text w Hother)
      as (w0 & Hl & Hb & Hfs & G1 & G2 & G3 & G4 & _ & Hrendered).
    { by rewrite (rows_length _ Hrows). }
    { intros Hnil. pose proof (rows_length _ Hrows) as Hlen.
      rewrite Hnil in Hlen. symmetry in Hlen. by apply nil_length_inv in Hlen. }
    destruct (RenderPrefixList_fresh w0 Hl Hb) as (HR & Hlabels & _).
    destruct (RenderPrefixList_runs w0) as (R1 & R2 & R3 & R4 & R5 & _).
    cbn zeta in HR, Hlabels. rewrite Hfs in Hlabels, R5.
    remember (RenderPrefixList w0) as wr eqn:E. clear E.
    rewrite Hrendered in Hinv. clear Hrendered.
    case_bool_decide as Hrunner.
    + destruct (prefixMainButtons_clicked _ _ _ _ _ _ _) as [chosen0|]; [|discriminate].
      destruct Hinv as (rendered & [= <-] & H1 & H2 & H3 & H4 & H5 & H6 & H7 & H8).
      cbn [fst snd] in *.
      split; [split; [discriminate|]|].
      { intros [_ Hnone]. rewrite Hnone in Hrunner. by apply elem_of_nil in Hrunner. }
      intros chosen [= <-].
      assert (HR' : Rows (pc_window chosen0)) by exact (Rows_ext _ _ HR H5 H6).
      split; [exact HR'|]. split; [|split; [done|]].
      * intros (I1 & I2 & I3 & I4). apply reach_idle; [|exact HR'].
        unfold Idle. by rewrite H1, H2, H3, H4, R1, R2, R3, R4, G1, G2, G3, G4.
      * intros _.
           split; [exists (sort_ci (NeroFS.GetCurrentPrefixShortcuts
                                      (SetCurrentPrefix text (fs w))));
                   split; [by rewrite H5|];
                   split; [apply sort_ci_perm|apply sort_ci_sorted]|]. split; [by rewrite H8|].
        split; [intros _; by rewrite H7|]. rewrite H8. discriminate.
    + destruct (head availableProtons) as [first|] eqn:Hfirst; cbn [mbind option_bind] in Hinv.
      * destruct (prefixMainButtons_clicked _ _ _ _ _ _ _) as [chosen0|]; [|discriminate].
        destruct Hinv as (rendered & [= <-] & H1 & H2 & H3 & H4 & H5 & H6 & H7 & H8).
        cbn [fst snd] in *.
        change (threadsCount (set_fs ?s wr)) with (threadsCount wr) in H1.
        change (umuController (set_fs ?s wr)) with (umuController wr) in H2.
        change (currentlyRunning (set_fs ?s wr)) with (currentlyRunning wr) in H3.
        change (oneOffsRunning (set_fs ?s wr)) with (oneOffsRunning wr) in H4.
        change (prefixShortcutLabel (set_fs ?s wr)) with (prefixShortcutLabel wr) in H5.
        change (prefixShortcutPlayButton (set_fs ?s wr))
          with (prefixShortcutPlayButton wr) in H6.
        change (fs (set_fs ?s wr)) with s in H7.
        split; [split; [discriminate|]|].
        { intros [_ Hnone]. by rewrite Hnone in Hfirst. }
        intros chosen [= <-].
        assert (HR' : Rows (pc_window chosen0)) by exact (Rows_ext _ _ HR H5 H6).
        split; [exact HR'|]. split; [|split; [done|]].
        -- intros (I1 & I2 & I3 & I4). apply reach_idle; [|exact HR'].
           unfold Idle. by rewrite H1, H2, H3, H4, R1, R2, R3, R4, G1, G2, G3, G4.
        -- intros _.
           split; [exists (sort_ci (NeroFS.GetCurrentPrefixShortcuts
                                      (SetCurrentPrefix text (fs w))));
                   split; [by rewrite H5|];
                   split; [apply sort_ci_perm|apply sort_ci_sorted]|]. split; [by rewrite H8|].
           split; [rewrite H8; discriminate|]. intros _. by exists first.
      * destruct (prefixMainButtons_clicked _ _ _ _ _ _ _) as [chosen0|].
        { by destruct Hinv as (rendered & Hnone & _). }
        split; [|discriminate]. split; [|done]. intros _. split; [exact Hother|].
        by destruct availableProtons.
Qed.

Lemma X25_prefixMainButtons_clicked_rows_witness :
  exists chosen,
    prefixMainButtons_clicked ExampleChoose.SetCurrentPrefix
      ExampleChoose.SetCurrentPrefixCfg ExampleChoose.GetCurrentRunner
      ["GE-Proton9-1"] EmptyString "Office" Example.window = Some chosen
    /\ Rows (pc_window chosen)
    /\ prefixShortcutLabel (pc_window chosen) = [Some "calc"; Some "Writer"]
    /\ (exists names,
          prefixShortcutLabel (pc_window chosen) = Some <$> names
          /\ Permutation names ["Writer"; "calc"]
          /\ StronglySorted ci_le names)
    /\ pc_warned chosen = true.
Proof.
  eexists. split; [reflexivity|].
  match goal with |- Rows (pc_window ?c) /\ _ =>
    destruct (proj2 (X25_prefixMainButtons_clicked_rows
                       ExampleChoose.SetCurrentPrefix ExampleChoose.SetCurrentPrefixCfg
                       ExampleChoose.GetCurrentRunner ["GE-Proton9-1"] EmptyString
                       "Office" Example.window Example_window_Rows) c eq_refl)
      as (Hrows & _ & _ & Hother)
  end.
  destruct (Hother ltac:(discriminate)) as (Hnames & Hwarned & _).
  split; [exact Hrows|]. split; [reflexivity|]. split; [exact Hnames|exact Hwarned].
Defined.
